(** * Rasa core events: the event model and its two codecs

    A shallow embedding of [rasa/core/events/__init__.py]: the event
    variants, their identity rules ([__eq__], [__hash__]), the dict codec
    ([as_dict], [Event.from_parameters], [deserialise_events]) and the
    story-string codec ([as_story_string], [Event.from_story_string]).

    Python objects are modelled by the inductive [value] (JSON-like data);
    the interpreter's effects (clock, uuid generator, logger, exceptions)
    by the state-and-error monad [M] over [World]. The methods [apply_to]
    act on the dialogue state tracker, which lives outside this module,
    and are left out, as are [__str__] and [__repr__]. *)

From Stdlib Require Import String Ascii List ZArith QArith Bool Lia.
From Stdlib Require Import DecimalString Qround.
Import ListNotations.
Local Open Scope string_scope.
Local Open Scope Z_scope.
Set Warnings "-register-all".

(** ** Python values *)

(** The data that flows through the codecs: what [json.loads] produces,
    with [Dict[Text, Any]] as an insertion-ordered association list.
    A float is held as the rational it denotes (finite floats only). *)
Inductive value : Type :=
| VNone
| VBool (b : bool)
| VInt (n : Z)
| VFloat (q : Q)
| VStr (s : string)
| VList (l : list value)
| VDict (d : list (string * value)).

Definition dict := list (string * value).

(** Induction principle that also covers the values nested in lists and
    dicts. *)
Section value_ind_nested.
Variable P : value -> Prop.
Hypothesis HNone : P VNone.
Hypothesis HBool : forall b, P (VBool b).
Hypothesis HInt : forall n, P (VInt n).
Hypothesis HFloat : forall q, P (VFloat q).
Hypothesis HStr : forall s, P (VStr s).
Hypothesis HList : forall l, Forall P l -> P (VList l).
Hypothesis HDict : forall d, Forall (fun kv => P (snd kv)) d -> P (VDict d).

Fixpoint value_ind' (v : value) : P v :=
  match v with
  | VNone => HNone
  | VBool b => HBool b
  | VInt n => HInt n
  | VFloat q => HFloat q
  | VStr s => HStr s
  | VList l =>
      HList l ((fix go (l : list value) : Forall P l :=
                  match l with
                  | [] => Forall_nil _
                  | x :: r => Forall_cons _ (value_ind' x) (go r)
                  end) l)
  | VDict d =>
      HDict d ((fix go (d : dict) : Forall (fun kv => P (snd kv)) d :=
                  match d with
                  | [] => Forall_nil _
                  | kv :: r => Forall_cons kv (value_ind' (snd kv)) (go r)
                  end) d)
  end.
End value_ind_nested.

(** Truth value of an object, as used by [if x:], [x or y], [not x]. *)
Definition truthy (v : value) : bool :=
  match v with
  | VNone => false
  | VBool b => b
  | VInt n => negb (n =? 0)
  | VFloat q => negb (Qeq_bool q 0)
  | VStr s => negb (String.eqb s EmptyString)
  | VList l => match l with [] => false | _ => true end
  | VDict d => match d with [] => false | _ => true end
  end.

(** [x or y] *)
Definition py_or (x y : value) : value := if truthy x then x else y.

(** ** Dictionaries (insertion ordered, [str] keys) *)

Fixpoint dict_get (d : dict) (k : string) : option value :=
  match d with
  | [] => None
  | (k', v) :: r => if String.eqb k' k then Some v else dict_get r k
  end.

(** [d.get(k)] *)
Definition get (d : dict) (k : string) : value :=
  match dict_get d k with Some v => v | None => VNone end.

(** [d.get(k, default)] *)
Definition get_default (d : dict) (k : string) (default : value) : value :=
  match dict_get d k with Some v => v | None => default end.

(** [k in d] *)
Definition dict_mem (k : string) (d : dict) : bool :=
  match dict_get d k with Some _ => true | None => false end.

(** [d[k] = v]: an existing key keeps its position, a new key goes last. *)
Fixpoint dict_set (d : dict) (k : string) (v : value) : dict :=
  match d with
  | [] => [(k, v)]
  | (k', v') :: r =>
      if String.eqb k' k then (k', v) :: r else (k', v') :: dict_set r k v
  end.

(** [d.update(u)] *)
Definition dict_update (d u : dict) : dict :=
  fold_left (fun acc kv => dict_set acc (fst kv) (snd kv)) u d.

(** [first_key]: the first key that is not [default_key] when there are
    several keys, the only key when there is one, else [None]. *)
Definition first_key (d : dict) (default_key : string) : option string :=
  if (1 <? length d)%nat then
    match filter (fun kv => negb (String.eqb (fst kv) default_key)) d with
    | kv :: _ => Some (fst kv)
    | [] => None
    end
  else
    match d with
    | [kv] => Some (fst kv)
    | _ => None
    end.

(** ** Equality of values: Python's [==] *)

(** bool, int and float compare by numeric value. *)
Definition as_number (v : value) : option Q :=
  match v with
  | VBool b => Some (if b then 1%Q else 0%Q)
  | VInt n => Some (inject_Z n)
  | VFloat q => Some q
  | _ => None
  end.

Fixpoint py_eq (a b : value) : bool :=
  match a with
  | VNone => match b with VNone => true | _ => false end
  | VBool _ | VInt _ | VFloat _ =>
      match as_number a, as_number b with
      | Some x, Some y => Qeq_bool x y
      | _, _ => false
      end
  | VStr s => match b with VStr t => String.eqb s t | _ => false end
  | VList l =>
      match b with
      | VList m =>
          (fix go (l m : list value) : bool :=
             match l, m with
             | [], [] => true
             | x :: l', y :: m' => py_eq x y && go l' m'
             | _, _ => false
             end) l m
      | _ => false
      end
  | VDict d =>
      match b with
      | VDict e =>
          (length d =? length e)%nat &&
          (fix go (d : dict) : bool :=
             match d with
             | [] => true
             | (k, x) :: d' =>
                 match dict_get e k with
                 | Some y => py_eq x y
                 | None => false
                 end && go d'
             end) d
      | _ => false
      end
  end.

(** [x is None] *)
Definition is_None (v : value) : bool :=
  match v with VNone => true | _ => false end.

(** ** [json.dumps]

    Text is held UTF-8 encoded in [string]; [ensure_ascii=True] decodes
    each sequence to its code point and writes it as [\uXXXX] (a surrogate
    pair above the basic plane), [ensure_ascii=False] copies it. *)

Definition hex_digit (n : N) : ascii :=
  ascii_of_N (if (n <? 10)%N then 48 + n else 87 + n)%N.

(** [format(n, "04x")] *)
Definition hex4 (n : N) : string :=
  String (hex_digit (N.land (N.shiftr n 12) 15))
    (String (hex_digit (N.land (N.shiftr n 8) 15))
       (String (hex_digit (N.land (N.shiftr n 4) 15))
          (String (hex_digit (N.land n 15)) EmptyString))).

Definition backslash : ascii := ascii_of_N 92.
Definition dquote : ascii := ascii_of_N 34.

Definition u_escape (n : N) : string :=
  String backslash (String "u" (hex4 n)).

(** A code point outside ASCII, [ensure_ascii=True]. *)
Definition escape_code_point (cp : N) : string :=
  if (cp <? 65536)%N then u_escape cp
  else
    let n := (cp - 65536)%N in
    u_escape (N.lor 55296 (N.land (N.shiftr n 10) 1023))
      ++ u_escape (N.lor 56320 (N.land n 1023)).

(** Characters below 128: the short escapes, [\u00XX] for the other
    control characters, and with [ensure_ascii] also for DEL. *)
Definition escape_ascii_char (ensure_ascii : bool) (c : ascii) : string :=
  let n := N_of_ascii c in
  if (n =? 34)%N then String backslash (String dquote EmptyString)
  else if (n =? 92)%N then String backslash (String backslash EmptyString)
  else if (n =? 10)%N then String backslash "n"
  else if (n =? 13)%N then String backslash "r"
  else if (n =? 9)%N then String backslash "t"
  else if (n =? 8)%N then String backslash "b"
  else if (n =? 12)%N then String backslash "f"
  else if (n <? 32)%N then u_escape n
  else if ((n =? 127)%N && ensure_ascii)%bool then u_escape n
  else String c EmptyString.

Definition cont (c : ascii) : N := N.land (N_of_ascii c) 63.

Fixpoint escape_string (ensure_ascii : bool) (s : string) : string :=
  match s with
  | EmptyString => EmptyString
  | String c r =>
      let n := N_of_ascii c in
      if (n <? 128)%N then
        escape_ascii_char ensure_ascii c ++ escape_string ensure_ascii r
      else if negb ensure_ascii then String c (escape_string ensure_ascii r)
      else if (n <? 224)%N then
        match r with
        | String c1 r1 =>
            escape_code_point (N.lor (N.shiftl (N.land n 31) 6) (cont c1))
              ++ escape_string ensure_ascii r1
        | _ => escape_code_point n
        end
      else if (n <? 240)%N then
        match r with
        | String c1 (String c2 r2) =>
            escape_code_point
              (N.lor (N.shiftl (N.land n 15) 12)
                 (N.lor (N.shiftl (cont c1) 6) (cont c2)))
              ++ escape_string ensure_ascii r2
        | _ => escape_code_point n ++ escape_string ensure_ascii r
        end
      else
        match r with
        | String c1 (String c2 (String c3 r3)) =>
            escape_code_point
              (N.lor (N.shiftl (N.land n 7) 18)
                 (N.lor (N.shiftl (cont c1) 12)
                    (N.lor (N.shiftl (cont c2) 6) (cont c3))))
              ++ escape_string ensure_ascii r3
        | _ => escape_code_point n ++ escape_string ensure_ascii r
        end
  end.

(** [json.encoder.encode_basestring(_ascii)] *)
Definition encode_basestring (ensure_ascii : bool) (s : string) : string :=
  String dquote (escape_string ensure_ascii s ++ String dquote EmptyString).

(** [str(n)] for an int *)
Definition str_of_int (n : Z) : string := NilZero.string_of_int (Z.to_int n).

Fixpoint join (sep : string) (l : list string) : string :=
  match l with
  | [] => EmptyString
  | [x] => x
  | x :: r => x ++ sep ++ join sep r
  end.

Section Json.
(** [float.__repr__], the interpreter's shortest round-tripping decimal. *)
Variable float_repr : Q -> string.

(** [json.dumps(v, ensure_ascii=...)] with the default separators. *)
Fixpoint json_dumps (ensure_ascii : bool) (v : value) : string :=
  match v with
  | VNone => "null"
  | VBool true => "true"
  | VBool false => "false"
  | VInt n => str_of_int n
  | VFloat q => float_repr q
  | VStr s => encode_basestring ensure_ascii s
  | VList l => "[" ++ join ", " (map (json_dumps ensure_ascii) l) ++ "]"
  | VDict d =>
      "{" ++ join ", "
        (map (fun kv => encode_basestring ensure_ascii (fst kv) ++ ": "
                        ++ json_dumps ensure_ascii (snd kv)) d) ++ "}"
  end.
End Json.


(** Iterating a [str] yields its characters (one UTF-8 sequence each). *)
Fixpoint utf8_chars (s : string) : list string :=
  match s with
  | EmptyString => []
  | String c r =>
      let n := N_of_ascii c in
      if (n <? 192)%N then String c EmptyString :: utf8_chars r
      else if (n <? 224)%N then
        match r with
        | String c1 r1 => String c (String c1 EmptyString) :: utf8_chars r1
        | _ => [String c EmptyString]
        end
      else if (n <? 240)%N then
        match r with
        | String c1 (String c2 r2) =>
            String c (String c1 (String c2 EmptyString)) :: utf8_chars r2
        | _ => String c EmptyString :: utf8_chars r
        end
      else
        match r with
        | String c1 (String c2 (String c3 r3)) =>
            String c (String c1 (String c2 (String c3 EmptyString)))
              :: utf8_chars r3
        | _ => String c EmptyString :: utf8_chars r
        end
  end.

(** ** Exceptions and results *)

Inductive exn : Type :=
| KeyError (msg : string)
| ValueError (msg : string)
| TypeError (msg : string)
| AttributeError (msg : string)
| NotImplementedError.

Inductive Result (A : Type) : Type :=
| Ok (a : A)
| Raise (e : exn).
Arguments Ok {A} a.
Arguments Raise {A} e.

Definition rbind {A B} (r : Result A) (k : A -> Result B) : Result B :=
  match r with Ok a => k a | Raise e => Raise e end.

Notation "'let?' x := r 'in' k" := (rbind r (fun x => k))
  (at level 10, x name, r at level 100, k at level 200).

Fixpoint rmap_list {A B} (f : A -> Result B) (l : list A) : Result (list B) :=
  match l with
  | [] => Ok []
  | x :: r => let? y := f x in let? ys := rmap_list f r in Ok (y :: ys)
  end.

(** [type(v).__name__], for the messages of attribute and type errors. *)
Definition type_name_of (v : value) : string :=
  match v with
  | VNone => "NoneType" | VBool _ => "bool" | VInt _ => "int"
  | VFloat _ => "float" | VStr _ => "str" | VList _ => "list"
  | VDict _ => "dict"
  end.

Definition no_attribute (v : value) (attr : string) : exn :=
  AttributeError
    ("'" ++ type_name_of v ++ "' object has no attribute '" ++ attr ++ "'").

(** [v.get(k)] on an arbitrary object. *)
Definition obj_get (v : value) (k : string) : Result value :=
  match v with
  | VDict d => Ok (get d k)
  | _ => Raise (no_attribute v "get")
  end.

(** [v.get(k, default)] on an arbitrary object. *)
Definition obj_get_default (v : value) (k : string) (default : value)
  : Result value :=
  match v with
  | VDict d => Ok (get_default d k default)
  | _ => Raise (no_attribute v "get")
  end.

(** [for x in v]: the items the loop sees. *)
Definition py_iter (v : value) : Result (list value) :=
  match v with
  | VList l => Ok l
  | VDict d => Ok (map (fun kv => VStr (fst kv)) d)
  | VStr s => Ok (map VStr (utf8_chars s))
  | _ => Raise (TypeError ("'" ++ type_name_of v ++ "' object is not iterable"))
  end.

(** [ent[k]] *)
Definition subscript (v : value) (k : string) : Result value :=
  match v with
  | VDict d =>
      match dict_get d k with
      | Some x => Ok x
      | None => Raise (KeyError k)
      end
  | VStr _ => Raise (TypeError "string indices must be integers")
  | VList _ => Raise (TypeError "list indices must be integers or slices, not str")
  | _ => Raise (TypeError ("'" ++ type_name_of v ++ "' object is not subscriptable"))
  end.

(** ** The interpreter's world: clock, uuid generator, logger *)

Record World : Type := mkWorld {
  clock : nat -> Q;        (* successive readings of [time.time()] *)
  ticks : nat;             (* readings taken so far *)
  uuids : nat -> string;   (* successive [str(uuid.uuid1())] *)
  uuid_count : nat;
  log : list string        (* [logger.warning] messages, oldest first *)
}.

Definition M (A : Type) : Type := World -> Result A * World.

Definition ret {A} (a : A) : M A := fun w => (Ok a, w).
Definition raise {A} (e : exn) : M A := fun w => (Raise e, w).
Definition bind {A B} (m : M A) (k : A -> M B) : M B :=
  fun w => match m w with
           | (Ok a, w') => k a w'
           | (Raise e, w') => (Raise e, w')
           end.
Definition lift {A} (r : Result A) : M A := fun w => (r, w).

Notation "x <- m ;; k" := (bind m (fun x => k))
  (at level 61, m at next level, right associativity).
Notation "m ;;; k" := (bind m (fun _ => k))
  (at level 61, right associativity).

(** [try: body  except KeyError as e: handler(e)] *)
Definition try_except_KeyError {A} (body : M A) (handler : string -> M A)
  : M A :=
  fun w => match body w with
           | (Raise (KeyError msg), w') => handler msg w'
           | r => r
           end.

(** [time.time()] *)
Definition time_time : M value :=
  fun w => (Ok (VFloat (clock w (ticks w))),
            mkWorld (clock w) (S (ticks w)) (uuids w) (uuid_count w) (log w)).

(** [str(uuid.uuid1())] *)
Definition uuid_uuid1 : M value :=
  fun w => (Ok (VStr (uuids w (uuid_count w))),
            mkWorld (clock w) (ticks w) (uuids w) (S (uuid_count w)) (log w)).

(** [logger.warning(msg)] *)
Definition logger_warning (msg : string) : M unit :=
  fun w => (Ok tt,
            mkWorld (clock w) (ticks w) (uuids w) (uuid_count w)
              (log w ++ [msg])).

(** The reading [time.time()] returns next. *)
Definition now (w : World) : value := VFloat (clock w (ticks w)).

(** ** Library functions the module calls *)

(** [datetime.datetime]; [utcoffset] in minutes for an aware value. *)
Record datetime : Type := mkDatetime {
  year : Z; month : Z; day : Z;
  hour : Z; minute : Z; second : Z; microsecond : Z;
  utcoffset : option Z
}.

Record Externals : Type := mkExternals {
  float_repr : Q -> string;                 (* [float.__repr__] *)
  py_str : value -> string;                 (* [str(x)] of a container or float *)
  py_repr : dict -> string;                 (* [repr(d)] *)
  str_hash : string -> Z;                   (* [hash(s)], salted per process *)
  float_hash : Q -> Z;
  none_hash : Z;                            (* [hash(None)] *)
  tuple_hash : list Z -> Z;                 (* [hash((a, b, ...))] from item hashes *)
  jsonpickle_encode : value -> string;      (* [jsonpickle.encode] *)
  dateutil_parse : string -> option datetime; (* [dateutil.parser.parse] on text *)
  isoformat : datetime -> string;           (* [datetime.isoformat] *)
  (* [MarkdownWriter()._generate_message_md] after
     [MarkdownReader()._parse_training_example]; rasa.nlu is outside this
     module *)
  generate_message_md : value -> value -> list value -> Result string;
  json_loads : string -> Result value       (* [json.loads] *)
}.

Section Library.
Variable ext : Externals.

(** [str(v)], as [str.format] and f-strings insert it. *)
Definition py_format (v : value) : string :=
  match v with
  | VStr s => s
  | VNone => "None"
  | VBool true => "True"
  | VBool false => "False"
  | VInt n => str_of_int n
  | _ => py_str ext v
  end.

(** [hash(n)] of an int: reduction modulo [2^61 - 1], and never [-1]. *)
Definition int_hash (n : Z) : Z :=
  let h := Z.sgn n * (Z.abs n mod (2 ^ 61 - 1)) in
  if h =? -1 then -2 else h.

(** [hash(v)] *)
Definition py_hash (v : value) : Result Z :=
  match v with
  | VNone => Ok (none_hash ext)
  | VBool b => Ok (if b then 1 else 0)
  | VInt n => Ok (int_hash n)
  | VFloat q => Ok (float_hash ext q)
  | VStr s => Ok (str_hash ext s)
  | VList _ => Raise (TypeError "unhashable type: 'list'")
  | VDict _ => Raise (TypeError "unhashable type: 'dict'")
  end.

(** [dateutil.parser.parse(v)] *)
Definition parser_parse (v : value) : Result datetime :=
  match v with
  | VStr s =>
      match dateutil_parse ext s with
      | Some d => Ok d
      | None => Raise (ValueError ("Unknown string format: " ++ s))
      end
  | _ =>
      Raise (TypeError ("Parser must be a string or character stream, not "
                        ++ type_name_of v))
  end.

(** The key of [{k: v}] as [json.dumps] writes it: a [str] as it is,
    [None], bools and numbers by their JSON text; a list or dict cannot
    be a key at all. *)
Definition json_key (k : value) : Result string :=
  match k with
  | VStr s => Ok s
  | VNone => Ok "null"
  | VBool true => Ok "true"
  | VBool false => Ok "false"
  | VInt n => Ok (str_of_int n)
  | VFloat q => Ok (float_repr ext q)
  | VList _ => Raise (TypeError "unhashable type: 'list'")
  | VDict _ => Raise (TypeError "unhashable type: 'dict'")
  end.

Definition dumps (ensure_ascii : bool) (v : value) : string :=
  json_dumps (float_repr ext) ensure_ascii v.

(** Modelled from the spec: [rasa.core.utils.remove_none_values], which
    is not part of this module; the identity rule of BotUttered compares
    "data minus null-valued keys". *)
Definition remove_none_values (obj : value) : Result value :=
  match obj with
  | VDict d => Ok (VDict (filter (fun kv => negb (is_None (snd kv))) d))
  | _ => Raise (no_attribute obj "items")
  end.
End Library.

(** [(a, b, ...) == (a', b', ...)] *)
Fixpoint tuple_eq (l m : list value) : bool :=
  match l, m with
  | [], [] => true
  | x :: l', y :: m' => py_eq x y && tuple_eq l' m'
  | _, _ => false
  end.

(** ** The event model *)

(** The classes: what a [Type[Event]] value can be. *)
Inductive EventClass : Type :=
| UserUttered | BotUttered | SlotSet | Restarted | UserUtteranceReverted
| AllSlotsReset | ReminderScheduled | ReminderCancelled | ActionReverted
| StoryExported | FollowupAction | ConversationPaused | ConversationResumed
| ActionExecuted | AgentUttered | Form | FormValidation
| ActionExecutionRejected.

(** An instance, with the attributes its [__init__] sets, in the order of
    the [__init__] parameters. *)
Inductive Event : Type :=
| EvUserUttered (text intent entities parse_data timestamp input_channel
                 message_id metadata : value)
| EvBotUttered (text data metadata timestamp : value)
| EvSlotSet (key val timestamp metadata : value)
| EvRestarted (timestamp metadata : value)
| EvUserUtteranceReverted (timestamp metadata : value)
| EvAllSlotsReset (timestamp metadata : value)
| EvReminderScheduled (action_name : value) (trigger_date_time : datetime)
                      (name kill_on_user_message timestamp metadata : value)
| EvReminderCancelled (action_name timestamp metadata : value)
| EvActionReverted (timestamp metadata : value)
| EvStoryExported (path timestamp metadata : value)
| EvFollowupAction (action_name timestamp metadata : value)
| EvConversationPaused (timestamp metadata : value)
| EvConversationResumed (timestamp metadata : value)
| EvActionExecuted (action_name policy confidence timestamp metadata : value)
                   (unpredictable : bool)
| EvAgentUttered (text data timestamp metadata : value)
| EvForm (name timestamp metadata : value)
| EvFormValidation (validate timestamp metadata : value)
| EvActionExecutionRejected (action_name policy confidence timestamp
                             metadata : value).

(** [type(e)] *)
Definition class_of (e : Event) : EventClass :=
  match e with
  | EvUserUttered _ _ _ _ _ _ _ _ => UserUttered
  | EvBotUttered _ _ _ _ => BotUttered
  | EvSlotSet _ _ _ _ => SlotSet
  | EvRestarted _ _ => Restarted
  | EvUserUtteranceReverted _ _ => UserUtteranceReverted
  | EvAllSlotsReset _ _ => AllSlotsReset
  | EvReminderScheduled _ _ _ _ _ _ => ReminderScheduled
  | EvReminderCancelled _ _ _ => ReminderCancelled
  | EvActionReverted _ _ => ActionReverted
  | EvStoryExported _ _ _ => StoryExported
  | EvFollowupAction _ _ _ => FollowupAction
  | EvConversationPaused _ _ => ConversationPaused
  | EvConversationResumed _ _ => ConversationResumed
  | EvActionExecuted _ _ _ _ _ _ => ActionExecuted
  | EvAgentUttered _ _ _ _ => AgentUttered
  | EvForm _ _ _ => Form
  | EvFormValidation _ _ _ => FormValidation
  | EvActionExecutionRejected _ _ _ _ _ => ActionExecutionRejected
  end.

(** [cls.type_name] *)
Definition type_name (cls : EventClass) : string :=
  match cls with
  | UserUttered => "user"
  | BotUttered => "bot"
  | SlotSet => "slot"
  | Restarted => "restart"
  | UserUtteranceReverted => "rewind"
  | AllSlotsReset => "reset_slots"
  | ReminderScheduled => "reminder"
  | ReminderCancelled => "cancel_reminder"
  | ActionReverted => "undo"
  | StoryExported => "export"
  | FollowupAction => "followup"
  | ConversationPaused => "pause"
  | ConversationResumed => "resume"
  | ActionExecuted => "action"
  | AgentUttered => "agent"
  | Form => "form"
  | FormValidation => "form_validation"
  | ActionExecutionRejected => "action_execution_rejected"
  end.

(** [e.timestamp] *)
Definition timestamp_of (e : Event) : value :=
  match e with
  | EvUserUttered _ _ _ _ ts _ _ _ => ts
  | EvBotUttered _ _ _ ts => ts
  | EvSlotSet _ _ ts _ => ts
  | EvRestarted ts _ | EvUserUtteranceReverted ts _ | EvAllSlotsReset ts _
  | EvActionReverted ts _ | EvConversationPaused ts _
  | EvConversationResumed ts _ => ts
  | EvReminderScheduled _ _ _ _ ts _ => ts
  | EvReminderCancelled _ ts _ | EvStoryExported _ ts _
  | EvFollowupAction _ ts _ | EvForm _ ts _ | EvFormValidation _ ts _ => ts
  | EvActionExecuted _ _ _ ts _ _ => ts
  | EvAgentUttered _ _ ts _ => ts
  | EvActionExecutionRejected _ _ _ ts _ => ts
  end.

(** The [metadata] property: the [_metadata] attribute. *)
Definition metadata_of (e : Event) : value :=
  match e with
  | EvUserUttered _ _ _ _ _ _ _ md => md
  | EvBotUttered _ _ md _ => md
  | EvSlotSet _ _ _ md => md
  | EvRestarted _ md | EvUserUtteranceReverted _ md | EvAllSlotsReset _ md
  | EvActionReverted _ md | EvConversationPaused _ md
  | EvConversationResumed _ md => md
  | EvReminderScheduled _ _ _ _ _ md => md
  | EvReminderCancelled _ _ md | EvStoryExported _ _ md
  | EvFollowupAction _ _ md | EvForm _ _ md | EvFormValidation _ _ md => md
  | EvActionExecuted _ _ _ _ md _ => md
  | EvAgentUttered _ _ _ md => md
  | EvActionExecutionRejected _ _ _ _ md => md
  end.

(** ** The base class *)

Module Event.
(** [Event.__init__]: the attributes [timestamp] and [_metadata]. The
    clock is read only when the given timestamp is falsy. *)
Definition __init__ (timestamp metadata : value) : M (value * value) :=
  ts <- (if truthy timestamp then ret timestamp else time_time) ;;
  ret (ts, py_or metadata (VDict [])).

(** [Event.as_dict] *)
Definition as_dict (self : Event) : dict :=
  let d := [("event", VStr (type_name (class_of self)));
            ("timestamp", timestamp_of self)] in
  if truthy (metadata_of self)
  then dict_set d "metadata" (metadata_of self)
  else d.

(** [Event._from_story_string]; [cls] is the class called with two
    positional arguments. *)
Definition _from_story_string (cls : value -> value -> M Event)
    (parameters : dict) : M (option (list Event)) :=
  e <- cls (get parameters "timestamp") (get parameters "metadata") ;;
  ret (Some [e]).

(** [Event._from_parameters]; [cls_from_story_string] is the class's own
    [_from_story_string]. *)
Definition _from_parameters (ext : Externals)
    (cls_from_story_string : dict -> M (option (list Event)))
    (parameters : dict) : M (option Event) :=
  result <- cls_from_story_string parameters ;;
  match result with
  | None => raise (TypeError "object of type 'NoneType' has no len()")
  | Some l =>
      (if (1 <? length l)%nat
       then logger_warning
              ("Event from parameters called with parameters "
               ++ "for multiple events. This is not supported, "
               ++ "only the first event will be returned. "
               ++ "Parameters: " ++ py_repr ext parameters)
       else ret tt) ;;;
      ret (match l with e :: _ => Some e | [] => None end)
  end.
End Event.

(** ** The variants: construction and decoding *)

Module UserUttered.
Definition __init__ (text intent entities parse_data timestamp
                     input_channel message_id metadata : value) : M Event :=
  let intent := if truthy intent then intent else VDict [] in
  let entities := if truthy entities then entities else VList [] in
  p <- Event.__init__ timestamp metadata ;;
  let parse_data :=
    if truthy parse_data then parse_data
    else VDict [("intent", intent); ("entities", entities);
                ("text", text); ("message_id", message_id);
                ("metadata", snd p)] in
  ret (EvUserUttered text intent entities parse_data (fst p)
         input_channel message_id (snd p)).

Definition _from_parse_data (text parse_data timestamp input_channel
                             message_id metadata : value) : M Event :=
  intent <- lift (obj_get parse_data "intent") ;;
  entities <- lift (obj_get_default parse_data "entities" (VList [])) ;;
  __init__ text intent entities parse_data timestamp input_channel
    message_id metadata.

Definition empty : M Event :=
  __init__ VNone VNone VNone VNone VNone VNone VNone VNone.

Definition _from_story_string (parameters : dict)
  : M (option (list Event)) :=
  try_except_KeyError
    (e <- _from_parse_data (get parameters "text")
            (get parameters "parse_data") (get parameters "timestamp")
            (get parameters "input_channel") (get parameters "message_id")
            (get parameters "metadata") ;;
     ret (Some [e]))
    (fun msg => raise (ValueError ("Failed to parse bot uttered event. '"
                                   ++ msg ++ "'"))).

Definition _from_parameters (ext : Externals) : dict -> M (option Event) :=
  Event._from_parameters ext _from_story_string.
End UserUttered.

Module BotUttered.
Definition __init__ (text data metadata timestamp : value) : M Event :=
  let data := py_or data (VDict []) in
  p <- Event.__init__ timestamp metadata ;;
  ret (EvBotUttered text data (snd p) (fst p)).

Definition empty : M Event := __init__ VNone VNone VNone VNone.

Definition _from_story_string : dict -> M (option (list Event)) :=
  Event._from_story_string (fun a b => __init__ a b VNone VNone).

Definition _from_parameters (parameters : dict) : M (option Event) :=
  try_except_KeyError
    (e <- __init__ (get parameters "text") (get parameters "data")
            (get parameters "metadata") (get parameters "timestamp") ;;
     ret (Some e))
    (fun msg => raise (ValueError ("Failed to parse bot uttered event. '"
                                   ++ msg ++ "'"))).
End BotUttered.

Module SlotSet.
Definition __init__ (key val timestamp metadata : value) : M Event :=
  p <- Event.__init__ timestamp metadata ;;
  ret (EvSlotSet key val (fst p) (snd p)).

(** One event per item of the parameters, in their order; [None] when
    there are none. *)
Fixpoint slots_of (items : dict) : M (list Event) :=
  match items with
  | [] => ret []
  | (slot_key, slot_val) :: r =>
      e <- __init__ (VStr slot_key) slot_val VNone VNone ;;
      es <- slots_of r ;;
      ret (e :: es)
  end.

Definition _from_story_string (parameters : dict)
  : M (option (list Event)) :=
  slots <- slots_of parameters ;;
  ret (match slots with [] => None | _ => Some slots end).

Definition _from_parameters (parameters : dict) : M (option Event) :=
  try_except_KeyError
    (e <- __init__ (get parameters "name") (get parameters "value")
            (get parameters "timestamp") (get parameters "metadata") ;;
     ret (Some e))
    (fun msg => raise (ValueError ("Failed to parse set slot event. '"
                                   ++ msg ++ "'"))).
End SlotSet.

Module Restarted.
Definition __init__ (timestamp metadata : value) : M Event :=
  p <- Event.__init__ timestamp metadata ;;
  ret (EvRestarted (fst p) (snd p)).
Definition _from_story_string := Event._from_story_string __init__.
Definition _from_parameters (ext : Externals) :=
  Event._from_parameters ext _from_story_string.
End Restarted.

Module UserUtteranceReverted.
Definition __init__ (timestamp metadata : value) : M Event :=
  p <- Event.__init__ timestamp metadata ;;
  ret (EvUserUtteranceReverted (fst p) (snd p)).
Definition _from_story_string := Event._from_story_string __init__.
Definition _from_parameters (ext : Externals) :=
  Event._from_parameters ext _from_story_string.
End UserUtteranceReverted.

Module AllSlotsReset.
Definition __init__ (timestamp metadata : value) : M Event :=
  p <- Event.__init__ timestamp metadata ;;
  ret (EvAllSlotsReset (fst p) (snd p)).
Definition _from_story_string := Event._from_story_string __init__.
Definition _from_parameters (ext : Externals) :=
  Event._from_parameters ext _from_story_string.
End AllSlotsReset.

Module ReminderScheduled.
Definition __init__ (action_name : value) (trigger_date_time : datetime)
    (name kill_on_user_message timestamp metadata : value) : M Event :=
  name <- (if is_None name then uuid_uuid1 else ret name) ;;
  p <- Event.__init__ timestamp metadata ;;
  ret (EvReminderScheduled action_name trigger_date_time name
         kill_on_user_message (fst p) (snd p)).

Definition _from_story_string (ext : Externals) (parameters : dict)
  : M (option (list Event)) :=
  trigger_date_time <- lift (parser_parse ext (get parameters "date_time")) ;;
  e <- __init__ (get parameters "action") trigger_date_time
         (get_default parameters "name" VNone)
         (get_default parameters "kill_on_user_msg" (VBool true))
         (get parameters "timestamp") (get parameters "metadata") ;;
  ret (Some [e]).

Definition _from_parameters (ext : Externals) :=
  Event._from_parameters ext (_from_story_string ext).
End ReminderScheduled.

Module ReminderCancelled.
Definition __init__ (action_name timestamp metadata : value) : M Event :=
  p <- Event.__init__ timestamp metadata ;;
  ret (EvReminderCancelled action_name (fst p) (snd p)).

Definition _from_story_string (parameters : dict)
  : M (option (list Event)) :=
  e <- __init__ (get parameters "action") (get parameters "timestamp")
         (get parameters "metadata") ;;
  ret (Some [e]).

Definition _from_parameters (ext : Externals) :=
  Event._from_parameters ext _from_story_string.
End ReminderCancelled.

Module ActionReverted.
Definition __init__ (timestamp metadata : value) : M Event :=
  p <- Event.__init__ timestamp metadata ;;
  ret (EvActionReverted (fst p) (snd p)).
Definition _from_story_string := Event._from_story_string __init__.
Definition _from_parameters (ext : Externals) :=
  Event._from_parameters ext _from_story_string.
End ActionReverted.

Module StoryExported.
Definition __init__ (path timestamp metadata : value) : M Event :=
  p <- Event.__init__ timestamp metadata ;;
  ret (EvStoryExported path (fst p) (snd p)).

Definition _from_story_string (parameters : dict)
  : M (option (list Event)) :=
  e <- __init__ (get parameters "path") (get parameters "timestamp")
         (get parameters "metadata") ;;
  ret (Some [e]).

Definition _from_parameters (ext : Externals) :=
  Event._from_parameters ext _from_story_string.
End StoryExported.

Module FollowupAction.
Definition __init__ (name timestamp metadata : value) : M Event :=
  p <- Event.__init__ timestamp metadata ;;
  ret (EvFollowupAction name (fst p) (snd p)).

Definition _from_story_string (parameters : dict)
  : M (option (list Event)) :=
  e <- __init__ (get parameters "name") (get parameters "timestamp")
         (get parameters "metadata") ;;
  ret (Some [e]).

Definition _from_parameters (ext : Externals) :=
  Event._from_parameters ext _from_story_string.
End FollowupAction.

Module ConversationPaused.
Definition __init__ (timestamp metadata : value) : M Event :=
  p <- Event.__init__ timestamp metadata ;;
  ret (EvConversationPaused (fst p) (snd p)).
Definition _from_story_string := Event._from_story_string __init__.
Definition _from_parameters (ext : Externals) :=
  Event._from_parameters ext _from_story_string.
End ConversationPaused.

Module ConversationResumed.
Definition __init__ (timestamp metadata : value) : M Event :=
  p <- Event.__init__ timestamp metadata ;;
  ret (EvConversationResumed (fst p) (snd p)).
Definition _from_story_string := Event._from_story_string __init__.
Definition _from_parameters (ext : Externals) :=
  Event._from_parameters ext _from_story_string.
End ConversationResumed.

Module ActionExecuted.
Definition __init__ (action_name policy confidence timestamp
                     metadata : value) : M Event :=
  p <- Event.__init__ timestamp metadata ;;
  ret (EvActionExecuted action_name policy confidence (fst p) (snd p)
         false).

Definition _from_story_string (parameters : dict)
  : M (option (list Event)) :=
  e <- __init__ (get parameters "name") (get parameters "policy")
         (get parameters "confidence") (get parameters "timestamp")
         (get parameters "metadata") ;;
  ret (Some [e]).

Definition _from_parameters (ext : Externals) :=
  Event._from_parameters ext _from_story_string.
End ActionExecuted.

Module AgentUttered.
Definition __init__ (text data timestamp metadata : value) : M Event :=
  p <- Event.__init__ timestamp metadata ;;
  ret (EvAgentUttered text data (fst p) (snd p)).

Definition empty : M Event := __init__ VNone VNone VNone VNone.

Definition _from_story_string : dict -> M (option (list Event)) :=
  Event._from_story_string (fun a b => __init__ a b VNone VNone).

Definition _from_parameters (parameters : dict) : M (option Event) :=
  try_except_KeyError
    (e <- __init__ (get parameters "text") (get parameters "data")
            (get parameters "timestamp") (get parameters "metadata") ;;
     ret (Some e))
    (fun msg => raise (ValueError ("Failed to parse agent uttered event. '"
                                   ++ msg ++ "'"))).
End AgentUttered.

Module Form.
Definition __init__ (name timestamp metadata : value) : M Event :=
  p <- Event.__init__ timestamp metadata ;;
  ret (EvForm name (fst p) (snd p)).

Definition _from_story_string (parameters : dict)
  : M (option (list Event)) :=
  e <- __init__ (get parameters "name") (get parameters "timestamp")
         (get parameters "metadata") ;;
  ret (Some [e]).

Definition _from_parameters (ext : Externals) :=
  Event._from_parameters ext _from_story_string.
End Form.

Module FormValidation.
Definition __init__ (validate timestamp metadata : value) : M Event :=
  p <- Event.__init__ timestamp metadata ;;
  ret (EvFormValidation validate (fst p) (snd p)).

Definition _from_story_string : dict -> M (option (list Event)) :=
  Event._from_story_string (fun a b => __init__ a b VNone).

Definition _from_parameters (parameters : dict) : M (option Event) :=
  e <- __init__ (get parameters "validate") (get parameters "timestamp")
         (get parameters "metadata") ;;
  ret (Some e).
End FormValidation.

Module ActionExecutionRejected.
Definition __init__ (action_name policy confidence timestamp
                     metadata : value) : M Event :=
  p <- Event.__init__ timestamp metadata ;;
  ret (EvActionExecutionRejected action_name policy confidence (fst p)
         (snd p)).

Definition _from_story_string : dict -> M (option (list Event)) :=
  Event._from_story_string (fun a b => __init__ a b VNone VNone VNone).

Definition _from_parameters (parameters : dict) : M (option Event) :=
  e <- __init__ (get parameters "name") (get parameters "policy")
         (get parameters "confidence") (get parameters "timestamp")
         (get parameters "metadata") ;;
  ret (Some e).
End ActionExecutionRejected.

(** ** Instance methods, dispatched on the class of [self] *)

Section Methods.
Variable ext : Externals.

(** [ReminderScheduled._data_obj] *)
Definition _data_obj (action_name : value) (trigger_date_time : datetime)
    (name kill_on_user_message : value) : dict :=
  [("action", action_name);
   ("date_time", VStr (isoformat ext trigger_date_time));
   ("name", name);
   ("kill_on_user_msg", kill_on_user_message)].

(** [self.as_dict()] *)
Definition as_dict (self : Event) : dict :=
  let d := Event.as_dict self in
  match self with
  | EvUserUttered text _ _ parse_data _ input_channel message_id md =>
      dict_update d [("text", text); ("parse_data", parse_data);
                     ("input_channel", input_channel);
                     ("message_id", message_id); ("metadata", md)]
  | EvBotUttered text data md _ =>
      dict_update d [("text", text); ("data", data); ("metadata", md)]
  | EvSlotSet key val _ _ =>
      dict_update d [("name", key); ("value", val)]
  | EvReminderScheduled action_name trigger_date_time name kill _ _ =>
      dict_update d (_data_obj action_name trigger_date_time name kill)
  | EvFollowupAction action_name _ _ =>
      dict_update d [("name", action_name)]
  | EvActionExecuted action_name policy confidence _ _ _ =>
      dict_update d [("name", action_name); ("policy", policy);
                     ("confidence", confidence)]
  | EvAgentUttered text data _ _ =>
      dict_update d [("text", text); ("data", data)]
  | EvForm name _ _ => dict_update d [("name", name)]
  | EvFormValidation validate _ _ => dict_update d [("validate", validate)]
  | EvActionExecutionRejected action_name policy confidence _ _ =>
      dict_update d [("name", action_name); ("policy", policy);
                     ("confidence", confidence)]
  | _ => d
  end.

(** [BotUttered.__members] *)
Definition __members (text data md : value) : Result (list value) :=
  let? data_no_nones := remove_none_values data in
  let? meta_no_nones := remove_none_values md in
  Ok [text; VStr (jsonpickle_encode ext data_no_nones);
      VStr (jsonpickle_encode ext meta_no_nones)].

(** The triple [UserUttered.__eq__] compares. *)
Definition user_signature (text intent entities : value)
  : Result (list value) :=
  let? name := obj_get intent "name" in
  let? ents := py_iter entities in
  Ok [text; name; VList (map (fun ent => VStr (jsonpickle_encode ext ent)) ents)].

(** [self == other] *)
Definition __eq__ (self other : Event) : Result bool :=
  match self with
  | EvUserUttered text intent entities _ _ _ _ _ =>
      match other with
      | EvUserUttered text' intent' entities' _ _ _ _ _ =>
          let? a := user_signature text intent entities in
          let? b := user_signature text' intent' entities' in
          Ok (tuple_eq a b)
      | _ => Ok false
      end
  | EvBotUttered text data md _ =>
      match other with
      | EvBotUttered text' data' md' _ =>
          let? a := __members text data md in
          let? b := __members text' data' md' in
          Ok (tuple_eq a b)
      | _ => Ok false
      end
  | EvSlotSet key val _ _ =>
      match other with
      | EvSlotSet key' val' _ _ => Ok (tuple_eq [key; val] [key'; val'])
      | _ => Ok false
      end
  | EvRestarted _ _ =>
      Ok (match other with EvRestarted _ _ => true | _ => false end)
  | EvUserUtteranceReverted _ _ =>
      Ok (match other with EvUserUtteranceReverted _ _ => true
          | _ => false end)
  | EvAllSlotsReset _ _ =>
      Ok (match other with EvAllSlotsReset _ _ => true | _ => false end)
  | EvReminderScheduled _ _ name _ _ _ =>
      match other with
      | EvReminderScheduled _ _ name' _ _ _ => Ok (py_eq name name')
      | _ => Ok false
      end
  | EvReminderCancelled _ _ _ =>
      Ok (match other with EvReminderCancelled _ _ _ => true
          | _ => false end)
  | EvActionReverted _ _ =>
      Ok (match other with EvActionReverted _ _ => true | _ => false end)
  | EvStoryExported _ _ _ =>
      Ok (match other with EvStoryExported _ _ _ => true | _ => false end)
  | EvFollowupAction action_name _ _ =>
      match other with
      | EvFollowupAction action_name' _ _ =>
          Ok (py_eq action_name action_name')
      | _ => Ok false
      end
  | EvConversationPaused _ _ =>
      Ok (match other with EvConversationPaused _ _ => true
          | _ => false end)
  | EvConversationResumed _ _ =>
      Ok (match other with EvConversationResumed _ _ => true
          | _ => false end)
  | EvActionExecuted action_name _ _ _ _ _ =>
      match other with
      | EvActionExecuted action_name' _ _ _ _ _ =>
          Ok (py_eq action_name action_name')
      | _ => Ok false
      end
  | EvAgentUttered text data _ _ =>
      match other with
      | EvAgentUttered text' data' _ _ =>
          Ok (tuple_eq [text; VStr (jsonpickle_encode ext data)]
                [text'; VStr (jsonpickle_encode ext data')])
      | _ => Ok false
      end
  | EvForm name _ _ =>
      match other with
      | EvForm name' _ _ => Ok (py_eq name name')
      | _ => Ok false
      end
  | EvFormValidation _ _ _ =>
      Ok (match other with EvFormValidation _ _ _ => true | _ => false end)
  | EvActionExecutionRejected action_name _ _ _ _ =>
      match other with
      | EvActionExecutionRejected action_name' _ _ _ _ =>
          Ok (py_eq action_name action_name')
      | _ => Ok false
      end
  end.

(** [self != other] *)
Definition __ne__ (self other : Event) : Result bool :=
  let? b := __eq__ self other in Ok (negb b).

(** [hash((a, b, ...))] *)
Definition hash_tuple (items : list value) : Result Z :=
  let? hs := rmap_list (py_hash ext) items in Ok (tuple_hash ext hs).

(** [hash(self)] *)
Definition __hash__ (self : Event) : Result Z :=
  match self with
  | EvUserUttered text intent entities _ _ _ _ _ =>
      let? name := obj_get intent "name" in
      hash_tuple [text; name; VStr (jsonpickle_encode ext entities)]
  | EvBotUttered text data md _ =>
      let? m := __members text data md in hash_tuple m
  | EvSlotSet key val _ _ =>
      hash_tuple [key; VStr (jsonpickle_encode ext val)]
  | EvRestarted _ _ => py_hash ext (VInt 32143124312)
  | EvUserUtteranceReverted _ _ => py_hash ext (VInt 32143124315)
  | EvAllSlotsReset _ _ => py_hash ext (VInt 32143124316)
  | EvReminderScheduled action_name trigger_date_time name kill _ _ =>
      hash_tuple [action_name; VStr (isoformat ext trigger_date_time);
                  kill; name]
  | EvReminderCancelled action_name _ _ => py_hash ext action_name
  | EvActionReverted _ _ => py_hash ext (VInt 32143124318)
  | EvStoryExported _ _ _ => py_hash ext (VInt 32143124319)
  | EvFollowupAction action_name _ _ => py_hash ext action_name
  | EvConversationPaused _ _ => py_hash ext (VInt 32143124313)
  | EvConversationResumed _ _ => py_hash ext (VInt 32143124314)
  | EvActionExecuted action_name _ _ _ _ _ => py_hash ext action_name
  | EvAgentUttered text data _ _ =>
      hash_tuple [text; VStr (jsonpickle_encode ext data)]
  | EvForm name _ _ => py_hash ext name
  | EvFormValidation validate _ _ => py_hash ext validate
  | EvActionExecutionRejected action_name _ _ _ _ => py_hash ext action_name
  end.
End Methods.

(** ** The story-string encoding *)

Section StoryString.
Variable ext : Externals.

(** A dict display [{k1: v1, ...}] whose keys are computed: a later item
    with an equal key replaces the value and keeps the first position. *)
Fixpoint display_set (items : list (value * value)) (k v : value)
  : list (value * value) :=
  match items with
  | [] => [(k, v)]
  | (k', v') :: r =>
      if py_eq k' k then (k', v) :: r else (k', v') :: display_set r k v
  end.

(** [json.dumps({k1: v1, ...}, ensure_ascii=...)] for such a display. *)
Definition dumps_display (ensure_ascii : bool)
    (items : list (value * value)) : Result string :=
  let? rendered :=
    rmap_list (fun kv =>
                 let? k := json_key ext (fst kv) in
                 Ok (encode_basestring ensure_ascii k ++ ": "
                     ++ dumps ext ensure_ascii (snd kv))) items in
  Ok ("{" ++ join ", " rendered ++ "}").

(** [{ent["entity"]: ent["value"] for ent in entities}] *)
Fixpoint entity_display (ents : list value) (acc : list (value * value))
  : Result (list (value * value)) :=
  match ents with
  | [] => Ok acc
  | ent :: r =>
      let? k := subscript ent "entity" in
      let? v := subscript ent "value" in
      let? _ := json_key ext k in
      entity_display r (display_set acc k v)
  end.

(** [deserialise_entities] *)
Definition deserialise_entities (entities : value) : Result (list value) :=
  let? entities :=
    match entities with
    | VStr s => json_loads ext s
    | _ => Ok entities
    end in
  let? items := py_iter entities in
  Ok (filter (fun e => match e with VDict _ => true | _ => false end) items).

(** [md_format_message] *)
Definition md_format_message (text intent entities : value)
  : Result string :=
  let? deserialised_entities := deserialise_entities entities in
  generate_message_md ext text intent deserialised_entities.

(** [self.as_story_string()]; [e2e] is only read by UserUttered. The
    result is [None] for the variants that have no story form. *)
Definition as_story_string (self : Event) (e2e : bool) : Result value :=
  match self with
  | EvUserUttered text intent entities _ _ _ _ _ =>
      if truthy intent then
        let? ent_string :=
          if truthy entities then
            let? ents := py_iter entities in
            let? items := entity_display ents [] in
            dumps_display false items
          else Ok EmptyString in
        let? name := obj_get_default intent "name" (VStr EmptyString) in
        let parse_string := py_format ext name ++ ent_string in
        if e2e then
          let? message := md_format_message text intent entities in
          let? name := obj_get intent "name" in
          Ok (VStr (py_format ext name ++ ": " ++ message))
        else Ok (VStr parse_string)
      else Ok text
  | EvBotUttered _ _ _ _ => Ok VNone
  | EvSlotSet key val _ _ =>
      let? props := dumps_display false [(key, val)] in
      Ok (VStr (type_name SlotSet ++ props))
  | EvReminderScheduled action_name trigger_date_time name kill _ _ =>
      let props :=
        dumps ext true
          (VDict (_data_obj ext action_name trigger_date_time name kill)) in
      Ok (VStr (type_name ReminderScheduled ++ props))
  | EvReminderCancelled action_name _ _ =>
      let props := dumps ext true (VDict [("action", action_name)]) in
      Ok (VStr (type_name ReminderCancelled ++ props))
  | EvFollowupAction action_name _ _ =>
      let props := dumps ext true (VDict [("name", action_name)]) in
      Ok (VStr (type_name FollowupAction ++ props))
  | EvActionExecuted action_name _ _ _ _ _ => Ok action_name
  | EvAgentUttered _ _ _ _ => Ok VNone
  | EvForm name _ _ =>
      let props := dumps ext true (VDict [("name", name)]) in
      Ok (VStr (type_name Form ++ props))
  | EvFormValidation _ _ _ => Ok VNone
  | EvActionExecutionRejected _ _ _ _ _ => Ok VNone
  | EvRestarted _ _ | EvUserUtteranceReverted _ _ | EvAllSlotsReset _ _
  | EvActionReverted _ _ | EvStoryExported _ _ _
  | EvConversationPaused _ _ | EvConversationResumed _ _ =>
      Ok (VStr (type_name (class_of self)))
  end.
End StoryString.

(** ** The registry and the two decoders *)

Section Codec.
Variable ext : Externals.

(** Modelled from the spec: [rasa.core.utils.all_subclasses(Event)], which
    is not part of this module; the classes of the variant catalogue, in
    the order they are defined. *)
Definition all_subclasses : list EventClass :=
  [UserUttered; BotUttered; SlotSet; Restarted; UserUtteranceReverted;
   AllSlotsReset; ReminderScheduled; ReminderCancelled; ActionReverted;
   StoryExported; FollowupAction; ConversationPaused; ConversationResumed;
   ActionExecuted; AgentUttered; Form; FormValidation;
   ActionExecutionRejected].

(** [Event.resolve_by_type] *)
Definition resolve_by_type (tn : value) (default : option EventClass)
  : Result (option EventClass) :=
  match find (fun cls => py_eq (VStr (type_name cls)) tn) all_subclasses with
  | Some cls => Ok (Some cls)
  | None =>
      if py_eq tn (VStr "topic") then Ok None
      else
        match default with
        | Some d => Ok (Some d)
        | None =>
            Raise (ValueError
                     ("Unknown event name '" ++ py_format ext tn ++ "'."))
        end
  end.

(** [cls._from_story_string(parameters)] *)
Definition cls_from_story_string (cls : EventClass)
  : dict -> M (option (list Event)) :=
  match cls with
  | UserUttered => UserUttered._from_story_string
  | BotUttered => BotUttered._from_story_string
  | SlotSet => SlotSet._from_story_string
  | Restarted => Restarted._from_story_string
  | UserUtteranceReverted => UserUtteranceReverted._from_story_string
  | AllSlotsReset => AllSlotsReset._from_story_string
  | ReminderScheduled => ReminderScheduled._from_story_string ext
  | ReminderCancelled => ReminderCancelled._from_story_string
  | ActionReverted => ActionReverted._from_story_string
  | StoryExported => StoryExported._from_story_string
  | FollowupAction => FollowupAction._from_story_string
  | ConversationPaused => ConversationPaused._from_story_string
  | ConversationResumed => ConversationResumed._from_story_string
  | ActionExecuted => ActionExecuted._from_story_string
  | AgentUttered => AgentUttered._from_story_string
  | Form => Form._from_story_string
  | FormValidation => FormValidation._from_story_string
  | ActionExecutionRejected => ActionExecutionRejected._from_story_string
  end.

(** [cls._from_parameters(parameters)] *)
Definition cls_from_parameters (cls : EventClass)
  : dict -> M (option Event) :=
  match cls with
  | UserUttered => UserUttered._from_parameters ext
  | BotUttered => BotUttered._from_parameters
  | SlotSet => SlotSet._from_parameters
  | Restarted => Restarted._from_parameters ext
  | UserUtteranceReverted => UserUtteranceReverted._from_parameters ext
  | AllSlotsReset => AllSlotsReset._from_parameters ext
  | ReminderScheduled => ReminderScheduled._from_parameters ext
  | ReminderCancelled => ReminderCancelled._from_parameters ext
  | ActionReverted => ActionReverted._from_parameters ext
  | StoryExported => StoryExported._from_parameters ext
  | FollowupAction => FollowupAction._from_parameters ext
  | ConversationPaused => ConversationPaused._from_parameters ext
  | ConversationResumed => ConversationResumed._from_parameters ext
  | ActionExecuted => ActionExecuted._from_parameters ext
  | AgentUttered => AgentUttered._from_parameters
  | Form => Form._from_parameters ext
  | FormValidation => FormValidation._from_parameters
  | ActionExecutionRejected => ActionExecutionRejected._from_parameters
  end.

(** [Event.from_story_string] *)
Definition from_story_string (event_name : value) (parameters : dict)
    (default : option EventClass) : M (option (list Event)) :=
  event_class <- lift (resolve_by_type event_name default) ;;
  match event_class with
  | None => ret None
  | Some cls => cls_from_story_string cls parameters
  end.

(** [Event.from_parameters] *)
Definition from_parameters (parameters : dict)
    (default : option EventClass) : M (option Event) :=
  let event_name := get parameters "event" in
  if is_None event_name then ret None
  else
    event_class <- lift (resolve_by_type event_name default) ;;
    match event_class with
    | None => ret None
    | Some cls => cls_from_parameters cls parameters
    end.

(** The loop of [deserialise_events]; [deserialised] is the list built
    so far. *)
Fixpoint deserialise_loop (serialized_events : list dict)
    (deserialised : list Event) : M (list Event) :=
  match serialized_events with
  | [] => ret deserialised
  | e :: rest =>
      if dict_mem "event" e then
        event <- from_parameters e None ;;
        match event with
        | Some ev => deserialise_loop rest (deserialised ++ [ev])
        | None =>
            logger_warning
              ("Unable to parse event 'None' while deserialising. The event"
               ++ " will be ignored.") ;;;
            deserialise_loop rest deserialised
        end
      else deserialise_loop rest deserialised
  end.

(** [deserialise_events] *)
Definition deserialise_events (serialized_events : list dict)
  : M (list Event) :=
  deserialise_loop serialized_events [].
End Codec.

(** A call of any of the classes: the payload arguments of its [__init__];
    [timestamp] and [metadata] are passed along by [construct]. *)
Inductive ctor_call : Type :=
| NewUserUttered (text intent entities parse_data input_channel
                  message_id : value)
| NewBotUttered (text data : value)
| NewSlotSet (key val : value)
| NewRestarted
| NewUserUtteranceReverted
| NewAllSlotsReset
| NewReminderScheduled (action_name : value) (trigger_date_time : datetime)
                       (name kill_on_user_message : value)
| NewReminderCancelled (action_name : value)
| NewActionReverted
| NewStoryExported (path : value)
| NewFollowupAction (name : value)
| NewConversationPaused
| NewConversationResumed
| NewActionExecuted (action_name policy confidence : value)
| NewAgentUttered (text data : value)
| NewForm (name : value)
| NewFormValidation (validate : value)
| NewActionExecutionRejected (action_name policy confidence : value).

Definition construct (c : ctor_call) (timestamp metadata : value) : M Event :=
  match c with
  | NewUserUttered text intent entities parse_data input_channel message_id =>
      UserUttered.__init__ text intent entities parse_data timestamp
        input_channel message_id metadata
  | NewBotUttered text data => BotUttered.__init__ text data metadata timestamp
  | NewSlotSet key val => SlotSet.__init__ key val timestamp metadata
  | NewRestarted => Restarted.__init__ timestamp metadata
  | NewUserUtteranceReverted => UserUtteranceReverted.__init__ timestamp metadata
  | NewAllSlotsReset => AllSlotsReset.__init__ timestamp metadata
  | NewReminderScheduled action_name trigger_date_time name kill =>
      ReminderScheduled.__init__ action_name trigger_date_time name kill
        timestamp metadata
  | NewReminderCancelled action_name =>
      ReminderCancelled.__init__ action_name timestamp metadata
  | NewActionReverted => ActionReverted.__init__ timestamp metadata
  | NewStoryExported path => StoryExported.__init__ path timestamp metadata
  | NewFollowupAction name => FollowupAction.__init__ name timestamp metadata
  | NewConversationPaused => ConversationPaused.__init__ timestamp metadata
  | NewConversationResumed => ConversationResumed.__init__ timestamp metadata
  | NewActionExecuted action_name policy confidence =>
      ActionExecuted.__init__ action_name policy confidence timestamp metadata
  | NewAgentUttered text data => AgentUttered.__init__ text data timestamp metadata
  | NewForm name => Form.__init__ name timestamp metadata
  | NewFormValidation validate =>
      FormValidation.__init__ validate timestamp metadata
  | NewActionExecutionRejected action_name policy confidence =>
      ActionExecutionRejected.__init__ action_name policy confidence
        timestamp metadata
  end.

(** The class a call constructs. *)
Definition ctor_class (c : ctor_call) : EventClass :=
  match c with
  | NewUserUttered _ _ _ _ _ _ => UserUttered
  | NewBotUttered _ _ => BotUttered
  | NewSlotSet _ _ => SlotSet
  | NewRestarted => Restarted
  | NewUserUtteranceReverted => UserUtteranceReverted
  | NewAllSlotsReset => AllSlotsReset
  | NewReminderScheduled _ _ _ _ => ReminderScheduled
  | NewReminderCancelled _ => ReminderCancelled
  | NewActionReverted => ActionReverted
  | NewStoryExported _ => StoryExported
  | NewFollowupAction _ => FollowupAction
  | NewConversationPaused => ConversationPaused
  | NewConversationResumed => ConversationResumed
  | NewActionExecuted _ _ _ => ActionExecuted
  | NewAgentUttered _ _ => AgentUttered
  | NewForm _ => Form
  | NewFormValidation _ => FormValidation
  | NewActionExecutionRejected _ _ _ => ActionExecutionRejected
  end.

(** ** A concrete interpreter for the executable examples

    The clock starts at 1000 and advances by one second per reading. The
    library functions are instantiated so that the examples run: on JSON
    data [jsonpickle.encode] writes what [json.dumps] writes; dates are
    written and read back as their year only, which is enough for events
    whose identity ignores the trigger date. *)

Definition example_isoformat (d : datetime) : string := str_of_int (year d).

Definition example_parse (s : string) : option datetime :=
  match s with
  | EmptyString => None
  | _ => Some (mkDatetime 2020 1 1 0 0 0 0 None)
  end.

Definition example_ext : Externals :=
  {| float_repr := fun q => str_of_int (Qnum q) ++ "/" ++
                            str_of_int (Zpos (Qden q));
     py_str := fun v => json_dumps (fun q => str_of_int (Qnum q)) false v;
     py_repr := fun d => json_dumps (fun q => str_of_int (Qnum q)) false (VDict d);
     str_hash := fun s => Z.of_nat (String.length s);
     float_hash := fun q => Qnum q;
     none_hash := 0;
     tuple_hash := fun hs => fold_left (fun a h => 31 * a + h) hs 7;
     jsonpickle_encode := json_dumps (fun q => str_of_int (Qnum q)) true;
     dateutil_parse := example_parse;
     isoformat := example_isoformat;
     generate_message_md := fun text _ _ =>
        match text with VStr s => Ok s | _ => Raise (TypeError "text") end;
     json_loads := fun _ => Raise (ValueError "Expecting value") |}.

Definition example_world : World :=
  {| clock := fun n => inject_Z (1000 + Z.of_nat n);
     ticks := 0;
     uuids := fun n => "uuid-" ++ str_of_int (Z.of_nat n);
     uuid_count := 0;
     log := [] |}.

(** The batch of the resilience property: a slot, an unknown tag, a slot. *)
Definition bogus_batch : list dict :=
  [[("event", VStr "slot"); ("name", VStr "a"); ("value", VInt 1)];
   [("event", VStr "bogus")];
   [("event", VStr "slot"); ("name", VStr "b"); ("value", VInt 2)]].

(** The same batch with the legacy tag in the middle. *)
Definition topic_batch : list dict :=
  [[("event", VStr "slot"); ("name", VStr "a"); ("value", VInt 1)];
   [("event", VStr "topic")];
   [("event", VStr "slot"); ("name", VStr "b"); ("value", VInt 2)]].

(** The world after one more reading of the clock. *)
Definition tick (w : World) : World :=
  mkWorld (clock w) (S (ticks w)) (uuids w) (uuid_count w) (log w).

(** The world after [n] readings. *)
Fixpoint advance (n : nat) (w : World) : World :=
  match n with
  | O => w
  | S n' => advance n' (tick w)
  end.

(** The world after one more warning. *)
Definition warned (msg : string) (w : World) : World :=
  mkWorld (clock w) (ticks w) (uuids w) (uuid_count w) (log w ++ [msg]).

Definition unable_to_parse : string :=
  "Unable to parse event 'None' while deserialising. The event will be ignored.".

(** A tag that is the [type_name] of no class. *)
Definition unregistered (tn : value) : Prop :=
  find (fun cls => py_eq (VStr (type_name cls)) tn) all_subclasses = None.

(** The events [SlotSet._from_story_string] builds from the items of the
    parameters, read off the clock of [w]. *)
Fixpoint slot_events (items : dict) (w : World) : list Event :=
  match items with
  | [] => []
  | (k, v) :: r =>
      EvSlotSet (VStr k) v (now w) (VDict []) :: slot_events r (tick w)
  end.

(** The key and value of a SlotSet event. *)
Definition slot_item (e : Event) : option (value * value) :=
  match e with
  | EvSlotSet key val _ _ => Some (key, val)
  | _ => None
  end.

(** Every character of the text is ASCII. *)
Fixpoint ascii_only (s : string) : bool :=
  match s with
  | EmptyString => true
  | String c r => (N_of_ascii c <? 128)%N && ascii_only r
  end.

(** No character of the text needs a JSON escape when [ensure_ascii] is
    off: no control character, quote or backslash. *)
Fixpoint plain (s : string) : bool :=
  match s with
  | EmptyString => true
  | String c r =>
      let n := N_of_ascii c in
      (32 <=? n)%N && negb (n =? 34)%N && negb (n =? 92)%N && plain r
  end.

(** [s] between double quotes. *)
Definition quoted (s : string) : string :=
  String dquote (s ++ String dquote EmptyString).

(** ** Well-formed data

    An association list stands for a Python dict only if no key occurs
    twice; [wf_value] says so for every dict inside a value. *)

Fixpoint unique_keys (ks : list string) : bool :=
  match ks with
  | [] => true
  | k :: r => negb (existsb (String.eqb k) r) && unique_keys r
  end.

Fixpoint wf_value (v : value) : bool :=
  match v with
  | VList l => forallb wf_value l
  | VDict d =>
      unique_keys (map fst d) && forallb (fun kv => wf_value (snd kv)) d
  | _ => true
  end.

Definition is_dict (v : value) : bool :=
  match v with VDict _ => true | _ => false end.

Definition is_list (v : value) : bool :=
  match v with VList _ => true | _ => false end.

(** What the round trip through a codec relies on, variant by variant:
    the compared fields are well-formed data of the annotated type; a user
    message's [parse_data] holds its intent and entities (as it does when
    the message was built without [parse_data] or by [_from_parse_data]); a
    reminder has its name, and the text of its trigger date can be read
    back. *)
Definition roundtrip_ready (ext : Externals) (e : Event) : Prop :=
  match e with
  | EvUserUttered text intent entities parse_data _ _ _ _ =>
      wf_value text = true /\ wf_value intent = true
      /\ is_dict intent = true /\ is_list entities = true
      /\ exists pd,
           parse_data = VDict pd
           /\ py_or (get pd "intent") (VDict []) = intent
           /\ py_or (get_default pd "entities" (VList [])) (VList [])
              = entities
  | EvBotUttered text data md _ =>
      wf_value text = true /\ is_dict data = true /\ is_dict md = true
  | EvSlotSet key val _ _ => wf_value key = true /\ wf_value val = true
  | EvReminderScheduled _ d name _ _ _ =>
      wf_value name = true /\ is_None name = false
      /\ dateutil_parse ext (isoformat ext d) <> None
  | EvFollowupAction a _ _ => wf_value a = true
  | EvActionExecuted a _ _ _ _ _ => wf_value a = true
  | EvActionExecutionRejected a _ _ _ _ => wf_value a = true
  | EvForm name _ _ => wf_value name = true
  | EvAgentUttered text _ _ _ => wf_value text = true
  | _ => True
  end.

(** The parameter object a story string carries after its tag, for the
    variants whose story string starts with their tag; empty for the
    variants written as the bare tag. *)
Definition story_parameters (ext : Externals) (e : Event) : option dict :=
  match e with
  | EvSlotSet (VStr k) v _ _ => Some [(k, v)]
  | EvReminderScheduled a d name kill _ _ => Some (_data_obj ext a d name kill)
  | EvReminderCancelled a _ _ => Some [("action", a)]
  | EvFollowupAction a _ _ => Some [("name", a)]
  | EvForm name _ _ => Some [("name", name)]
  | EvRestarted _ _ | EvUserUtteranceReverted _ _ | EvAllSlotsReset _ _
  | EvActionReverted _ _ | EvStoryExported _ _ _
  | EvConversationPaused _ _ | EvConversationResumed _ _ => Some []
  | _ => None
  end.

(** The [ensure_ascii] setting the story string of an event is written
    with. *)
Definition story_ensure_ascii (e : Event) : bool :=
  match e with
  | EvSlotSet _ _ _ _ => false
  | _ => true
  end.

(** A user message built with a [parse_data] that does not hold its
    intent, and what decoding its record gives. *)
Definition greet_message : Event :=
  EvUserUttered (VStr "hi") (VDict [("name", VStr "greet")]) (VList [])
    (VDict [("text", VStr "hi")]) (VFloat (inject_Z 1000)) VNone VNone
    (VDict []).

Definition greet_message_decoded : Event :=
  EvUserUttered (VStr "hi") (VDict []) (VList [])
    (VDict [("text", VStr "hi")]) (VFloat (inject_Z 1000)) VNone VNone
    (VDict []).

(** A reminder of the examples. *)
Definition example_reminder : Event :=
  EvReminderScheduled (VStr "action_remind")
    (mkDatetime 2020 5 17 9 30 0 0 None) (VStr "wake up") (VBool true)
    (VInt 1589707800) (VDict []).

(** ** Further definitions for the properties of the model *)

(** The same event with other values of [timestamp] and [_metadata]. *)
Definition restamp (e : Event) (ts md : value) : Event :=
  match e with
  | EvUserUttered t i en pd _ ic mid _ => EvUserUttered t i en pd ts ic mid md
  | EvBotUttered t d _ _ => EvBotUttered t d md ts
  | EvSlotSet k v _ _ => EvSlotSet k v ts md
  | EvRestarted _ _ => EvRestarted ts md
  | EvUserUtteranceReverted _ _ => EvUserUtteranceReverted ts md
  | EvAllSlotsReset _ _ => EvAllSlotsReset ts md
  | EvReminderScheduled a d n k _ _ => EvReminderScheduled a d n k ts md
  | EvReminderCancelled a _ _ => EvReminderCancelled a ts md
  | EvActionReverted _ _ => EvActionReverted ts md
  | EvStoryExported p _ _ => EvStoryExported p ts md
  | EvFollowupAction a _ _ => EvFollowupAction a ts md
  | EvConversationPaused _ _ => EvConversationPaused ts md
  | EvConversationResumed _ _ => EvConversationResumed ts md
  | EvActionExecuted a p c _ _ u => EvActionExecuted a p c ts md u
  | EvAgentUttered t d _ _ => EvAgentUttered t d ts md
  | EvForm n _ _ => EvForm n ts md
  | EvFormValidation v _ _ => EvFormValidation v ts md
  | EvActionExecutionRejected a p c _ _ => EvActionExecutionRejected a p c ts md
  end.

(** The fields [__eq__] reads are well-formed data of the annotated
    types. *)
Definition comparable (e : Event) : Prop :=
  match e with
  | EvUserUttered text intent entities _ _ _ _ _ =>
      wf_value text = true /\ wf_value intent = true
      /\ is_dict intent = true /\ is_list entities = true
  | EvBotUttered text data md _ =>
      wf_value text = true /\ is_dict data = true /\ is_dict md = true
  | EvSlotSet key val _ _ => wf_value key = true /\ wf_value val = true
  | EvReminderScheduled _ _ name _ _ _ => wf_value name = true
  | EvFollowupAction a _ _ => wf_value a = true
  | EvActionExecuted a _ _ _ _ _ => wf_value a = true
  | EvActionExecutionRejected a _ _ _ _ => wf_value a = true
  | EvForm name _ _ => wf_value name = true
  | EvAgentUttered text _ _ _ => wf_value text = true
  | _ => True
  end.

(** The interpreter's rule for hashing numbers: numbers that compare equal
    hash equally, whatever their type. *)
Definition hash_coherent (ext : Externals) : Prop :=
  (forall q q', Qeq_bool q q' = true -> float_hash ext q = float_hash ext q')
  /\ (forall q n, Qeq_bool q (inject_Z n) = true ->
                  float_hash ext q = int_hash n).

(** The variants whose [__hash__] is computed from exactly what their
    [__eq__] compares. *)
Definition hash_follows_eq : list EventClass :=
  [Restarted; UserUtteranceReverted; AllSlotsReset; ActionReverted;
   StoryExported; ConversationPaused; ConversationResumed; FollowupAction;
   ActionExecuted; Form; ActionExecutionRejected; AgentUttered; BotUttered].

(** The example interpreter with a float hash that follows the rule. *)
Definition coherent_ext : Externals :=
  {| float_repr := float_repr example_ext;
     py_str := py_str example_ext;
     py_repr := py_repr example_ext;
     str_hash := str_hash example_ext;
     float_hash := fun q => int_hash (Qfloor q);
     none_hash := none_hash example_ext;
     tuple_hash := tuple_hash example_ext;
     jsonpickle_encode := jsonpickle_encode example_ext;
     dateutil_parse := dateutil_parse example_ext;
     isoformat := isoformat example_ext;
     generate_message_md := generate_message_md example_ext;
     json_loads := json_loads example_ext |}.

(** The record of the event holds all of it: the time stamp is set, the
    metadata (and the data of a bot message) is as the constructor leaves
    it, and the fields the record leaves out (the action name of a
    cancelled reminder, the path of an export, the [unpredictable] mark of
    an action) have their default. For a user message, [parse_data] holds
    its intent and entities; for a reminder, the name is set and the
    trigger date is read back from its text as it was. *)
Definition fully_recorded (ext : Externals) (e : Event) : Prop :=
  truthy (timestamp_of e) = true
  /\ py_or (metadata_of e) (VDict []) = metadata_of e
  /\ match e with
     | EvUserUttered _ intent entities parse_data _ _ _ _ =>
         truthy parse_data = true
         /\ exists pd,
              parse_data = VDict pd
              /\ py_or (get pd "intent") (VDict []) = intent
              /\ py_or (get_default pd "entities" (VList [])) (VList [])
                 = entities
     | EvBotUttered _ data _ _ => py_or data (VDict []) = data
     | EvReminderScheduled _ d name _ _ _ =>
         is_None name = false
         /\ dateutil_parse ext (isoformat ext d) = Some d
     | EvReminderCancelled a _ _ => a = VNone
     | EvStoryExported p _ _ => p = VNone
     | EvActionExecuted _ _ _ _ _ u => u = false
     | _ => True
     end.

(** The call draws a uuid: a reminder constructed without a name. *)
Definition draws_uuid (c : ctor_call) : bool :=
  match c with
  | NewReminderScheduled _ _ name _ => is_None name
  | _ => false
  end.

(** [BotUttered.message] for a bot message whose data and metadata are
    dicts, as annotated. *)
Definition message (text : value) (data : dict) (metadata : dict)
    (timestamp : value) : dict :=
  let m := data in
  let m := dict_set m "text" text in
  let m := dict_set m "timestamp" timestamp in
  let m := dict_update m metadata in
  if py_eq (get m "image") (get m "attachment")
  then dict_set m "attachment" VNone
  else m.

(** What [message] holds under a key other than by the attachment rule: the
    entry of the metadata, else the text or time stamp of the event, else
    the entry of the data. *)
Definition merged_entry (text : value) (data metadata : dict)
    (timestamp : value) (k : string) : option value :=
  match dict_get metadata k with
  | Some v => Some v
  | None =>
      if String.eqb k "timestamp" then Some timestamp
      else if String.eqb k "text" then Some text
      else dict_get data k
  end.

(** [m.get(k)] from an entry. *)
Definition entry_value (o : option value) : value :=
  match o with Some v => v | None => VNone end.

(** An item of a dict display whose key is a [str]. *)
Definition str_item (kv : string * value) : value * value :=
  (VStr (fst kv), snd kv).

(** The entity dict [ent] names the entity [fst kv] with value [snd kv]. *)
Definition entity_named (ent : dict) (kv : string * value) : Prop :=
  dict_get ent "entity" = Some (VStr (fst kv))
  /\ dict_get ent "value" = Some (snd kv).

(** The variants without a story form. *)
Definition no_story_form : list EventClass :=
  [BotUttered; AgentUttered; FormValidation; ActionExecutionRejected].

(** The variants whose story string starts with their tag, whatever their
    payload. *)
Definition tagged_story_form : list EventClass :=
  [Restarted; UserUtteranceReverted; AllSlotsReset; ActionReverted;
   StoryExported; ConversationPaused; ConversationResumed;
   ReminderScheduled; ReminderCancelled; FollowupAction; Form].

(** A slot event and the record of a restart, for the examples. *)
Definition oslo_slot : Event :=
  EvSlotSet (VStr "city") (VStr "Oslo") (VInt 1589707800) (VDict []).

Definition restart_record : dict :=
  [("event", VStr "restart"); ("timestamp", VInt 1589707800)].

(** ** Text as code points

    The model holds text UTF-8 encoded. These definitions state what the
    JSON writer does to a text character by character: [utf8_encode] is
    the encoding of one code point, [utf8_text] the text of a list of code
    points, [escape_char] what one character becomes in a JSON string, and
    [parse_hex4] reads four hexadecimal digits back. *)

(** The UTF-8 encoding of a code point. *)
Definition utf8_encode (cp : N) : string :=
  if (cp <? 128)%N then String (ascii_of_N cp) EmptyString
  else if (cp <? 2048)%N then
    String (ascii_of_N (192 + cp / 64))
      (String (ascii_of_N (128 + cp mod 64)) EmptyString)
  else if (cp <? 65536)%N then
    String (ascii_of_N (224 + cp / 4096))
      (String (ascii_of_N (128 + (cp / 64) mod 64))
         (String (ascii_of_N (128 + cp mod 64)) EmptyString))
  else
    String (ascii_of_N (240 + cp / 262144))
      (String (ascii_of_N (128 + (cp / 4096) mod 64))
         (String (ascii_of_N (128 + (cp / 64) mod 64))
            (String (ascii_of_N (128 + cp mod 64)) EmptyString))).

(** The text made of the code points [cps]. *)
Fixpoint utf8_text (cps : list N) : string :=
  match cps with
  | [] => EmptyString
  | cp :: r => utf8_encode cp ++ utf8_text r
  end.

(** What a character becomes inside a JSON string: below 128 the short
    escapes or the character, above it the [\u] escape of its code point
    with [ensure_ascii], the character itself without. *)
Definition escape_char (ensure_ascii : bool) (cp : N) : string :=
  if (cp <? 128)%N then escape_ascii_char ensure_ascii (ascii_of_N cp)
  else if ensure_ascii then escape_code_point cp
  else utf8_encode cp.

Fixpoint escape_text (ensure_ascii : bool) (cps : list N) : string :=
  match cps with
  | [] => EmptyString
  | cp :: r => escape_char ensure_ascii cp ++ escape_text ensure_ascii r
  end.

(** The value of a lower-case hexadecimal digit. *)
Definition hex_value (c : ascii) : N :=
  let n := N_of_ascii c in
  if (n <? 58)%N then (n - 48)%N else (n - 87)%N.

Definition parse_hex4 (s : string) : option N :=
  match s with
  | String a (String b (String c (String d EmptyString))) =>
      Some (hex_value a * 4096 + hex_value b * 256 + hex_value c * 16
            + hex_value d)%N
  | _ => None
  end.

(** A dict without its entries whose value is [None]. *)
Definition without_nones (d : dict) : dict :=
  filter (fun kv => negb (is_None (snd kv))) d.

(** * Properties *)

(** ** Running the monad *)

Lemma time_time_run w : time_time w = (Ok (now w), tick w).
Proof. reflexivity. Qed.

Lemma Event_init_run ts md w :
  Event.__init__ ts md w =
    (Ok (if truthy ts then ts else now w, py_or md (VDict [])),
     if truthy ts then w else tick w).
Proof.
  unfold Event.__init__, bind, ret. destruct (truthy ts); reflexivity.
Qed.

Lemma bind_ok {A B} (m : M A) (k : A -> M B) w a w' :
  m w = (Ok a, w') -> bind m k w = k a w'.
Proof. intros H. unfold bind. now rewrite H. Qed.

Lemma bind_raise {A B} (m : M A) (k : A -> M B) w e w' :
  m w = (Raise e, w') -> bind m k w = (Raise e, w').
Proof. intros H. unfold bind. now rewrite H. Qed.

(** ** Decoding a batch *)

Section Batch.
Variable ext : Externals.

Lemma deserialise_loop_step e post acc w :
  deserialise_loop ext (e :: post) acc w =
    if dict_mem "event" e then
      match from_parameters ext e None w with
      | (Ok (Some ev), w') => deserialise_loop ext post (acc ++ [ev]) w'
      | (Ok None, w') =>
          deserialise_loop ext post acc (warned unable_to_parse w')
      | (Raise x, w') => (Raise x, w')
      end
    else deserialise_loop ext post acc w.
Proof.
  cbn [deserialise_loop]. destruct (dict_mem "event" e); [|reflexivity].
  unfold bind at 1.
  destruct (from_parameters ext e None w) as [[[ev|]|x] w1]; reflexivity.
Qed.

Lemma deserialise_loop_app pre post acc w :
  deserialise_loop ext (pre ++ post) acc w =
    match deserialise_loop ext pre acc w with
    | (Ok acc', w') => deserialise_loop ext post acc' w'
    | (Raise x, w') => (Raise x, w')
    end.
Proof.
  revert acc w. induction pre as [|e pre IH]; intros acc w.
  - reflexivity.
  - rewrite <- app_comm_cons, !deserialise_loop_step.
    destruct (dict_mem "event" e); [|apply IH].
    destruct (from_parameters ext e None w) as [[[ev|]|x] w1];
      try apply IH; reflexivity.
Qed.
End Batch.

Section BatchDecoding.
Variable ext : Externals.

(** C1 (as amended). [deserialise_events] decodes the entries in order.
    After a prefix that decoded to [evs], the next entry [e]
    - is skipped silently when it has no ["event"] key,
    - contributes its event when it decodes to one,
    - is dropped with a warning when it decodes to nothing (as the
      legacy tag ["topic"] does),
    - aborts the whole batch with its error when decoding it raises (as
      an unknown tag does): nothing after it is decoded.
    In particular the batch with ["topic"] in the middle decodes to
    exactly the two SlotSet events for ["a"] and ["b"] and logs one
    warning, while the batch with ["bogus"] in the middle raises the
    unknown-event error. *)
Theorem deserialise_events_drop_or_abort :
  (forall (pre post : list dict) (e : dict) (w w1 : World)
          (evs : list Event),
      deserialise_events ext pre w = (Ok evs, w1) ->
      (dict_mem "event" e = false ->
       deserialise_events ext (pre ++ e :: post) w =
         deserialise_loop ext post evs w1)
      /\ (forall ev w2,
             dict_mem "event" e = true ->
             from_parameters ext e None w1 = (Ok (Some ev), w2) ->
             deserialise_events ext (pre ++ e :: post) w =
               deserialise_loop ext post (evs ++ [ev]) w2)
      /\ (forall w2,
             dict_mem "event" e = true ->
             from_parameters ext e None w1 = (Ok None, w2) ->
             deserialise_events ext (pre ++ e :: post) w =
               deserialise_loop ext post evs (warned unable_to_parse w2))
      /\ (forall x w2,
             dict_mem "event" e = true ->
             from_parameters ext e None w1 = (Raise x, w2) ->
             deserialise_events ext (pre ++ e :: post) w = (Raise x, w2)))
  /\ (forall w,
        deserialise_events ext topic_batch w =
          (Ok [EvSlotSet (VStr "a") (VInt 1) (now w) (VDict []);
               EvSlotSet (VStr "b") (VInt 2) (now (tick w)) (VDict [])],
           warned unable_to_parse (advance 2 w)))
  /\ (forall w,
        deserialise_events ext bogus_batch w =
          (Raise (ValueError "Unknown event name 'bogus'."), tick w)).
Proof.
  split; [|split].
  - intros pre post e w w1 evs Hpre. unfold deserialise_events in *.
    rewrite deserialise_loop_app, Hpre, deserialise_loop_step.
    repeat split.
    + intros ->. reflexivity.
    + intros ev w2 -> ->. reflexivity.
    + intros w2 -> ->. reflexivity.
    + intros x w2 -> ->. reflexivity.
  - intros w. reflexivity.
  - intros w. reflexivity.
Qed.
End BatchDecoding.

(** The batch of the resilience property does not decode to two events: the unknown tag
    raises, and the events decoded before it are lost with it. *)
Lemma bogus_batch_raises :
  fst (deserialise_events example_ext bogus_batch example_world)
    = Raise (ValueError "Unknown event name 'bogus'.")
  /\ ~ (exists evs w', deserialise_events example_ext bogus_batch example_world
                       = (Ok evs, w')).
Proof.
  split; [reflexivity|].
  intros (evs & w' & H).
  apply (f_equal fst) in H. vm_compute in H. discriminate H.
Qed.

Lemma deserialise_events_drop_or_abort_witness :
  deserialise_events example_ext
    ([[("event", VStr "slot"); ("name", VStr "a"); ("value", VInt 1)]]
       ++ [("event", VStr "bogus")]
       :: [[("event", VStr "slot"); ("name", VStr "b"); ("value", VInt 2)]])
    example_world
  = (Raise (ValueError "Unknown event name 'bogus'."), tick example_world).
Proof.
  refine (proj2 (proj2 (proj2
    (proj1 (deserialise_events_drop_or_abort example_ext)
       [[("event", VStr "slot"); ("name", VStr "a"); ("value", VInt 1)]]
       [[("event", VStr "slot"); ("name", VStr "b"); ("value", VInt 2)]]
       [("event", VStr "bogus")] example_world (tick example_world)
       [EvSlotSet (VStr "a") (VInt 1) (now example_world) (VDict [])]
       _))) _ _ _ _).
  - reflexivity.
  - reflexivity.
  - reflexivity.
Defined.

(** ** The registry: unknown tags, the legacy tag, fallbacks *)

Section Registry.
Variable ext : Externals.

Lemma resolve_topic default :
  resolve_by_type ext (VStr "topic") default = Ok None.
Proof. reflexivity. Qed.

(** C6. Decoding [{"event": "topic"}] returns no event and raises
    nothing, whatever fallback is passed; the clock is not read and
    nothing is logged. The same holds for every record whose ["event"]
    entry is ["topic"], whatever else it holds, and for the story decoder
    under the tag ["topic"]. *)
Theorem from_parameters_topic (default : option EventClass) (w : World) :
  from_parameters ext [("event", VStr "topic")] default w = (Ok None, w)
  /\ (forall parameters,
        get parameters "event" = VStr "topic" ->
        from_parameters ext parameters default w = (Ok None, w))
  /\ (forall parameters,
        from_story_string ext (VStr "topic") parameters default w
          = (Ok None, w)).
Proof.
  assert (H : forall parameters,
             get parameters "event" = VStr "topic" ->
             from_parameters ext parameters default w = (Ok None, w)).
  { intros parameters Hget. unfold from_parameters. rewrite Hget.
    cbn [is_None]. unfold bind, lift. rewrite resolve_topic. reflexivity. }
  split; [|split].
  - apply H. reflexivity.
  - exact H.
  - intros parameters. unfold from_story_string, bind, lift.
    rewrite resolve_topic. reflexivity.
Qed.

Lemma resolve_unregistered tn default :
  unregistered tn ->
  py_eq tn (VStr "topic") = false ->
  resolve_by_type ext tn default =
    match default with
    | Some d => Ok (Some d)
    | None => Raise (ValueError
                       ("Unknown event name '" ++ py_format ext tn ++ "'."))
    end.
Proof.
  intros Hu Ht. unfold resolve_by_type. rewrite Hu, Ht. reflexivity.
Qed.

(** C3 (as amended). For a dict whose ["event"] tag is present, is that
    of no class and is not the legacy tag ["topic"]: without a fallback
    decoding raises the unknown-event error; with a fallback class it
    does not, and the result is whatever the fallback's own dict decoder
    makes of the dict. For the dict [{"event": "not_a_real_tag"}] that is
    an instance of the fallback for every class except UserUttered and
    ReminderScheduled, whose decoders need fields the dict lacks. *)
Theorem from_parameters_unknown_tag (parameters : dict) (w : World) :
  is_None (get parameters "event") = false ->
  unregistered (get parameters "event") ->
  py_eq (get parameters "event") (VStr "topic") = false ->
  from_parameters ext parameters None w =
    (Raise (ValueError ("Unknown event name '"
                        ++ py_format ext (get parameters "event") ++ "'.")),
     w)
  /\ (forall cls,
        from_parameters ext parameters (Some cls) w =
          cls_from_parameters ext cls parameters w)
  /\ (forall cls,
        cls <> UserUttered -> cls <> ReminderScheduled ->
        exists e w',
          from_parameters ext [("event", VStr "not_a_real_tag")]
            (Some cls) w = (Ok (Some e), w')
          /\ class_of e = cls).
Proof.
  intros Hn Hu Ht. repeat split.
  - unfold from_parameters. rewrite Hn. unfold bind, lift.
    rewrite (resolve_unregistered _ None Hu Ht). reflexivity.
  - intros cls. unfold from_parameters. rewrite Hn. unfold bind, lift.
    rewrite (resolve_unregistered _ (Some cls) Hu Ht). reflexivity.
  - intros cls H1 H2.
    destruct cls; try congruence; eexists; eexists; split;
      try reflexivity; reflexivity.
Qed.
End Registry.

Lemma from_parameters_topic_witness :
  from_parameters example_ext
    [("event", VStr "topic"); ("topic", VStr "greeting");
     ("timestamp", VInt 1500000000)]
    (Some ActionExecuted) example_world
  = (Ok None, example_world).
Proof.
  apply (proj1 (proj2 (from_parameters_topic example_ext
                         (Some ActionExecuted) example_world))).
  reflexivity.
Defined.

Lemma from_parameters_unknown_tag_witness :
  from_parameters example_ext [("event", VStr "not_a_real_tag")] None
    example_world
  = (Raise (ValueError "Unknown event name 'not_a_real_tag'."), example_world).
Proof.
  apply (from_parameters_unknown_tag example_ext
           [("event", VStr "not_a_real_tag")] example_world);
    reflexivity.
Defined.

(** The legacy tag is the tag of no class, yet without a fallback it does
    not raise; and a fallback whose decoder needs a field the dict lacks
    fails in its own way. *)
Lemma unknown_tag_not_always_an_error :
  unregistered (VStr "topic")
  /\ fst (from_parameters example_ext [("event", VStr "topic")] None
            example_world) = Ok None
  /\ fst (from_parameters example_ext [("event", VStr "topic")]
            (Some ActionExecuted) example_world) = Ok None
  /\ fst (from_parameters example_ext [("event", VStr "not_a_real_tag")]
            (Some UserUttered) example_world)
     = Raise (AttributeError "'NoneType' object has no attribute 'get'").
Proof. repeat split. Qed.

(** ** Decoding slots *)

Section Slots.
Variable ext : Externals.

Lemma slots_of_run items w :
  SlotSet.slots_of items w =
    (Ok (slot_events items w), advance (length items) w).
Proof.
  revert w. induction items as [|[k v] r IH]; intros w.
  - reflexivity.
  - cbn [SlotSet.slots_of slot_events length advance].
    unfold bind at 1. unfold SlotSet.__init__ at 1.
    unfold bind at 1. rewrite Event_init_run. cbn [truthy fst snd ret py_or].
    unfold bind. rewrite IH. reflexivity.
Qed.

Lemma slot_events_items items w :
  map slot_item (slot_events items w) =
    map (fun kv => Some (VStr (fst kv), snd kv)) items.
Proof.
  revert w. induction items as [|[k v] r IH]; intros w; cbn.
  - reflexivity.
  - now rewrite IH.
Qed.

(** C7. Decoding story parameters under the tag ["slot"] yields one
    SlotSet event per item of the parameter map, in the map's order,
    each with the item's key and value (and no event list at all for an
    empty map); the parameters [{"a": 1, "b": 2}] yield exactly
    SlotSet("a", 1) followed by SlotSet("b", 2). *)
Theorem from_story_string_slot (parameters : dict)
    (default : option EventClass) (w : World) :
  from_story_string ext (VStr "slot") parameters default w =
    (Ok (match parameters with
         | [] => None
         | _ => Some (slot_events parameters w)
         end),
     advance (length parameters) w)
  /\ map slot_item (slot_events parameters w) =
       map (fun kv => Some (VStr (fst kv), snd kv)) parameters
  /\ from_story_string ext (VStr "slot") [("a", VInt 1); ("b", VInt 2)]
       default w =
       (Ok (Some [EvSlotSet (VStr "a") (VInt 1) (now w) (VDict []);
                  EvSlotSet (VStr "b") (VInt 2) (now (tick w)) (VDict [])]),
        advance 2 w).
Proof.
  assert (H : forall items,
             from_story_string ext (VStr "slot") items default w =
               (Ok (match items with
                    | [] => None
                    | _ => Some (slot_events items w)
                    end), advance (length items) w)).
  { intros items. unfold from_story_string, bind, lift.
    cbn [resolve_by_type all_subclasses find type_name py_eq String.eqb
         Ascii.eqb Bool.eqb cls_from_story_string].
    unfold SlotSet._from_story_string, bind.
    rewrite slots_of_run. destruct items as [|[k v] r]; reflexivity. }
  split; [apply H|]. split; [apply slot_events_items|].
  apply (H [("a", VInt 1); ("b", VInt 2)]).
Qed.

(** C5: what the code does. The dict decoders read every field with
    [get], which never raises, so the handlers that turn a [KeyError]
    into [ValueError] cannot fire. A slot record without ["name"] and
    ["value"] decodes to the event SlotSet(None, None), for any
    parameters SlotSet's decoder returns an event, and a reminder record
    without ["date_time"] lets the [TypeError] of the date parser
    through as it is. *)
Theorem missing_field_not_reported (w : World) :
  from_parameters ext [("event", VStr "slot")] None w =
    (Ok (Some (EvSlotSet VNone VNone (now w) (VDict []))), tick w)
  /\ (forall parameters w0, exists e w',
        SlotSet._from_parameters parameters w0 = (Ok (Some e), w'))
  /\ from_parameters ext [("event", VStr "reminder")] None w =
       (Raise (TypeError
                 "Parser must be a string or character stream, not NoneType"),
        w).
Proof.
  repeat split.
  intros parameters w0.
  unfold SlotSet._from_parameters, try_except_KeyError, SlotSet.__init__.
  unfold bind. rewrite Event_init_run. cbn. eauto.
Qed.
End Slots.

(** ** The ["metadata"] key of the dict encoding *)

Section Metadata.
Variable ext : Externals.

(** C4 (as amended). Non-empty metadata is written verbatim under the
    ["metadata"] key by every variant. With empty metadata every variant
    except UserUttered and BotUttered writes no ["metadata"] key at all;
    these two write the key always, so with empty metadata their record
    holds the empty metadata under it. *)
Theorem as_dict_metadata (e : Event) :
  (truthy (metadata_of e) = true ->
   dict_get (as_dict ext e) "metadata" = Some (metadata_of e))
  /\ (truthy (metadata_of e) = false ->
      class_of e <> UserUttered -> class_of e <> BotUttered ->
      dict_mem "metadata" (as_dict ext e) = false)
  /\ (class_of e = UserUttered \/ class_of e = BotUttered ->
      dict_get (as_dict ext e) "metadata" = Some (metadata_of e)).
Proof.
  repeat split.
  - intros H. destruct e; cbn in H |- *; unfold Event.as_dict;
      cbn [metadata_of]; rewrite H; reflexivity.
  - intros H H1 H2. destruct e; cbn in H, H1, H2 |- *; try congruence;
      unfold Event.as_dict; cbn [metadata_of]; rewrite H; reflexivity.
  - intros [H|H]; destruct e; cbn in H; try discriminate H;
      unfold as_dict, Event.as_dict; cbn [metadata_of];
      destruct (truthy metadata); reflexivity.
Qed.
End Metadata.

Lemma as_dict_metadata_witness :
  dict_get (as_dict example_ext
              (EvSlotSet (VStr "a") (VInt 1) (VInt 7)
                 (VDict [("source", VStr "test")]))) "metadata"
  = Some (VDict [("source", VStr "test")])
  /\ dict_mem "metadata"
       (as_dict example_ext (EvSlotSet (VStr "a") (VInt 1) (VInt 7) (VDict [])))
     = false.
Proof.
  split.
  - apply (proj1 (as_dict_metadata example_ext
                    (EvSlotSet (VStr "a") (VInt 1) (VInt 7)
                       (VDict [("source", VStr "test")])))).
    reflexivity.
  - apply (proj1 (proj2 (as_dict_metadata example_ext
                    (EvSlotSet (VStr "a") (VInt 1) (VInt 7) (VDict [])))));
      [reflexivity | discriminate | discriminate].
Defined.

(** An empty user message has empty metadata, and its record still has a
    ["metadata"] key. *)
Lemma user_uttered_always_writes_metadata :
  fst (UserUttered.empty example_world)
    = Ok (EvUserUttered VNone (VDict []) (VList [])
            (VDict [("intent", VDict []); ("entities", VList []);
                    ("text", VNone); ("message_id", VNone);
                    ("metadata", VDict [])])
            (VFloat (inject_Z 1000)) VNone VNone (VDict []))
  /\ dict_mem "metadata"
       (as_dict example_ext
          (EvUserUttered VNone (VDict []) (VList [])
             (VDict [("intent", VDict []); ("entities", VList []);
                     ("text", VNone); ("message_id", VNone);
                     ("metadata", VDict [])])
             (VFloat (inject_Z 1000)) VNone VNone (VDict [])))
     = true.
Proof. split; reflexivity. Qed.

(** ** Identity rules *)

Section Identity.
Variable ext : Externals.

(** C9. Equal events need not hash equally. Any two ReminderCancelled
    events are equal, while the hash of each is the hash of its action
    name; any two FormValidation events are equal, while the hash of each
    is the hash of its flag. So FormValidation(True) and
    FormValidation(False) are equal with hashes 1 and 0, and
    ReminderCancelled events whose names hash differently are equal with
    different hashes. *)
Theorem equal_events_unequal_hashes :
  (forall a ts md b ts' md',
      __eq__ ext (EvReminderCancelled a ts md) (EvReminderCancelled b ts' md')
        = Ok true
      /\ __hash__ ext (EvReminderCancelled a ts md) = py_hash ext a
      /\ __hash__ ext (EvReminderCancelled b ts' md') = py_hash ext b)
  /\ (forall a ts md b ts' md',
        __eq__ ext (EvFormValidation a ts md) (EvFormValidation b ts' md')
          = Ok true
        /\ __hash__ ext (EvFormValidation a ts md) = py_hash ext a
        /\ __hash__ ext (EvFormValidation b ts' md') = py_hash ext b)
  /\ (exists e1 e2 h1 h2,
        class_of e1 = FormValidation
        /\ __eq__ ext e1 e2 = Ok true
        /\ __hash__ ext e1 = Ok h1 /\ __hash__ ext e2 = Ok h2 /\ h1 <> h2)
  /\ (forall (a b : string) ts md ts' md',
        str_hash ext a <> str_hash ext b ->
        exists h1 h2,
          __eq__ ext (EvReminderCancelled (VStr a) ts md)
            (EvReminderCancelled (VStr b) ts' md') = Ok true
          /\ __hash__ ext (EvReminderCancelled (VStr a) ts md) = Ok h1
          /\ __hash__ ext (EvReminderCancelled (VStr b) ts' md') = Ok h2
          /\ h1 <> h2).
Proof.
  split; [|split; [|split]].
  - intros; repeat split.
  - intros; repeat split.
  - exists (EvFormValidation (VBool true) (VInt 1) (VDict [])),
           (EvFormValidation (VBool false) (VInt 1) (VDict [])), 1, 0.
    repeat split. discriminate.
  - intros a b ts md ts' md' Hne.
    exists (str_hash ext a), (str_hash ext b). repeat split. exact Hne.
Qed.
End Identity.

Lemma equal_events_unequal_hashes_witness :
  exists h1 h2,
    __eq__ example_ext (EvReminderCancelled (VStr "remind") (VInt 1) (VDict []))
      (EvReminderCancelled (VStr "call back") (VInt 2) (VDict [])) = Ok true
    /\ __hash__ example_ext
         (EvReminderCancelled (VStr "remind") (VInt 1) (VDict [])) = Ok h1
    /\ __hash__ example_ext
         (EvReminderCancelled (VStr "call back") (VInt 2) (VDict [])) = Ok h2
    /\ h1 <> h2.
Proof.
  apply (proj2 (proj2 (proj2 (equal_events_unequal_hashes example_ext)))).
  cbn. discriminate.
Defined.

(** ** Construction and the default timestamp *)

Section Construction.

Lemma construct_run (c : ctor_call) (ts md : value) (w : World) :
  exists e w',
    construct c ts md w = (Ok e, w')
    /\ class_of e = ctor_class c
    /\ timestamp_of e = (if truthy ts then ts else now w)
    /\ metadata_of e = py_or md (VDict []).
Proof.
  destruct c; cbn [construct ctor_class];
    unfold UserUttered.__init__, BotUttered.__init__, SlotSet.__init__,
      Restarted.__init__, UserUtteranceReverted.__init__,
      AllSlotsReset.__init__, ReminderScheduled.__init__,
      ReminderCancelled.__init__, ActionReverted.__init__,
      StoryExported.__init__, FollowupAction.__init__,
      ConversationPaused.__init__, ConversationResumed.__init__,
      ActionExecuted.__init__, AgentUttered.__init__, Form.__init__,
      FormValidation.__init__, ActionExecutionRejected.__init__;
    try (unfold bind; rewrite Event_init_run; cbn [fst snd ret];
         eexists; eexists; repeat split).
  unfold bind. destruct (is_None name).
  - unfold uuid_uuid1. rewrite Event_init_run. cbn [fst snd ret].
    eexists; eexists; repeat split.
  - unfold ret at 1. rewrite Event_init_run. cbn [fst snd ret].
    eexists; eexists; repeat split.
Qed.

(** C10. For every variant, a timestamp of [0], [0.0] or [None] passed to
    the constructor is not kept: the event gets the clock reading taken
    at construction, which is not equal to the timestamp passed whenever
    the clock is not at zero. The same holds for every falsy timestamp,
    while a non-zero number is kept as it is. *)
Theorem falsy_timestamp_replaced (c : ctor_call) (md : value) (w : World) :
  (forall ts, In ts [VInt 0; VFloat 0; VNone] ->
     exists e w',
       construct c ts md w = (Ok e, w')
       /\ class_of e = ctor_class c
       /\ timestamp_of e = now w
       /\ (~ (clock w (ticks w) == 0)%Q -> py_eq (timestamp_of e) ts = false))
  /\ (forall ts, truthy ts = false ->
        exists e w',
          construct c ts md w = (Ok e, w') /\ timestamp_of e = now w)
  /\ (forall n, n <> 0 ->
        exists e w',
          construct c (VInt n) md w = (Ok e, w')
          /\ timestamp_of e = VInt n)
  /\ (forall q, ~ (q == 0)%Q ->
        exists e w',
          construct c (VFloat q) md w = (Ok e, w')
          /\ timestamp_of e = VFloat q).
Proof.
  split; [|split; [|split]].
  - intros ts Hin.
    destruct (construct_run c ts md w) as (e & w' & Hc & Hcls & Hts & _).
    exists e, w'. 
    assert (Hf : truthy ts = false).
    { cbn in Hin. destruct Hin as [<-|[<-|[<-|[]]]]; reflexivity. }
    rewrite Hf in Hts. repeat split; trivial.
    intros Hclock. rewrite Hts. unfold now.
    assert (Hq : Qeq_bool (clock w (ticks w)) 0 = false).
    { destruct (Qeq_bool (clock w (ticks w)) 0) eqn:E; [|reflexivity].
      apply Qeq_bool_iff in E. contradiction. }
    cbn in Hin. destruct Hin as [<-|[<-|[<-|[]]]]; cbn; trivial.
  - intros ts Hf.
    destruct (construct_run c ts md w) as (e & w' & Hc & _ & Hts & _).
    rewrite Hf in Hts. eauto.
  - intros n Hn.
    destruct (construct_run c (VInt n) md w) as (e & w' & Hc & _ & Hts & _).
    cbn in Hts. destruct (Z.eqb_spec n 0); [contradiction|]. cbn in Hts. eauto.
  - intros q Hq.
    destruct (construct_run c (VFloat q) md w) as (e & w' & Hc & _ & Hts & _).
    cbn in Hts. destruct (Qeq_bool q 0) eqn:E.
    + apply Qeq_bool_iff in E. contradiction.
    + cbn in Hts. eauto.
Qed.
End Construction.

Lemma falsy_timestamp_replaced_witness :
  exists e w',
    construct (NewSlotSet (VStr "a") (VInt 1)) (VInt 0) VNone example_world
      = (Ok e, w')
    /\ class_of e = SlotSet
    /\ timestamp_of e = now example_world
    /\ (~ (clock example_world (ticks example_world) == 0)%Q ->
        py_eq (timestamp_of e) (VInt 0) = false).
Proof.
  apply (proj1 (falsy_timestamp_replaced (NewSlotSet (VStr "a") (VInt 1))
                  VNone example_world) (VInt 0)).
  cbn. tauto.
Defined.

(** ** Escaping in the story-string encoding *)

(** Linear arithmetic with division and remainder by constants. *)
Ltac div_lia := zify; Z.to_euclidean_division_equations; lia.

Section Escaping.

Lemma ascii_only_app s t :
  ascii_only (s ++ t) = ascii_only s && ascii_only t.
Proof.
  induction s as [|c s IH]; cbn; [reflexivity|].
  now rewrite IH, andb_assoc.
Qed.

Lemma hex_digit_ascii n : (N_of_ascii (hex_digit (N.land n 15)) <? 128)%N = true.
Proof.
  assert (H : (N.land n 15 < 16)%N).
  { change 15%N with (N.ones 4). rewrite N.land_ones. now apply N.mod_lt. }
  unfold hex_digit. apply N.ltb_lt.
  destruct (N.ltb_spec (N.land n 15) 10);
    rewrite N_ascii_embedding; lia.
Qed.

Lemma u_escape_ascii n : ascii_only (u_escape n) = true.
Proof.
  unfold u_escape, hex4. cbn [ascii_only].
  rewrite !hex_digit_ascii. reflexivity.
Qed.

Lemma escape_code_point_ascii cp : ascii_only (escape_code_point cp) = true.
Proof.
  unfold escape_code_point. destruct (cp <? 65536)%N.
  - apply u_escape_ascii.
  - now rewrite ascii_only_app, !u_escape_ascii.
Qed.

Lemma escape_ascii_char_ascii b c :
  (N_of_ascii c <? 128)%N = true ->
  ascii_only (escape_ascii_char b c) = true.
Proof.
  intros H. unfold escape_ascii_char.
  repeat match goal with
         | |- context [if ?t then _ else _] => destruct t
         end;
    try reflexivity; try apply u_escape_ascii.
  cbn. now rewrite H.
Qed.

Lemma escape_string_ascii_bounded n :
  forall s, (String.length s <= n)%nat ->
            ascii_only (escape_string true s) = true.
Proof.
  induction n as [|n IH]; intros s Hlen.
  - destruct s; [reflexivity|cbn in Hlen; lia].
  - destruct s as [|c r]; [reflexivity|].
    cbn [String.length] in Hlen.
    cbn [escape_string negb].
    destruct (N_of_ascii c <? 128)%N eqn:E.
    + rewrite ascii_only_app, escape_ascii_char_ascii by exact E.
      apply IH. lia.
    + destruct (N_of_ascii c <? 224)%N.
      * destruct r as [|c1 r1]; [apply escape_code_point_ascii|].
        rewrite ascii_only_app, escape_code_point_ascii.
        apply IH. cbn in Hlen. lia.
      * destruct (N_of_ascii c <? 240)%N.
        -- destruct r as [|c1 [|c2 r2]];
             rewrite ascii_only_app, escape_code_point_ascii;
             apply IH; cbn in Hlen |- *; lia.
        -- destruct r as [|c1 [|c2 [|c3 r3]]];
             rewrite ascii_only_app, escape_code_point_ascii;
             apply IH; cbn in Hlen |- *; lia.
Qed.

(** With [ensure_ascii] on, the encoder writes ASCII only. *)
Lemma encode_basestring_ascii s :
  ascii_only (encode_basestring true s) = true.
Proof.
  unfold encode_basestring. cbn [ascii_only].
  rewrite ascii_only_app, (escape_string_ascii_bounded _ s (le_n _)).
  reflexivity.
Qed.

(** With [ensure_ascii] off, text that needs no escape is copied. *)
Lemma escape_string_plain s :
  plain s = true -> escape_string false s = s.
Proof.
  induction s as [|c r IH]; [reflexivity|].
  cbn [plain escape_string negb]. intros H.
  apply andb_true_iff in H as [H Hr].
  apply andb_true_iff in H as [H H92].
  apply andb_true_iff in H as [H32 H34].
  rewrite (IH Hr).
  destruct (N_of_ascii c <? 128)%N; [|reflexivity].
  unfold escape_ascii_char.
  apply negb_true_iff in H34, H92. rewrite H34, H92.
  apply N.leb_le in H32.
  destruct (N.eqb_spec (N_of_ascii c) 10); [lia|].
  destruct (N.eqb_spec (N_of_ascii c) 13); [lia|].
  destruct (N.eqb_spec (N_of_ascii c) 9); [lia|].
  destruct (N.eqb_spec (N_of_ascii c) 8); [lia|].
  destruct (N.eqb_spec (N_of_ascii c) 12); [lia|].
  destruct (N.ltb_spec (N_of_ascii c) 32); [lia|].
  rewrite andb_false_r. reflexivity.
Qed.

Lemma string_of_uint_ascii d :
  ascii_only (NilEmpty.string_of_uint d) = true.
Proof. induction d; cbn; trivial. Qed.

Lemma str_of_int_ascii n : ascii_only (str_of_int n) = true.
Proof.
  unfold str_of_int, NilZero.string_of_int, NilZero.string_of_uint.
  destruct (Z.to_int n) as [d|d]; destruct d; cbn;
    trivial; apply string_of_uint_ascii.
Qed.

Lemma join_ascii sep l :
  ascii_only sep = true ->
  Forall (fun s => ascii_only s = true) l ->
  ascii_only (join sep l) = true.
Proof.
  intros Hsep H. induction H as [|x l Hx Hl IH]; [reflexivity|].
  destruct l as [|y l']; [exact Hx|].
  change (join sep (x :: y :: l')) with (x ++ sep ++ join sep (y :: l')).
  now rewrite !ascii_only_app, Hx, Hsep, IH.
Qed.

(** [json.dumps] with its default [ensure_ascii=True] writes ASCII only,
    as long as the text of a float does. *)
Lemma json_dumps_ascii (frepr : Q -> string) :
  (forall q, ascii_only (frepr q) = true) ->
  forall v, ascii_only (json_dumps frepr true v) = true.
Proof.
  intros Hf. induction v using value_ind'; cbn [json_dumps].
  - reflexivity.
  - destruct b; reflexivity.
  - apply str_of_int_ascii.
  - apply Hf.
  - apply encode_basestring_ascii.
  - rewrite !ascii_only_app. cbn [ascii_only].
    rewrite join_ascii; [reflexivity..|].
    apply Forall_forall. intros s Hin.
    apply in_map_iff in Hin as (x & <- & Hx).
    rewrite Forall_forall in H. now apply H.
  - rewrite !ascii_only_app. cbn [ascii_only].
    rewrite join_ascii; [reflexivity..|].
    apply Forall_forall. intros s Hin.
    apply in_map_iff in Hin as (kv & <- & Hkv).
    rewrite Forall_forall in H.
    rewrite !ascii_only_app, encode_basestring_ascii, (H kv Hkv).
    reflexivity.
Qed.
Lemma testbit_small (b : N) (k m : N) :
  (b < 2 ^ k)%N -> (k <= m)%N -> N.testbit b m = false.
Proof.
  intros Hb Hk. destruct (N.eq_dec b 0) as [->|Hne]; [apply N.bits_0|].
  apply N.bits_above_log2.
  assert (N.log2 b < k)%N by (apply N.log2_lt_pow2; div_lia). div_lia.
Qed.

Lemma lor_shiftl_small (a b k : N) :
  (b < 2 ^ k)%N -> N.lor (N.shiftl a k) b = (a * 2 ^ k + b)%N.
Proof.
  intros Hb.
  rewrite <- N.shiftl_mul_pow2.
  rewrite <- N.lxor_lor, <- N.add_nocarry_lxor; try reflexivity.
  all: apply N.bits_inj; intros m; rewrite N.land_spec, N.bits_0;
    destruct (N.lt_ge_cases m k) as [Hm|Hm];
    [ now rewrite N.shiftl_spec_low
    | now rewrite (testbit_small b k m Hb Hm), andb_false_r ].
Qed.

Lemma land_low (x k : N) : N.land x (N.ones k) = (x mod 2 ^ k)%N.
Proof. apply N.land_ones. Qed.

Lemma cont_byte (x : N) : (x < 64)%N -> cont (ascii_of_N (128 + x)) = x.
Proof.
  intros H. unfold cont. rewrite N_ascii_embedding by div_lia.
  change 63%N with (N.ones 6). rewrite land_low.
  change (2 ^ 6)%N with 64%N. div_lia.
Qed.

(** One character of a text: its UTF-8 sequence is read back to its code
    point and written as [escape_char] says. *)
Lemma escape_string_utf8 (b : bool) (cp : N) (r : string) :
  (cp < 1114112)%N ->
  escape_string b (utf8_encode cp ++ r) = escape_char b cp ++ escape_string b r.
Proof.
  intros Hcp. unfold escape_char, utf8_encode.
  destruct (N.ltb_spec cp 128) as [H1|H1].
  { cbn [append escape_string]. rewrite N_ascii_embedding by div_lia.
    destruct (N.ltb_spec cp 128); [reflexivity|lia]. }
  destruct (N.ltb_spec cp 2048) as [H2|H2].
  { cbn [append escape_string]. rewrite N_ascii_embedding by div_lia.
    destruct (N.ltb_spec (192 + cp / 64) 128); [div_lia|].
    destruct b; cbn [negb].
    - destruct (N.ltb_spec (192 + cp / 64) 224); [|div_lia].
      rewrite cont_byte by div_lia.
      change 31%N with (N.ones 5). rewrite land_low.
      rewrite lor_shiftl_small by (change (2 ^ 6)%N with 64%N; div_lia).
      change (2 ^ 5)%N with 32%N. change (2 ^ 6)%N with 64%N.
      replace ((192 + cp / 64) mod 32 * 64 + cp mod 64)%N with cp by div_lia.
      reflexivity.
    - rewrite N_ascii_embedding by div_lia.
      destruct (N.ltb_spec (128 + cp mod 64) 128); [div_lia|].
      reflexivity. }
  destruct (N.ltb_spec cp 65536) as [H3|H3].
  { cbn [append escape_string]. rewrite N_ascii_embedding by div_lia.
    destruct (N.ltb_spec (224 + cp / 4096) 128); [div_lia|].
    destruct b; cbn [negb].
    - destruct (N.ltb_spec (224 + cp / 4096) 224); [div_lia|].
      destruct (N.ltb_spec (224 + cp / 4096) 240); [|div_lia].
      rewrite !cont_byte by div_lia.
      change 15%N with (N.ones 4). rewrite land_low.
      rewrite (lor_shiftl_small _ (cp mod 64) 6)
        by (change (2 ^ 6)%N with 64%N; div_lia).
      rewrite lor_shiftl_small
        by (change (2 ^ 6)%N with 64%N; change (2 ^ 12)%N with 4096%N; div_lia).
      change (2 ^ 4)%N with 16%N. change (2 ^ 6)%N with 64%N.
      change (2 ^ 12)%N with 4096%N.
      replace ((224 + cp / 4096) mod 16 * 4096
               + (cp / 64 mod 64 * 64 + cp mod 64))%N with cp by div_lia.
      reflexivity.
    - rewrite !N_ascii_embedding by div_lia.
      destruct (N.ltb_spec (128 + cp / 64 mod 64) 128); [div_lia|].
      destruct (N.ltb_spec (128 + cp mod 64) 128); [div_lia|].
      reflexivity. }
  cbn [append escape_string]. rewrite N_ascii_embedding by div_lia.
  destruct (N.ltb_spec (240 + cp / 262144) 128); [div_lia|].
  destruct b; cbn [negb].
  - destruct (N.ltb_spec (240 + cp / 262144) 224); [div_lia|].
    destruct (N.ltb_spec (240 + cp / 262144) 240); [div_lia|].
    rewrite !cont_byte by div_lia.
    change 7%N with (N.ones 3). rewrite land_low.
    rewrite (lor_shiftl_small _ (cp mod 64) 6)
      by (change (2 ^ 6)%N with 64%N; div_lia).
    rewrite (lor_shiftl_small _ _ 12)
      by (change (2 ^ 6)%N with 64%N; change (2 ^ 12)%N with 4096%N; div_lia).
    rewrite lor_shiftl_small
      by (change (2 ^ 6)%N with 64%N; change (2 ^ 12)%N with 4096%N;
          change (2 ^ 18)%N with 262144%N; div_lia).
    change (2 ^ 3)%N with 8%N. change (2 ^ 6)%N with 64%N.
    change (2 ^ 12)%N with 4096%N. change (2 ^ 18)%N with 262144%N.
    replace ((240 + cp / 262144) mod 8 * 262144
             + (cp / 4096 mod 64 * 4096
                + (cp / 64 mod 64 * 64 + cp mod 64)))%N with cp by div_lia.
    reflexivity.
  - rewrite !N_ascii_embedding by div_lia.
    destruct (N.ltb_spec (128 + cp / 4096 mod 64) 128); [div_lia|].
    destruct (N.ltb_spec (128 + cp / 64 mod 64) 128); [div_lia|].
    destruct (N.ltb_spec (128 + cp mod 64) 128); [div_lia|].
    reflexivity.
Qed.

Lemma escape_string_text (b : bool) (cps : list N) :
  Forall (fun cp => (cp < 1114112)%N) cps ->
  escape_string b (utf8_text cps) = escape_text b cps.
Proof.
  induction 1 as [|cp r Hcp Hr IH]; [reflexivity|].
  cbn [utf8_text escape_text].
  now rewrite escape_string_utf8, IH.
Qed.

Lemma hex_value_digit (n : N) :
  (n < 16)%N -> hex_value (hex_digit n) = n.
Proof.
  intros H. unfold hex_value, hex_digit.
  destruct (N.ltb_spec n 10); rewrite N_ascii_embedding by div_lia.
  - destruct (N.ltb_spec (48 + n) 58); div_lia.
  - destruct (N.ltb_spec (87 + n) 58); div_lia.
Qed.

(** [hex4] writes the four hexadecimal digits of a number below 65536. *)
Lemma parse_hex4_hex4 (n : N) :
  (n < 65536)%N -> parse_hex4 (hex4 n) = Some n.
Proof.
  intros H. unfold hex4, parse_hex4. f_equal.
  change 15%N with (N.ones 4). rewrite !land_low, !N.shiftr_div_pow2.
  change (2 ^ 4)%N with 16%N. change (2 ^ 8)%N with 256%N.
  change (2 ^ 12)%N with 4096%N.
  rewrite !hex_value_digit by div_lia. div_lia.
Qed.

(** Above the basic plane: the surrogate pair. *)
Lemma escape_char_surrogates (cp : N) :
  (65536 <= cp < 1114112)%N ->
  escape_char true cp =
    u_escape (55296 + (cp - 65536) / 1024)
      ++ u_escape (56320 + (cp - 65536) mod 1024).
Proof.
  intros H. unfold escape_char, escape_code_point.
  destruct (N.ltb_spec cp 128); [div_lia|].
  destruct (N.ltb_spec cp 65536); [div_lia|].
  cbv zeta.
  change 1023%N with (N.ones 10). rewrite !land_low, N.shiftr_div_pow2.
  change 55296%N with (N.shiftl 54 10). change 56320%N with (N.shiftl 55 10).
  rewrite !lor_shiftl_small by (apply N.mod_lt; discriminate).
  change (2 ^ 10)%N with 1024%N.
  replace (((cp - 65536) / 1024) mod 1024)%N with ((cp - 65536) / 1024)%N
    by div_lia.
  reflexivity.
Qed.
End Escaping.

Section StoryEscaping.
Variable ext : Externals.

Lemma dumps_text (b : bool) (cps : list N) :
  Forall (fun cp => (cp < 1114112)%N) cps ->
  dumps ext b (VStr (utf8_text cps)) = quoted (escape_text b cps).
Proof.
  intros H. unfold dumps. cbn [json_dumps]. unfold encode_basestring, quoted.
  now rewrite escape_string_text.
Qed.

(** C8 (as amended). The story string of a [slot] event is the tag
    followed by the JSON object of its key and value written with
    [ensure_ascii=False]: text without quotes, backslashes and control
    characters, non-ASCII text included, appears in it as it is. The
    story strings of [reminder], [cancel_reminder] and [followup] events
    are the tag followed by the JSON object of their parameters
    ([action], [date_time], [name] and [kill_on_user_msg]; [action];
    [name]) written with the default [ensure_ascii=True]: they are pure
    ASCII, every non-ASCII character of the payload being written as a
    [\u] escape. The escape of a character is [\u] and the four
    hexadecimal digits of its code point, and above the basic plane the
    two escapes of its surrogate pair; without [ensure_ascii] the
    character is copied. So the story string of a follow-up action
    named [café] holds [caf\u00e9]. *)
Theorem story_string_escaping :
  (forall k v ts md e2e,
      as_story_string ext (EvSlotSet (VStr k) v ts md) e2e =
        Ok (VStr ("slot" ++ "{" ++ (encode_basestring false k ++ ": "
                                    ++ dumps ext false v) ++ "}")))
  /\ (forall k s ts md e2e,
        plain k = true -> plain s = true ->
        as_story_string ext (EvSlotSet (VStr k) (VStr s) ts md) e2e =
          Ok (VStr ("slot" ++ "{" ++ (quoted k ++ ": " ++ quoted s) ++ "}")))
  /\ ((forall q, ascii_only (float_repr ext q) = true) ->
      forall e e2e,
        In (class_of e) [ReminderScheduled; ReminderCancelled; FollowupAction] ->
        exists parameters,
          as_story_string ext e e2e =
            Ok (VStr (type_name (class_of e)
                      ++ dumps ext true (VDict parameters)))
          /\ ascii_only (type_name (class_of e)
                         ++ dumps ext true (VDict parameters)) = true)
  /\ (forall a d n k ts md e2e,
        as_story_string ext (EvReminderScheduled a d n k ts md) e2e =
          Ok (VStr ("reminder"
                    ++ dumps ext true
                         (VDict [("action", a);
                                 ("date_time", VStr (isoformat ext d));
                                 ("name", n);
                                 ("kill_on_user_msg", k)]))))
  /\ (forall a ts md e2e,
        as_story_string ext (EvReminderCancelled a ts md) e2e =
          Ok (VStr ("cancel_reminder"
                    ++ dumps ext true (VDict [("action", a)]))))
  /\ (forall a ts md e2e,
        as_story_string ext (EvFollowupAction a ts md) e2e =
          Ok (VStr ("followup" ++ dumps ext true (VDict [("name", a)]))))
  /\ (forall cps ts md e2e,
        Forall (fun cp => (cp < 1114112)%N) cps ->
        as_story_string ext (EvFollowupAction (VStr (utf8_text cps)) ts md) e2e
        = Ok (VStr ("followup" ++ "{"
                    ++ (quoted "name" ++ ": " ++ quoted (escape_text true cps))
                    ++ "}"))
        /\ as_story_string ext
             (EvReminderCancelled (VStr (utf8_text cps)) ts md) e2e
           = Ok (VStr ("cancel_reminder" ++ "{"
                       ++ (quoted "action" ++ ": "
                           ++ quoted (escape_text true cps))
                       ++ "}")))
  /\ (forall b cps,
        Forall (fun cp => (cp < 1114112)%N) cps ->
        dumps ext b (VStr (utf8_text cps)) = quoted (escape_text b cps))
  /\ (forall cp,
        (128 <= cp)%N ->
        escape_char false cp = utf8_encode cp
        /\ ((cp < 65536)%N ->
            escape_char true cp = String backslash (String "u" (hex4 cp))
            /\ parse_hex4 (hex4 cp) = Some cp)
        /\ ((65536 <= cp < 1114112)%N ->
            escape_char true cp =
              String backslash
                (String "u" (hex4 (55296 + (cp - 65536) / 1024)))
              ++ String backslash
                   (String "u" (hex4 (56320 + (cp - 65536) mod 1024)))
            /\ parse_hex4 (hex4 (55296 + (cp - 65536) / 1024))
               = Some (55296 + (cp - 65536) / 1024)%N
            /\ parse_hex4 (hex4 (56320 + (cp - 65536) mod 1024))
               = Some (56320 + (cp - 65536) mod 1024)%N))
  /\ (forall ts md e2e,
        as_story_string ext (EvFollowupAction (VStr "café") ts md) e2e
        = Ok (VStr ("followup" ++ "{" ++ quoted "name" ++ ": "
                    ++ quoted "caf\u00e9" ++ "}"))).
Proof.
  split; [|split; [|split; [|split; [|split; [|split; [|split;
    [|split; [|split]]]]]]]].
  - intros. reflexivity.
  - intros k s ts md e2e Hk Hs.
    cbn. unfold encode_basestring, quoted.
    now rewrite (escape_string_plain _ Hk), (escape_string_plain _ Hs).
  - intros Hf e e2e Hin.
    assert (Hd : forall v, ascii_only (dumps ext true v) = true)
      by (intros v; apply json_dumps_ascii, Hf).
    destruct e; cbn in Hin; try (exfalso; intuition congruence).
    + eexists. split; [reflexivity|].
      rewrite ascii_only_app, Hd. reflexivity.
    + eexists. split; [reflexivity|].
      rewrite ascii_only_app, Hd. reflexivity.
    + eexists. split; [reflexivity|].
      rewrite ascii_only_app, Hd. reflexivity.
  - intros. reflexivity.
  - intros. reflexivity.
  - intros. reflexivity.
  - intros cps ts md e2e H. pose proof (dumps_text true cps H) as E.
    unfold dumps in E. cbn [json_dumps] in E.
    split; cbn [as_story_string type_name]; unfold dumps;
      cbn [json_dumps map join fst snd]; rewrite E; reflexivity.
  - intros b cps H. now apply dumps_text.
  - intros cp H. split; [|split].
    + unfold escape_char. destruct (N.ltb_spec cp 128); [lia|reflexivity].
    + intros Hlt. split; [|now apply parse_hex4_hex4].
      unfold escape_char, escape_code_point.
      destruct (N.ltb_spec cp 128); [lia|].
      destruct (N.ltb_spec cp 65536); [reflexivity|lia].
    + intros Hr. split; [now apply escape_char_surrogates|].
      split; apply parse_hex4_hex4; div_lia.
  - intros. reflexivity.
Qed.
End StoryEscaping.

Lemma example_float_repr_ascii q :
  ascii_only (float_repr example_ext q) = true.
Proof.
  change (ascii_only (str_of_int (Qnum q) ++ "/"
                      ++ str_of_int (Zpos (Qden q))) = true).
  now rewrite !ascii_only_app, !str_of_int_ascii.
Qed.

Lemma story_string_escaping_witness :
  as_story_string example_ext
    (EvSlotSet (VStr "café") (VStr "naïve") (VInt 1) (VDict [])) false
  = Ok (VStr ("slot" ++ "{" ++ (quoted "café" ++ ": " ++ quoted "naïve")
              ++ "}"))
  /\ (exists parameters,
         as_story_string example_ext
           (EvFollowupAction (VStr "café") (VInt 1) (VDict [])) false
         = Ok (VStr ("followup" ++ dumps example_ext true (VDict parameters)))
         /\ ascii_only ("followup" ++ dumps example_ext true (VDict parameters))
            = true)
  /\ (as_story_string example_ext
        (EvFollowupAction (VStr (utf8_text [99; 97; 102; 233; 128512]%N))
           (VInt 1) (VDict [])) false
      = Ok (VStr ("followup" ++ "{"
                  ++ (quoted "name" ++ ": "
                      ++ quoted (escape_text true
                                   [99; 97; 102; 233; 128512]%N))
                  ++ "}"))
      /\ as_story_string example_ext
           (EvReminderCancelled (VStr (utf8_text [99; 97; 102; 233; 128512]%N))
              (VInt 1) (VDict [])) false
         = Ok (VStr ("cancel_reminder" ++ "{"
                     ++ (quoted "action" ++ ": "
                         ++ quoted (escape_text true
                                      [99; 97; 102; 233; 128512]%N))
                     ++ "}")))
  /\ escape_text true [99; 97; 102; 233; 128512]%N
     = "caf\u00e9\ud83d\ude00"
  /\ (escape_char true 233 = String backslash (String "u" (hex4 233))
      /\ parse_hex4 (hex4 233) = Some 233%N)
  /\ escape_char false 233 = utf8_encode 233.
Proof.
  split; [|split; [|split; [|split; [|split]]]].
  - apply (proj1 (proj2 (story_string_escaping example_ext)));
      reflexivity.
  - apply (proj1 (proj2 (proj2 (story_string_escaping example_ext)))
             example_float_repr_ascii
             (EvFollowupAction (VStr "café") (VInt 1) (VDict [])) false).
    cbn. tauto.
  - apply (proj1 (proj2 (proj2 (proj2 (proj2 (proj2 (proj2
             (story_string_escaping example_ext)))))))).
    repeat constructor.
  - reflexivity.
  - apply (proj1 (proj2 (proj1 (proj2 (proj2 (proj2 (proj2 (proj2 (proj2
             (proj2 (proj2 (story_string_escaping example_ext)))))))))
             233%N ltac:(lia)))).
    reflexivity.
  - apply (proj1 (proj1 (proj2 (proj2 (proj2 (proj2 (proj2 (proj2
             (proj2 (proj2 (story_string_escaping example_ext)))))))))
             233%N ltac:(lia))).
Defined.

(** A follow-up action with a non-ASCII name: the story string holds the
    escape, not the character. *)
Lemma followup_story_string_escapes :
  as_story_string example_ext
    (EvFollowupAction (VStr "café") (VInt 1) (VDict [])) false
  = Ok (VStr ("followup" ++ "{" ++ quoted "name" ++ ": "
              ++ quoted "caf\u00e9" ++ "}"))
  /\ as_story_string example_ext
       (EvReminderCancelled (VStr "café") (VInt 1) (VDict [])) false
     = Ok (VStr ("cancel_reminder" ++ "{" ++ quoted "action" ++ ": "
                 ++ quoted "caf\u00e9" ++ "}")).
Proof. split; reflexivity. Qed.

(** ** Round trips *)

Section ValueEquality.

Lemma dict_get_unique (d : dict) k x :
  unique_keys (map fst d) = true -> In (k, x) d -> dict_get d k = Some x.
Proof.
  induction d as [|[k' x'] r IH]; cbn; [contradiction|].
  intros Hu [Hin|Hin].
  - inversion Hin; subst. now rewrite String.eqb_refl.
  - apply andb_true_iff in Hu as [Hk Hr].
    destruct (String.eqb_spec k' k) as [->|Hne]; [|now apply IH].
    exfalso. apply negb_true_iff in Hk.
    assert (Hex : existsb (String.eqb k) (map fst r) = true).
    { apply existsb_exists. exists k. split.
      - apply in_map_iff. now exists (k, x).
      - apply String.eqb_refl. }
    congruence.
Qed.

Lemma Qeq_bool_refl q : Qeq_bool q q = true.
Proof. apply Qeq_bool_iff. reflexivity. Qed.

(** On well-formed data [==] is reflexive. *)
Lemma py_eq_refl v : wf_value v = true -> py_eq v v = true.
Proof.
  induction v using value_ind'; intros Hwf; cbn.
  - reflexivity.
  - apply Qeq_bool_refl.
  - apply Qeq_bool_refl.
  - apply Qeq_bool_refl.
  - apply String.eqb_refl.
  - cbn in Hwf. induction l as [|x l IHl]; [reflexivity|].
    cbn in Hwf. apply andb_true_iff in Hwf as [Hx Hl].
    inversion H; subst. rewrite H2 by exact Hx. cbn. now apply IHl.
  - cbn in Hwf. apply andb_true_iff in Hwf as [Hu Hall].
    rewrite Nat.eqb_refl. cbn.
    assert (Hgo : forall l, incl l d ->
               (fix go (d0 : dict) : bool :=
                  match d0 with
                  | [] => true
                  | (k, x) :: d' =>
                      match dict_get d k with
                      | Some y => py_eq x y
                      | None => false
                      end && go d'
                  end) l = true).
    { induction l as [|[k x] l IHl]; intros Hincl; [reflexivity|].
      assert (Hin : In (k, x) d) by (apply Hincl; now left).
      rewrite (dict_get_unique d k x Hu Hin).
      rewrite Forall_forall in H.
      assert (Hx : py_eq x x = true).
      { apply (H (k, x) Hin).
        rewrite forallb_forall in Hall. apply (Hall (k, x) Hin). }
      rewrite Hx. cbn. apply IHl. intros y Hy. apply Hincl. now right. }
    apply Hgo. apply incl_refl.
Qed.

Lemma tuple_eq_refl l :
  forallb wf_value l = true -> tuple_eq l l = true.
Proof.
  induction l as [|x l IH]; cbn; [reflexivity|].
  intros H. apply andb_true_iff in H as [Hx Hl].
  now rewrite py_eq_refl, IH.
Qed.

Lemma wf_value_get d k :
  wf_value (VDict d) = true -> wf_value (get d k) = true.
Proof.
  cbn. intros H. apply andb_true_iff in H as [_ H].
  unfold get. induction d as [|[k' x] r IH]; cbn; [reflexivity|].
  cbn in H. apply andb_true_iff in H as [Hx Hr].
  destruct (String.eqb k' k); [exact Hx|now apply IH].
Qed.

Lemma wf_value_strs (l : list string) :
  wf_value (VList (map VStr l)) = true.
Proof. cbn. induction l; cbn; trivial. Qed.
End ValueEquality.

Section RoundTrip.
Variable ext : Externals.

Ltac run_init :=
  unfold UserUttered._from_parameters, BotUttered._from_parameters,
    SlotSet._from_parameters, Restarted._from_parameters,
    UserUtteranceReverted._from_parameters, AllSlotsReset._from_parameters,
    ReminderScheduled._from_parameters, ReminderCancelled._from_parameters,
    ActionReverted._from_parameters, StoryExported._from_parameters,
    FollowupAction._from_parameters, ConversationPaused._from_parameters,
    ConversationResumed._from_parameters, ActionExecuted._from_parameters,
    AgentUttered._from_parameters, Form._from_parameters,
    FormValidation._from_parameters, ActionExecutionRejected._from_parameters,
    Event._from_parameters,
    UserUttered._from_story_string, Restarted._from_story_string,
    UserUtteranceReverted._from_story_string, AllSlotsReset._from_story_string,
    ReminderScheduled._from_story_string, ReminderCancelled._from_story_string,
    ActionReverted._from_story_string, StoryExported._from_story_string,
    FollowupAction._from_story_string, ConversationPaused._from_story_string,
    ConversationResumed._from_story_string, ActionExecuted._from_story_string,
    Form._from_story_string, Event._from_story_string,
    try_except_KeyError,
    UserUttered._from_parse_data,
    UserUttered.__init__, BotUttered.__init__, SlotSet.__init__,
    Restarted.__init__, UserUtteranceReverted.__init__,
    AllSlotsReset.__init__, ReminderScheduled.__init__,
    ReminderCancelled.__init__, ActionReverted.__init__,
    StoryExported.__init__, FollowupAction.__init__,
    ConversationPaused.__init__, ConversationResumed.__init__,
    ActionExecuted.__init__, AgentUttered.__init__, Form.__init__,
    FormValidation.__init__, ActionExecutionRejected.__init__,
    bind, lift, ret.

Lemma from_parameters_registered params cls default w :
  get params "event" = VStr (type_name cls) ->
  from_parameters ext params default w = cls_from_parameters ext cls params w.
Proof.
  intros H. unfold from_parameters. rewrite H. destruct cls; reflexivity.
Qed.

Lemma as_dict_event e :
  get (as_dict ext e) "event" = VStr (type_name (class_of e)).
Proof.
  destruct e; unfold as_dict, Event.as_dict; cbn [metadata_of];
    destruct (truthy metadata); reflexivity.
Qed.

Lemma from_story_string_registered cls params default w :
  from_story_string ext (VStr (type_name cls)) params default w
  = cls_from_story_string ext cls params w.
Proof. destruct cls; reflexivity. Qed.

Lemma dict_rt e w : roundtrip_ready ext e ->
  exists e' w', from_parameters ext (as_dict ext e) None w = (Ok (Some e'), w')
   /\ class_of e' = class_of e
   /\ __eq__ ext e e' = Ok true.
Proof.
  intros Hr.
  rewrite (from_parameters_registered _ (class_of e)) by apply as_dict_event.
  destruct e; cbn [class_of cls_from_parameters]; cbn [roundtrip_ready] in Hr.
  all: try (run_init; rewrite Event_init_run; cbn [fst snd Nat.ltb Nat.leb length];
            eexists; eexists; split; [reflexivity|split; [reflexivity|]]; reflexivity).
  all: try (run_init; rewrite Event_init_run; cbn [fst snd Nat.ltb Nat.leb length];
            eexists; eexists; split; [reflexivity|split; [reflexivity|]];
            unfold as_dict, Event.as_dict; cbn [metadata_of timestamp_of class_of];
            destruct (truthy metadata); cbn; rewrite ?py_eq_refl by tauto; reflexivity).
  - (* UserUttered *)
    destruct Hr as (Ht & Hi & Hid & Hel & pd & -> & Hpi & Hpe).
    unfold py_or in Hpi, Hpe.
    run_init.
    unfold as_dict, Event.as_dict. cbn [metadata_of timestamp_of class_of].
    destruct (truthy metadata);
      cbn [get get_default dict_get dict_update fold_left dict_set fst snd
           String.eqb Ascii.eqb Bool.eqb type_name obj_get obj_get_default];
      rewrite Event_init_run; cbn [fst snd Nat.ltb Nat.leb length].
    all: cbn [get get_default dict_get dict_update fold_left dict_set fst snd
           String.eqb Ascii.eqb Bool.eqb type_name obj_get obj_get_default].
    all: rewrite Hpi, Hpe.
    all: eexists; eexists; split; [reflexivity|split; [reflexivity|]].
    all: cbn [__eq__].
    all: destruct intent as [| | | | | |i]; try discriminate Hid.
    all: destruct entities as [| | | | |l|]; try discriminate Hel.
    all: cbn [user_signature obj_get py_iter rbind].
    all: rewrite tuple_eq_refl; [reflexivity|].
    all: cbn [forallb]; rewrite Ht, (wf_value_get _ _ Hi); cbn [andb].
    all: rewrite andb_true_r; cbn [wf_value]; clear; induction l; cbn; trivial.
  - (* BotUttered *)
    destruct Hr as (Ht & Hd & Hm).
    destruct data as [| | | | | |dd]; try discriminate Hd.
    destruct metadata as [| | | | | |mm]; try discriminate Hm.
    run_init. rewrite Event_init_run. cbn [fst snd].
    eexists; eexists; split; [reflexivity|split; [reflexivity|]].
    unfold as_dict, Event.as_dict. cbn [metadata_of timestamp_of class_of].
    destruct dd, mm; cbn; rewrite ?py_eq_refl, ?String.eqb_refl by assumption;
      reflexivity.
  - (* ReminderScheduled *)
    destruct Hr as (Hn & Hnn & Hp).
    run_init.
    assert (Hd : get (as_dict ext
        (EvReminderScheduled action_name trigger_date_time name
           kill_on_user_message timestamp metadata)) "date_time"
        = VStr (isoformat ext trigger_date_time)).
    { unfold as_dict, Event.as_dict. cbn [metadata_of].
      destruct (truthy metadata); reflexivity. }
    assert (Hname : get_default (as_dict ext
        (EvReminderScheduled action_name trigger_date_time name
           kill_on_user_message timestamp metadata)) "name" VNone = name).
    { unfold as_dict, Event.as_dict. cbn [metadata_of].
      destruct (truthy metadata); reflexivity. }
    rewrite Hd, Hname. cbn [parser_parse].
    destruct (dateutil_parse ext (isoformat ext trigger_date_time)) as [d'|];
      [|congruence].
    rewrite Hnn. rewrite Event_init_run. cbn [fst snd Nat.ltb Nat.leb length].
    eexists; eexists; split; [reflexivity|split; [reflexivity|]].
    cbn. now rewrite py_eq_refl.
  - (* AgentUttered *)
    run_init. rewrite Event_init_run. cbn [fst snd].
    eexists; eexists; split; [reflexivity|split; [reflexivity|]].
    unfold as_dict, Event.as_dict. cbn [metadata_of timestamp_of class_of].
    destruct (truthy metadata); cbn;
      rewrite ?py_eq_refl, ?String.eqb_refl by assumption; reflexivity.
Qed.

Lemma story_rt e w e2e params : roundtrip_ready ext e ->
  story_parameters ext e = Some params ->
  as_story_string ext e e2e =
    Ok (VStr (type_name (class_of e)
              ++ match params with
                 | [] => EmptyString
                 | _ => dumps ext (story_ensure_ascii e) (VDict params)
                 end))
  /\ exists e' w',
      from_story_string ext (VStr (type_name (class_of e))) params None w
        = (Ok (Some [e']), w')
      /\ class_of e' = class_of e
      /\ __eq__ ext e e' = Ok true.
Proof.
  intros Hr Hp. rewrite from_story_string_registered.
  unfold story_ensure_ascii.
  destruct e; cbn [story_parameters] in Hp; try discriminate Hp;
    cbn [class_of cls_from_story_string]; cbn [roundtrip_ready] in Hr.
  all: try (injection Hp as <-; split; [reflexivity|];
            run_init; rewrite Event_init_run; cbn [fst snd];
            eexists; eexists; split; [reflexivity|split; [reflexivity|]];
            cbn; rewrite ?py_eq_refl by tauto; reflexivity).
  - destruct key as [| | | |k| |]; try discriminate Hp.
    injection Hp as <-. split; [reflexivity|].
    destruct Hr as [Hk Hv].
    unfold SlotSet._from_story_string. unfold bind at 1.
    rewrite slots_of_run.
    eexists; eexists; split; [reflexivity|split; [reflexivity|]].
    cbn. now rewrite String.eqb_refl, py_eq_refl.
  - injection Hp as <-. split; [reflexivity|].
    destruct Hr as (Hn & Hnn & Hd).
    run_init. unfold _data_obj.
    cbn [get get_default dict_get String.eqb Ascii.eqb Bool.eqb parser_parse].
    destruct (dateutil_parse ext (isoformat ext trigger_date_time)) as [d'|];
      [|congruence].
    rewrite Hnn, Event_init_run. cbn [fst snd].
    eexists; eexists; split; [reflexivity|split; [reflexivity|]].
    cbn. now rewrite py_eq_refl.
Qed.

(** C2 (as amended). Dict codec: for every event of every variant whose
    compared fields are well-formed data of the annotated types (and, for
    a user message, whose [parse_data] holds its intent and entities;
    for a reminder, whose trigger date can be read back from its text),
    decoding the event's record yields an event of the same variant that
    is equal to it under the variant's [__eq__]. Story-string codec: for
    the variants whose story string is their tag followed by a JSON
    parameter object, or the bare tag (every representable variant
    except [user] and [action], whose story strings carry no tag),
    decoding the tag with that parameter object yields exactly one event
    of the same variant, equal to the original. *)
Theorem codec_roundtrip (e : Event) (w : World) (e2e : bool) :
  roundtrip_ready ext e ->
  (exists e' w',
      from_parameters ext (as_dict ext e) None w = (Ok (Some e'), w')
      /\ class_of e' = class_of e
      /\ __eq__ ext e e' = Ok true)
  /\ (forall parameters,
        story_parameters ext e = Some parameters ->
        as_story_string ext e e2e =
          Ok (VStr (type_name (class_of e)
                    ++ match parameters with
                       | [] => EmptyString
                       | _ => dumps ext (story_ensure_ascii e) (VDict parameters)
                       end))
        /\ exists e' w',
             from_story_string ext (VStr (type_name (class_of e)))
               parameters None w = (Ok (Some [e']), w')
             /\ class_of e' = class_of e
             /\ __eq__ ext e e' = Ok true).
Proof.
  intros Hr. split.
  - now apply dict_rt.
  - intros parameters Hp. now apply story_rt.
Qed.
End RoundTrip.

Lemma example_reminder_ready : roundtrip_ready example_ext example_reminder.
Proof. cbn. repeat split. discriminate. Qed.

Lemma codec_roundtrip_witness :
  exists e' w',
    from_parameters example_ext (as_dict example_ext example_reminder) None
      example_world = (Ok (Some e'), w')
    /\ class_of e' = class_of example_reminder
    /\ __eq__ example_ext example_reminder e' = Ok true.
Proof.
  exact (proj1 (codec_roundtrip example_ext example_reminder example_world
                  false example_reminder_ready)).
Defined.

(** A user message whose [parse_data] was passed in without the intent:
    the record round trip loses the intent, and the decoded message is not
    equal to the original. *)
Lemma user_uttered_roundtrip_differs :
  fst (UserUttered.__init__ (VStr "hi") (VDict [("name", VStr "greet")])
         VNone (VDict [("text", VStr "hi")]) VNone VNone VNone VNone
         example_world) = Ok greet_message
  /\ fst (from_parameters example_ext (as_dict example_ext greet_message)
            None example_world) = Ok (Some greet_message_decoded)
  /\ __eq__ example_ext greet_message greet_message_decoded = Ok false.
Proof. repeat split. Qed.

(** The story string of an executed action is the bare action name: taken
    as a tag it is unknown to the registry. *)
Lemma action_story_string_is_no_tag :
  as_story_string example_ext
    (EvActionExecuted (VStr "utter_greet") VNone VNone (VInt 1) (VDict []) false)
    false = Ok (VStr "utter_greet")
  /\ fst (from_story_string example_ext (VStr "utter_greet") [] None
            example_world)
     = Raise (ValueError "Unknown event name 'utter_greet'.").
Proof. split; reflexivity. Qed.

(** ** The JSON encoder on examples *)

Example escape_ascii_on :
  encode_basestring true "café" = String dquote ("caf\u00e9" ++ String dquote EmptyString)
  /\ encode_basestring false "café" = String dquote ("café" ++ String dquote EmptyString)
  /\ escape_string true "😀" = "\ud83d\ude00".
Proof. repeat split. Qed.

(** * Further properties of the module *)

(** ** Identity rules *)

Section IdentityRules.
Variable ext : Externals.

(** X1. Events of different variants are never equal: every [__eq__]
    starts with an [isinstance] test on the other event. *)
Theorem eq_different_variants (e e' : Event) :
  class_of e <> class_of e' -> __eq__ ext e e' = Ok false.
Proof.
  intros H. destruct e, e'; cbn in H; try reflexivity; congruence.
Qed.

(** [BotUttered.__members] on a message whose data and metadata are dicts. *)
Lemma bot_members (text : value) (d m : dict) :
  __members ext text (VDict d) (VDict m) =
    Ok [text; VStr (jsonpickle_encode ext (VDict (without_nones d)));
        VStr (jsonpickle_encode ext (VDict (without_nones m)))].
Proof. reflexivity. Qed.

(** X2. Identity does not look at the time stamp, and for every variant
    but BotUttered not at the metadata either: changing them on either
    side changes neither the outcome of [__eq__] nor the hash. BotUttered
    compares and hashes its metadata, but not its time stamp: two bot
    messages are equal exactly if their texts are equal and their data
    and their metadata, each without its [None]-valued entries, have the
    same encoding; so messages whose metadata encode differently are not
    equal; and the hash is that of the text and the two encodings. *)
Theorem identity_ignores_stamp (e e' : Event) (ts md ts' md' : value) :
  ((class_of e <> BotUttered ->
    __eq__ ext (restamp e ts md) (restamp e' ts' md') = __eq__ ext e e'
    /\ __hash__ ext (restamp e ts md) = __hash__ ext e)
   /\ __eq__ ext (restamp e ts (metadata_of e)) (restamp e' ts' (metadata_of e'))
      = __eq__ ext e e'
   /\ __hash__ ext (restamp e ts (metadata_of e)) = __hash__ ext e)
  /\ (forall (text text' : value) (d d' m m' : dict),
        __eq__ ext (EvBotUttered text (VDict d) (VDict m) ts)
          (EvBotUttered text' (VDict d') (VDict m') ts')
        = Ok (py_eq text text'
              && (String.eqb (jsonpickle_encode ext (VDict (without_nones d)))
                    (jsonpickle_encode ext (VDict (without_nones d')))
                  && String.eqb
                       (jsonpickle_encode ext (VDict (without_nones m)))
                       (jsonpickle_encode ext (VDict (without_nones m')))))
        /\ (jsonpickle_encode ext (VDict (without_nones m))
            <> jsonpickle_encode ext (VDict (without_nones m')) ->
            __eq__ ext (EvBotUttered text (VDict d) (VDict m) ts)
              (EvBotUttered text' (VDict d') (VDict m') ts')
            = Ok false)
        /\ __hash__ ext (EvBotUttered text (VDict d) (VDict m) ts)
           = hash_tuple ext
               [text;
                VStr (jsonpickle_encode ext (VDict (without_nones d)));
                VStr (jsonpickle_encode ext (VDict (without_nones m)))]).
Proof.
  split; [split; [intros H; split|split]|].
  - destruct e, e'; cbn in H; try reflexivity; congruence.
  - destruct e; cbn in H; try reflexivity; congruence.
  - destruct e, e'; reflexivity.
  - destruct e; reflexivity.
  - intros text text' d d' m m'.
    assert (E : __eq__ ext (EvBotUttered text (VDict d) (VDict m) ts)
                  (EvBotUttered text' (VDict d') (VDict m') ts')
                = Ok (py_eq text text'
                      && (String.eqb
                            (jsonpickle_encode ext (VDict (without_nones d)))
                            (jsonpickle_encode ext (VDict (without_nones d')))
                          && String.eqb
                               (jsonpickle_encode ext (VDict (without_nones m)))
                               (jsonpickle_encode ext
                                  (VDict (without_nones m')))))).
    { cbn [__eq__]. rewrite !bot_members. cbn [rbind tuple_eq py_eq].
      now rewrite andb_true_r. }
    split; [exact E|split].
    + intros Hne. rewrite E. apply String.eqb_neq in Hne. rewrite Hne.
      now rewrite !andb_false_r.
    + cbn [__hash__]. now rewrite bot_members.
Qed.
Lemma as_number_bool_int (b : bool) (n : Z) :
  Qeq_bool (if b then 1%Q else 0%Q) (inject_Z n) = true ->
  (if b then 1 else 0 : Z) = int_hash n.
Proof.
  intros H. apply Qeq_bool_iff in H. unfold Qeq in H. cbn in H.
  destruct b; cbn in H; assert (n = 1 \/ n = 0) as [->| ->] by lia;
    try reflexivity; lia.
Qed.

Lemma Qeq_bool_sym q q' : Qeq_bool q q' = Qeq_bool q' q.
Proof.
  destruct (Qeq_bool q q') eqn:E.
  - symmetry. apply Qeq_bool_iff. apply Qeq_bool_iff in E. now symmetry.
  - destruct (Qeq_bool q' q) eqn:E'; [|reflexivity].
    apply Qeq_bool_iff in E'. symmetry in E'. apply Qeq_bool_iff in E'.
    congruence.
Qed.

(** Values that compare equal hash equally (or are unhashable alike). *)
Lemma py_eq_hash (a b : value) :
  hash_coherent ext -> py_eq a b = true -> py_hash ext a = py_hash ext b.
Proof.
  intros [Hff Hfi] H.
  destruct a, b; cbn in H; try discriminate H; cbn [py_hash]; try reflexivity.
  - (* bool, bool *)
    apply Qeq_bool_iff in H. unfold Qeq in H.
    destruct b0, b; cbn in H; try reflexivity; lia.
  - (* bool, int *) f_equal. now apply as_number_bool_int.
  - (* bool, float *)
    f_equal. rewrite Qeq_bool_sym in H.
    replace (if b0 then 1 else 0 : Z) with (int_hash (if b0 then 1 else 0))
      by (destruct b0; reflexivity).
    symmetry. apply Hfi. destruct b0; exact H.
  - (* int, bool *)
    f_equal. symmetry. apply as_number_bool_int. now rewrite Qeq_bool_sym.
  - (* int, int *)
    apply Qeq_bool_iff in H. unfold Qeq in H. cbn in H.
    f_equal. f_equal. lia.
  - (* int, float *)
    f_equal. symmetry. apply Hfi. now rewrite Qeq_bool_sym.
  - (* float, bool *)
    f_equal.
    replace (if b then 1 else 0 : Z) with (int_hash (if b then 1 else 0))
      by (destruct b; reflexivity).
    apply Hfi. destruct b; exact H.
  - (* float, int *) f_equal. now apply Hfi.
  - (* float, float *) f_equal. now apply Hff.
  - (* str, str *) apply String.eqb_eq in H. now subst.
Qed.

Lemma tuple_eq_hash (l m : list value) :
  hash_coherent ext -> tuple_eq l m = true ->
  hash_tuple ext l = hash_tuple ext m.
Proof.
  intros Hc H. unfold hash_tuple. f_equal.
  revert m H. induction l as [|x l IH]; intros [|y m] H;
    cbn in H; try discriminate H; [reflexivity|].
  apply andb_true_iff in H as [Hxy Hlm].
  cbn [rmap_list]. now rewrite (py_eq_hash x y Hc Hxy), (IH m Hlm).
Qed.

(** X3. For the payload-free variants and for FollowupAction,
    ActionExecuted, Form, ActionExecutionRejected, AgentUttered and
    BotUttered, equal events hash equally, given that the interpreter
    hashes equal numbers equally. *)
Theorem equal_events_equal_hashes (e e' : Event) :
  hash_coherent ext ->
  In (class_of e) hash_follows_eq ->
  __eq__ ext e e' = Ok true ->
  __hash__ ext e = __hash__ ext e'.
Proof.
  intros Hc Hin Heq.
  destruct e; cbn in Hin; try (exfalso; intuition congruence); clear Hin;
    destruct e'; cbn in Heq; try discriminate Heq; cbn [__hash__];
    try reflexivity.
  - (* BotUttered *)
    destruct (__members ext text data metadata) as [a|x]; [|discriminate Heq].
    destruct (__members ext text0 data0 metadata0) as [b|x];
      [|discriminate Heq].
    cbn in Heq |- *. injection Heq as Heq. now apply tuple_eq_hash.
  - injection Heq as Heq. now apply py_eq_hash.
  - injection Heq as Heq. now apply py_eq_hash.
  - injection Heq as Heq. now apply tuple_eq_hash.
  - injection Heq as Heq. now apply py_eq_hash.
  - injection Heq as Heq. now apply py_eq_hash.
Qed.

(** X4. An event whose compared fields are well-formed data of the
    annotated types is equal to itself; a user message whose intent is not
    a dict cannot be compared with a user message at all: the comparison
    raises [AttributeError]. *)
Theorem eq_reflexive_or_raises (e : Event) :
  (comparable e -> __eq__ ext e e = Ok true)
  /\ (forall text intent entities pd ts ic mid md e',
        e = EvUserUttered text intent entities pd ts ic mid md ->
        is_dict intent = false ->
        class_of e' = UserUttered ->
        __eq__ ext e e' = Raise (no_attribute intent "get")).
Proof.
  split.
  - intros Hc. destruct e; cbn in Hc |- *; try reflexivity;
      rewrite ?py_eq_refl, ?String.eqb_refl by tauto; try reflexivity.
    + destruct Hc as (Ht & Hi & Hid & Hel).
      destruct intent as [| | | | | |i]; try discriminate Hid.
      destruct entities as [| | | | |l|]; try discriminate Hel.
      cbn [__eq__ user_signature obj_get py_iter rbind].
      rewrite tuple_eq_refl; [reflexivity|].
      cbn [forallb]. rewrite Ht, (wf_value_get _ _ Hi). cbn [andb].
      rewrite andb_true_r. cbn [wf_value]. clear. induction l; cbn; trivial.
    + destruct Hc as (Ht & Hd & Hm).
      destruct data as [| | | | | |dd]; try discriminate Hd.
      destruct metadata as [| | | | | |mm]; try discriminate Hm.
      cbn. now rewrite py_eq_refl, !String.eqb_refl.
  - intros text intent entities pd ts ic mid md e' -> Hid Hcls.
    destruct e'; cbn in Hcls; try discriminate Hcls.
    destruct intent; try discriminate Hid; reflexivity.
Qed.
End IdentityRules.

Lemma coherent_ext_coherent : hash_coherent coherent_ext.
Proof.
  split.
  - intros q q' H. apply Qeq_bool_iff in H. cbn. now rewrite H.
  - intros q n H. apply Qeq_bool_iff in H. cbn. now rewrite H, Qfloor_Z.
Qed.

Lemma eq_different_variants_witness :
  __eq__ example_ext (EvRestarted (VInt 1) (VDict []))
    (EvAllSlotsReset (VInt 1) (VDict [])) = Ok false.
Proof.
  apply (eq_different_variants example_ext). discriminate.
Defined.

Lemma identity_ignores_stamp_witness :
  __eq__ example_ext
    (restamp (EvSlotSet (VStr "city") (VStr "Oslo") (VInt 1) (VDict []))
       (VInt 2) (VDict [("k", VInt 1)]))
    (restamp (EvSlotSet (VStr "city") (VStr "Oslo") (VInt 3) (VDict []))
       (VInt 4) (VDict []))
  = __eq__ example_ext
      (EvSlotSet (VStr "city") (VStr "Oslo") (VInt 1) (VDict []))
      (EvSlotSet (VStr "city") (VStr "Oslo") (VInt 3) (VDict []))
  /\ __eq__ example_ext
       (EvBotUttered (VStr "hi") (VDict []) (VDict [("k", VInt 1)]) (VInt 2))
       (EvBotUttered (VStr "hi") (VDict []) (VDict []) (VInt 4))
     = Ok false.
Proof.
  split.
  - apply (proj1 (proj1 (identity_ignores_stamp example_ext
                    (EvSlotSet (VStr "city") (VStr "Oslo") (VInt 1) (VDict []))
                    (EvSlotSet (VStr "city") (VStr "Oslo") (VInt 3) (VDict []))
                    (VInt 2) (VDict [("k", VInt 1)]) (VInt 4) (VDict [])))).
    discriminate.
  - apply (proj1 (proj2 (proj2 (identity_ignores_stamp example_ext
                    (EvSlotSet (VStr "city") (VStr "Oslo") (VInt 1) (VDict []))
                    (EvSlotSet (VStr "city") (VStr "Oslo") (VInt 3) (VDict []))
                    (VInt 2) (VDict []) (VInt 4) (VDict []))
                  (VStr "hi") (VStr "hi") [] [] [("k", VInt 1)] []))).
    vm_compute. discriminate.
Defined.

Lemma equal_events_equal_hashes_witness :
  __hash__ coherent_ext
    (EvActionExecuted (VStr "utter_greet") (VStr "policy_0") (VInt 1)
       (VInt 10) (VDict []) false)
  = __hash__ coherent_ext
      (EvActionExecuted (VStr "utter_greet") VNone VNone (VInt 20)
         (VDict [("k", VInt 1)]) false).
Proof.
  apply (equal_events_equal_hashes coherent_ext).
  - exact coherent_ext_coherent.
  - cbn. tauto.
  - reflexivity.
Defined.

Lemma eq_reflexive_or_raises_witness :
  __eq__ example_ext
    (EvBotUttered (VStr "hello") (VDict [("image", VNone)]) (VDict [])
       (VInt 1))
    (EvBotUttered (VStr "hello") (VDict [("image", VNone)]) (VDict [])
       (VInt 1)) = Ok true.
Proof.
  apply (proj1 (eq_reflexive_or_raises example_ext _)).
  cbn. tauto.
Defined.

(** ** The dict encoding and the registry *)

Section Records.
Variable ext : Externals.

Lemma as_dict_tag_and_timestamp_aux (e : Event) :
  dict_get (as_dict ext e) "event" = Some (VStr (type_name (class_of e)))
  /\ dict_get (as_dict ext e) "timestamp" = Some (timestamp_of e).
Proof.
  destruct e; unfold as_dict, Event.as_dict; cbn [metadata_of];
    destruct (truthy metadata); repeat split.
Qed.

(** X5. The record of every event holds the tag of its variant under
    ["event"] and its time stamp under ["timestamp"] (no variant's own
    fields overwrite them), and no key twice. *)
Theorem as_dict_tag_and_timestamp (e : Event) :
  dict_get (as_dict ext e) "event" = Some (VStr (type_name (class_of e)))
  /\ dict_get (as_dict ext e) "timestamp" = Some (timestamp_of e)
  /\ unique_keys (map fst (as_dict ext e)) = true.
Proof.
  destruct e; unfold as_dict, Event.as_dict; cbn [metadata_of];
    destruct (truthy metadata); repeat split.
Qed.

(** X6. No two variants share a tag, neither ["topic"] nor the base
    class's ["event"] is the tag of a variant, and the registry resolves
    the tag of each variant to that variant, whatever fallback is
    passed. *)
Theorem registry_resolves_tags :
  (forall c1 c2, type_name c1 = type_name c2 -> c1 = c2)
  /\ (forall cls, type_name cls <> "topic" /\ type_name cls <> "event")
  /\ (forall cls default,
        resolve_by_type ext (VStr (type_name cls)) default = Ok (Some cls)).
Proof.
  repeat split.
  - intros c1 c2 H. destruct c1, c2; try reflexivity; discriminate H.
  - destruct cls; discriminate.
  - destruct cls; discriminate.
  - destruct cls; reflexivity.
Qed.

Lemma from_parameters_no_event parameters default w :
  dict_get parameters "event" = None ->
  from_parameters ext parameters default w = (Ok None, w).
Proof.
  intros H. unfold from_parameters, get. rewrite H. reflexivity.
Qed.

(** X7. A record without an ["event"] key decodes to no event, without
    error and whatever fallback is passed; a batch of such records decodes
    to the empty list and logs nothing. A record whose ["event"] entry is
    [None] is dropped with the warning instead. *)
Theorem records_without_event_key :
  (forall parameters default w,
      dict_mem "event" parameters = false ->
      from_parameters ext parameters default w = (Ok None, w))
  /\ (forall batch w,
        Forall (fun e => dict_mem "event" e = false) batch ->
        deserialise_events ext batch w = (Ok [], w))
  /\ (forall e w,
        dict_get e "event" = Some VNone ->
        deserialise_events ext [e] w = (Ok [], warned unable_to_parse w)).
Proof.
  split; [|split].
  - intros parameters default w H. apply from_parameters_no_event.
    unfold dict_mem in H. destruct (dict_get parameters "event");
      [discriminate H|reflexivity].
  - intros batch w H. unfold deserialise_events.
    induction H as [|e batch He _ IH]; [reflexivity|].
    rewrite deserialise_loop_step, He. exact IH.
  - intros e w H. unfold deserialise_events.
    rewrite deserialise_loop_step. unfold dict_mem. rewrite H.
    unfold from_parameters, get. rewrite H. reflexivity.
Qed.

Lemma deserialise_loop_acc batch acc w :
  deserialise_loop ext batch acc w =
    match deserialise_loop ext batch [] w with
    | (Ok evs, w') => (Ok (acc ++ evs)%list, w')
    | (Raise x, w') => (Raise x, w')
    end.
Proof.
  revert acc w. induction batch as [|e batch IH]; intros acc w.
  - cbn. now rewrite app_nil_r.
  - rewrite !deserialise_loop_step.
    destruct (dict_mem "event" e); [|apply IH].
    destruct (from_parameters ext e None w) as [[[ev|]|x] w1].
    + rewrite (IH (acc ++ [ev])%list), (IH ([] ++ [ev])%list).
      destruct (deserialise_loop ext batch [] w1) as [[evs|x] w2];
        [|reflexivity].
      now rewrite <- app_assoc.
    + apply IH.
    + reflexivity.
Qed.

(** X8. Decoding a batch in two parts and joining the results is decoding
    the whole batch: the events of the first part come first, in order,
    and the second part starts in the world the first one left. If the
    first part raises, so does the whole batch, with the same error. *)
Theorem deserialise_events_app (b1 b2 : list dict) (w : World) :
  (forall evs1 w1 evs2 w2,
      deserialise_events ext b1 w = (Ok evs1, w1) ->
      deserialise_events ext b2 w1 = (Ok evs2, w2) ->
      deserialise_events ext (b1 ++ b2) w = (Ok (evs1 ++ evs2)%list, w2))
  /\ (forall x w1,
        deserialise_events ext b1 w = (Raise x, w1) ->
        deserialise_events ext (b1 ++ b2) w = (Raise x, w1)).
Proof.
  unfold deserialise_events. split.
  - intros evs1 w1 evs2 w2 H1 H2.
    rewrite deserialise_loop_app, H1, deserialise_loop_acc, H2. reflexivity.
  - intros x w1 H1. rewrite deserialise_loop_app, H1. reflexivity.
Qed.

Lemma as_dict_has_event e : dict_mem "event" (as_dict ext e) = true.
Proof.
  unfold dict_mem.
  now rewrite (proj1 (as_dict_tag_and_timestamp_aux e)).
Qed.
End Records.

(** ** The dict codec, exactly *)

Ltac unfold_decoders :=
  unfold UserUttered._from_parameters, BotUttered._from_parameters,
    SlotSet._from_parameters, Restarted._from_parameters,
    UserUtteranceReverted._from_parameters, AllSlotsReset._from_parameters,
    ReminderScheduled._from_parameters, ReminderCancelled._from_parameters,
    ActionReverted._from_parameters, StoryExported._from_parameters,
    FollowupAction._from_parameters, ConversationPaused._from_parameters,
    ConversationResumed._from_parameters, ActionExecuted._from_parameters,
    AgentUttered._from_parameters, Form._from_parameters,
    FormValidation._from_parameters, ActionExecutionRejected._from_parameters,
    Event._from_parameters,
    UserUttered._from_story_string, BotUttered._from_story_string,
    Restarted._from_story_string,
    UserUtteranceReverted._from_story_string, AllSlotsReset._from_story_string,
    ReminderScheduled._from_story_string, ReminderCancelled._from_story_string,
    ActionReverted._from_story_string, StoryExported._from_story_string,
    FollowupAction._from_story_string, ConversationPaused._from_story_string,
    ConversationResumed._from_story_string, ActionExecuted._from_story_string,
    AgentUttered._from_story_string, Form._from_story_string,
    FormValidation._from_story_string,
    ActionExecutionRejected._from_story_string, Event._from_story_string,
    try_except_KeyError,
    UserUttered._from_parse_data,
    UserUttered.__init__, BotUttered.__init__, SlotSet.__init__,
    Restarted.__init__, UserUtteranceReverted.__init__,
    AllSlotsReset.__init__, ReminderScheduled.__init__,
    ReminderCancelled.__init__, ActionReverted.__init__,
    StoryExported.__init__, FollowupAction.__init__,
    ConversationPaused.__init__, ConversationResumed.__init__,
    ActionExecuted.__init__, AgentUttered.__init__, Form.__init__,
    FormValidation.__init__, ActionExecutionRejected.__init__,
    bind, lift, ret.

Ltac eval_record :=
  cbn [get get_default dict_get dict_update fold_left dict_set fst snd
       String.eqb Ascii.eqb Bool.eqb type_name obj_get obj_get_default
       class_of timestamp_of metadata_of].

Section DictCodec.
Variable ext : Externals.

Lemma falsy_metadata md :
  py_or md (VDict []) = md -> truthy md = false -> md = VDict [].
Proof. unfold py_or. intros H E. rewrite E in H. now symmetry. Qed.

(** X9. Decoding the record of an event gives back exactly that event,
    field by field, without reading the clock, drawing a uuid or logging,
    whenever the record holds all of the event (see [fully_recorded]). *)
Theorem exact_dict_roundtrip (e : Event) (w : World) :
  fully_recorded ext e ->
  from_parameters ext (as_dict ext e) None w = (Ok (Some e), w).
Proof.
  intros (Hts & Hmd & Hrest).
  rewrite (from_parameters_registered ext _ (class_of e))
    by apply as_dict_event.
  destruct e; cbn [class_of cls_from_parameters timestamp_of metadata_of] in *.
  all: unfold_decoders; unfold as_dict, Event.as_dict, _data_obj; eval_record.
  all: destruct (truthy metadata) eqn:Em;
       [|pose proof (falsy_metadata _ Hmd Em) as ->]; eval_record.
  all: try (rewrite Event_init_run, Hts; cbn [fst snd length Nat.ltb Nat.leb];
            rewrite ?Hmd; subst; reflexivity).
  all: try (rewrite Event_init_run, Hts; cbn [fst snd length Nat.ltb Nat.leb];
            rewrite ?Hmd, ?Hrest; reflexivity).
  all: try (destruct Hrest as (Hpt & pd & -> & Hi & He);
            unfold py_or in Hi, He; cbn [obj_get obj_get_default];
            rewrite Event_init_run, Hts; cbn [fst snd length Nat.ltb Nat.leb];
            rewrite Hi, He, Hpt, ?Hmd; reflexivity).
  all: destruct Hrest as [Hn Hp]; cbn [parser_parse]; rewrite Hp, Hn;
       rewrite Event_init_run, Hts; cbn [fst snd length Nat.ltb Nat.leb];
       rewrite ?Hmd; reflexivity.
Qed.

(** X10. The record of a cancelled reminder does not hold its action
    name, nor the record of an export its path: decoding the record gives
    the event with [None] in that field, whatever it was. *)
Theorem unrecorded_fields_are_lost (a ts md : value) (w : World) :
  truthy ts = true ->
  dict_mem "action" (as_dict ext (EvReminderCancelled a ts md)) = false
  /\ dict_mem "path" (as_dict ext (EvStoryExported a ts md)) = false
  /\ from_parameters ext (as_dict ext (EvReminderCancelled a ts md)) None w
     = (Ok (Some (EvReminderCancelled VNone ts (py_or md (VDict [])))), w)
  /\ from_parameters ext (as_dict ext (EvStoryExported a ts md)) None w
     = (Ok (Some (EvStoryExported VNone ts (py_or md (VDict [])))), w).
Proof.
  intros Hts.
  rewrite (from_parameters_registered ext _ ReminderCancelled)
    by apply as_dict_event.
  rewrite (from_parameters_registered ext _ StoryExported)
    by apply as_dict_event.
  cbn [cls_from_parameters]. unfold_decoders.
  unfold as_dict, Event.as_dict, dict_mem; eval_record.
  destruct (truthy md) eqn:Em; eval_record;
    rewrite !Event_init_run, Hts; cbn [fst snd length Nat.ltb Nat.leb];
    unfold py_or; rewrite ?Em; cbn [truthy]; repeat split.
Qed.

Lemma init_effects ts md w :
  exists p w', Event.__init__ ts md w = (Ok p, w')
    /\ log w' = log w /\ uuid_count w' = uuid_count w
    /\ (ticks w' = ticks w \/ ticks w' = S (ticks w)).
Proof.
  rewrite Event_init_run. eexists; eexists; split; [reflexivity|].
  destruct (truthy ts); cbn; auto.
Qed.

Ltac use_init :=
  match goal with
  | |- context [Event.__init__ ?a ?b ?w] =>
      let p := fresh "p" in let w' := fresh "w" in
      let H := fresh "H" in let Hl := fresh "Hl" in
      let Hu := fresh "Hu" in let Ht := fresh "Ht" in
      destruct (init_effects a b w) as (p & w' & H & Hl & Hu & Ht);
      rewrite H; clear H
  end.

Ltac finish_run :=
  let Hrun := fresh "Hrun" in
  intros Hrun;
  try match goal with x : exn |- _ => destruct x end;
  inversion Hrun; subst; cbn in *; auto.

Lemma from_parameters_effects_aux parameters default w r w' :
  from_parameters ext parameters default w = (r, w') ->
  log w' = log w
  /\ (ticks w' = ticks w \/ ticks w' = S (ticks w))
  /\ (uuid_count w' = uuid_count w \/ uuid_count w' = S (uuid_count w)).
Proof.
  unfold from_parameters.
  destruct (is_None (get parameters "event")); [finish_run|].
  unfold bind at 1. unfold lift.
  destruct (resolve_by_type ext (get parameters "event") default)
    as [[cls|]|x]; [|finish_run..].
  destruct cls; cbn [cls_from_parameters]; unfold_decoders.
  all: try solve [use_init; cbn [fst snd length Nat.ltb Nat.leb]; finish_run].
  - (* UserUttered *)
    destruct (obj_get (get parameters "parse_data") "intent");
      [|finish_run].
    destruct (obj_get_default (get parameters "parse_data") "entities"
                (VList [])); [|finish_run].
    use_init; cbn [fst snd length Nat.ltb Nat.leb]; finish_run.
  - (* ReminderScheduled *)
    destruct (parser_parse ext (get parameters "date_time"));
      [|finish_run].
    destruct (is_None (get_default parameters "name" VNone));
      unfold uuid_uuid1; use_init; cbn [fst snd length Nat.ltb Nat.leb];
      finish_run.
Qed.

(** X11. Decoding one record never logs a warning; whether it returns an
    event, nothing, or raises, it reads the clock at most once and draws
    at most one uuid. *)
Theorem from_parameters_effects (parameters : dict)
    (default : option EventClass) (w w' : World) (r : Result (option Event)) :
  from_parameters ext parameters default w = (r, w') ->
  log w' = log w
  /\ (ticks w' = ticks w \/ ticks w' = S (ticks w))
  /\ (uuid_count w' = uuid_count w \/ uuid_count w' = S (uuid_count w)).
Proof. apply from_parameters_effects_aux. Qed.

Lemma get_mem d k s : get d k = VStr s -> dict_mem k d = true.
Proof.
  unfold get, dict_mem. destruct (dict_get d k); [reflexivity|discriminate].
Qed.

(** X12. Encoding a list of events and decoding the batch gives as many
    events, in the same order, each of the variant of and equal to the one
    it came from, for events that meet the conditions of the single round
    trip. *)
Theorem batch_roundtrip (es : list Event) (w : World) :
  Forall (roundtrip_ready ext) es ->
  exists es' w',
    deserialise_events ext (map (as_dict ext) es) w = (Ok es', w')
    /\ Forall2 (fun e e' => class_of e' = class_of e
                           /\ __eq__ ext e e' = Ok true) es es'.
Proof.
  intros H. revert w. unfold deserialise_events.
  induction H as [|e es He _ IH]; intros w.
  - exists [], w. split; [reflexivity|constructor].
  - cbn [map]. rewrite deserialise_loop_step.
    rewrite (get_mem _ _ _ (as_dict_event ext e)).
    destruct (dict_rt ext e w He) as (e' & w1 & Hd & Hc & Heq).
    rewrite Hd, deserialise_loop_acc.
    destruct (IH w1) as (es' & w' & Hes & Hall).
    rewrite Hes. exists (e' :: es'), w'. split; [reflexivity|].
    constructor; auto.
Qed.
End DictCodec.

(** ** Construction *)

Section ConstructionEffects.

Variable ext : Externals.

Ltac unfold_inits :=
  unfold UserUttered.__init__, BotUttered.__init__, SlotSet.__init__,
    Restarted.__init__, UserUtteranceReverted.__init__,
    AllSlotsReset.__init__, ReminderScheduled.__init__,
    ReminderCancelled.__init__, ActionReverted.__init__,
    StoryExported.__init__, FollowupAction.__init__,
    ConversationPaused.__init__, ConversationResumed.__init__,
    ActionExecuted.__init__, AgentUttered.__init__, Form.__init__,
    FormValidation.__init__, ActionExecutionRejected.__init__.

Lemma construct_world (c : ctor_call) (ts md : value) (w : World) :
  exists e,
    construct c ts md w =
      (Ok e,
       mkWorld (clock w)
         (if truthy ts then ticks w else S (ticks w))
         (uuids w)
         (if draws_uuid c then S (uuid_count w) else uuid_count w)
         (log w))
    /\ class_of e = ctor_class c
    /\ metadata_of e = (if truthy md then md else VDict []).
Proof.
  destruct c; cbn [construct ctor_class draws_uuid]; unfold_inits;
    unfold bind.
  all: try (rewrite Event_init_run; cbn [fst snd ret];
            destruct (truthy ts); destruct w; eexists; repeat split).
  destruct (is_None name); unfold uuid_uuid1, ret;
    rewrite Event_init_run; cbn [fst snd];
    destruct (truthy ts); destruct w; eexists; repeat split.
Qed.

(** X13. Constructing an event never fails and never logs, for every
    variant and whatever is passed as time stamp and metadata; the
    metadata of the event is the one passed if it is truthy and the empty
    dict otherwise, so it is never [None]. *)
Theorem construct_never_fails (c : ctor_call) (ts md : value) (w : World) :
  exists e w',
    construct c ts md w = (Ok e, w')
    /\ class_of e = ctor_class c
    /\ metadata_of e = (if truthy md then md else VDict [])
    /\ is_None (metadata_of e) = false
    /\ log w' = log w.
Proof.
  destruct (construct_world c ts md w) as (e & Hc & Hcls & Hmd).
  eexists; eexists; split; [exact Hc|]. repeat split; trivial.
  rewrite Hmd. destruct (truthy md) eqn:E; [|reflexivity].
  destruct md; try reflexivity; discriminate E.
Qed.

(** X14. The constructor of every variant reads the clock exactly once
    when the time stamp passed is falsy and not at all otherwise; it draws
    a uuid exactly when a reminder is constructed without a name, and
    leaves the clock and the uuid generator themselves as they are. *)
Theorem construct_reads_clock_once (c : ctor_call) (ts md : value) (w : World) :
  exists e w',
    construct c ts md w = (Ok e, w')
    /\ clock w' = clock w /\ uuids w' = uuids w
    /\ ticks w' = (if truthy ts then ticks w else S (ticks w))
    /\ uuid_count w' = (if draws_uuid c then S (uuid_count w) else uuid_count w).
Proof.
  destruct (construct_world c ts md w) as (e & Hc & _).
  eexists; eexists; split; [exact Hc|]. repeat split.
Qed.

Lemma unnamed_reminder_run a d k ts md w :
  construct (NewReminderScheduled a d VNone k) ts md w =
    (Ok (EvReminderScheduled a d (VStr (uuids w (uuid_count w))) k
           (if truthy ts then ts else now w) (py_or md (VDict []))),
     mkWorld (clock w) (if truthy ts then ticks w else S (ticks w))
       (uuids w) (S (uuid_count w)) (log w)).
Proof.
  cbn [construct]. unfold ReminderScheduled.__init__, bind, uuid_uuid1.
  cbn [is_None]. rewrite Event_init_run. cbn [fst snd ret].
  destruct (truthy ts); reflexivity.
Qed.

(** X15. Two reminders constructed one after the other without a name are
    named by two successive draws of the uuid generator, and they are
    equal exactly if these two draws are the same text: whatever their
    actions, dates and flags, they differ as soon as the generator does
    not repeat itself. *)
Theorem unnamed_reminders_get_fresh_names
    (a a' : value) (d d' : datetime) (k k' ts ts' md md' : value) (w : World) :
  exists e1 w1 e2 w2 ta tb ma mb,
    construct (NewReminderScheduled a d VNone k) ts md w = (Ok e1, w1)
    /\ construct (NewReminderScheduled a' d' VNone k') ts' md' w1 = (Ok e2, w2)
    /\ e1 = EvReminderScheduled a d (VStr (uuids w (uuid_count w))) k ta ma
    /\ e2 = EvReminderScheduled a' d' (VStr (uuids w (S (uuid_count w)))) k' tb mb
    /\ __eq__ ext e1 e2
       = Ok (String.eqb (uuids w (uuid_count w)) (uuids w (S (uuid_count w)))).
Proof.
  do 8 eexists. split; [apply unnamed_reminder_run|].
  split; [apply unnamed_reminder_run|].
  split; [reflexivity|]. split; reflexivity.
Qed.
End ConstructionEffects.

(** ** Helpers *)

Section Helpers.

Variable ext : Externals.

Lemma dict_get_in_mem (d : dict) k v : In (k, v) d -> dict_mem k d = true.
Proof.
  unfold dict_mem. induction d as [|[k' v'] r IH]; cbn; [contradiction|].
  intros [H|H].
  - inversion H; subst. now rewrite String.eqb_refl.
  - destruct (String.eqb k' k); [reflexivity|now apply IH].
Qed.

(** The first entry whose key is not the default: the entries before it
    all have the default key. *)
Lemma filter_first_other (d : dict) (default_key : string) :
  (exists pre k v post,
      d = (pre ++ (k, v) :: post)%list
      /\ Forall (fun kv => fst kv = default_key) pre
      /\ k <> default_key
      /\ filter (fun kv => negb (String.eqb (fst kv) default_key)) d
         = (k, v)
             :: filter (fun kv => negb (String.eqb (fst kv) default_key)) post)
  \/ (Forall (fun kv => fst kv = default_key) d
      /\ filter (fun kv => negb (String.eqb (fst kv) default_key)) d = []).
Proof.
  induction d as [|[k v] r IH].
  - right. split; [constructor|reflexivity].
  - cbn [filter fst].
    destruct (String.eqb_spec k default_key) as [->|Hne]; cbn [negb].
    + destruct IH as [(pre & k' & v' & post & -> & Hpre & Hk & Hf)|[Hall Hf]].
      * left. exists ((default_key, v) :: pre), k', v', post.
        split; [reflexivity|]. split; [now constructor|]. now split.
      * right. split; [now constructor|exact Hf].
    + left. exists [], k, v, r. repeat split; [constructor|exact Hne].
Qed.

(** X16. [first_key] of a dict: nothing for the empty dict; otherwise a
    key of the dict, which is the only key if there is one (even if it is
    the default key), and with several keys the first one, in the order
    of the dict, that is not the default key: every key before it is the
    default key. *)
Theorem first_key_spec (d : dict) (default_key : string) :
  unique_keys (map fst d) = true ->
  (d = [] -> first_key d default_key = None)
  /\ (d <> [] ->
      exists k,
        first_key d default_key = Some k
        /\ dict_mem k d = true
        /\ ((1 < length d)%nat -> k <> default_key)
        /\ (forall k0 v0 r, d = (k0, v0) :: r ->
              k0 <> default_key \/ r = [] -> k = k0))
  /\ (forall k v, d = [(k, v)] -> first_key d default_key = Some k)
  /\ ((1 < length d)%nat ->
      exists pre k v post,
        d = (pre ++ (k, v) :: post)%list
        /\ Forall (fun kv => fst kv = default_key) pre
        /\ k <> default_key
        /\ first_key d default_key = Some k).
Proof.
  intros Hu. split; [intros ->; reflexivity|]. split; [|split].
  - intros Hne.
    destruct d as [|[k1 v1] [|[k2 v2] r]]; [congruence| |].
    + exists k1. split; [reflexivity|]. split; [|split].
      * apply (dict_get_in_mem _ k1 v1). now left.
      * cbn. intros H. lia.
      * intros k0 v0 r H _. now inversion H.
    + unfold first_key. cbn [length Nat.ltb Nat.leb filter fst].
      cbn in Hu. apply andb_true_iff in Hu as [Hk1 _].
      apply negb_true_iff in Hk1. apply orb_false_iff in Hk1 as [Hk12 _].
      destruct (String.eqb_spec k1 default_key) as [->|H1]; cbn [negb].
      * rewrite String.eqb_sym in Hk12. rewrite Hk12. cbn [negb fst].
        exists k2. repeat split.
        -- apply (dict_get_in_mem _ k2 v2). right. now left.
        -- intros _ ->. now rewrite String.eqb_refl in Hk12.
        -- intros k0 v0 r0 H [Hk|Hr]; inversion H; subst; congruence.
      * exists k1. repeat split.
        -- apply (dict_get_in_mem _ k1 v1). now left.
        -- intros _. exact H1.
        -- intros k0 v0 r0 H _. now inversion H.
  - intros k v ->. reflexivity.
  - intros Hlen. unfold first_key.
    apply Nat.ltb_lt in Hlen. rewrite Hlen.
    destruct (filter_first_other d default_key)
      as [(pre & k & v & post & Hd & Hpre & Hk & Hf)|[Hall Hf]].
    + exists pre, k, v, post. rewrite Hf. now repeat split.
    + exfalso. apply Nat.ltb_lt in Hlen.
      destruct d as [|[k1 v1] [|[k2 v2] r]]; cbn in Hlen; try lia.
      pose proof (Forall_inv Hall) as H1.
      pose proof (Forall_inv (Forall_inv_tail Hall)) as H2.
      cbn in H1, H2. subst k1 k2. cbn in Hu.
      rewrite String.eqb_refl in Hu. discriminate Hu.
Qed.
Lemma filter_is_dict_idem (items : list value) :
  filter is_dict (filter is_dict items) = filter is_dict items.
Proof.
  induction items as [|x items IH]; [reflexivity|].
  cbn. destruct (is_dict x) eqn:E; [|exact IH].
  cbn. now rewrite E, IH.
Qed.

(** X17. What [deserialise_entities] returns holds dicts only; for a list
    it is the list without its non-dict items, in order; and applying it
    again changes nothing. *)
Theorem deserialise_entities_only_dicts (entities : value) (l : list value) :
  deserialise_entities ext entities = Ok l ->
  Forall (fun e => is_dict e = true) l
  /\ deserialise_entities ext (VList l) = Ok l
  /\ (forall items, entities = VList items -> l = filter is_dict items).
Proof.
  unfold deserialise_entities. intros H.
  assert (Hl : exists items, l = filter is_dict items
                 /\ (forall items', entities = VList items' -> items' = items)).
  { destruct entities; cbn in H; try discriminate H.
    - destruct (json_loads ext s) as [v|x]; [|discriminate H].
      cbn in H. destruct (py_iter v) as [items|x]; [|discriminate H].
      cbn in H. injection H as <-. exists items. split; [reflexivity|].
      intros items' Hx. discriminate Hx.
    - injection H as <-. exists l0. split; [reflexivity|].
      intros items' Hx. now inversion Hx.
    - injection H as <-. eexists. split; [reflexivity|].
      intros items' Hx. discriminate Hx. }
  destruct Hl as (items & -> & Hitems). clear H.
  split; [|split].
  - apply Forall_forall. intros x Hx. now apply filter_In in Hx.
  - cbn. f_equal. apply filter_is_dict_idem.
  - intros items' Hx. now rewrite (Hitems items' Hx).
Qed.
End Helpers.

(** ** The story decoder *)

Section StoryDecoder.

Variable ext : Externals.

Lemma slot_events_class items w :
  Forall (fun e => class_of e = SlotSet) (slot_events items w).
Proof.
  revert w. induction items as [|[k v] r IH]; intros w; cbn;
    constructor; auto.
Qed.

Ltac finish_story :=
  let Hrun := fresh "Hrun" in
  intros Hrun;
  try match goal with x : exn |- _ => destruct x end;
  inversion Hrun; subst; cbn;
  repeat split; try (constructor; auto); try discriminate; auto.

(** X18. When the story decoder returns events, they are all of the class
    the registry resolved the name to, there is at least one (the decoder
    returns [None], never an empty list), and exactly one unless the class
    is SlotSet. *)
Theorem from_story_string_shape (event_name : value) (parameters : dict)
    (default : option EventClass) (w w' : World) (l : list Event) :
  from_story_string ext event_name parameters default w = (Ok (Some l), w') ->
  exists cls,
    resolve_by_type ext event_name default = Ok (Some cls)
    /\ Forall (fun e => class_of e = cls) l
    /\ l <> []
    /\ (cls <> SlotSet -> length l = 1%nat).
Proof.
  unfold from_story_string. unfold bind at 1. unfold lift.
  destruct (resolve_by_type ext event_name default) as [[cls|]|x];
    [|intros H; discriminate H..].
  intros H. exists cls. split; [reflexivity|]. revert H.
  destruct cls; cbn [cls_from_story_string].
  all: try solve [unfold_decoders; rewrite Event_init_run; cbn [fst snd];
                  finish_story].
  - (* UserUttered *)
    unfold_decoders.
    destruct (obj_get (get parameters "parse_data") "intent");
      [|finish_story].
    destruct (obj_get_default (get parameters "parse_data") "entities"
                (VList [])); [|finish_story].
    rewrite Event_init_run; cbn [fst snd]; finish_story.
  - (* SlotSet *)
    unfold SlotSet._from_story_string, bind. rewrite slots_of_run.
    unfold ret. destruct parameters as [|[k v] r]; intros H; inversion H; subst.
    split; [apply (slot_events_class ((k, v) :: r) w)|].
    split; [discriminate|congruence].
  - (* ReminderScheduled *)
    unfold_decoders.
    destruct (parser_parse ext (get parameters "date_time"));
      [|finish_story].
    destruct (is_None (get_default parameters "name" VNone));
      unfold uuid_uuid1; rewrite Event_init_run; cbn [fst snd]; finish_story.
Qed.

(** X19. BotUttered, AgentUttered, ActionExecutionRejected and
    FormValidation inherit the story decoder of the base class, which
    calls the class with the ["timestamp"] and ["metadata"] entries as its
    first two positional arguments: these land in the text and data (the
    action name and policy; the flag and time stamp) of the event, and the
    time stamp of the first three is read from the clock. *)
Theorem inherited_story_decoder_arguments (parameters : dict)
    (default : option EventClass) (w : World) :
  from_story_string ext (VStr "bot") parameters default w =
    (Ok (Some [EvBotUttered (get parameters "timestamp")
                 (py_or (get parameters "metadata") (VDict []))
                 (VDict []) (now w)]), tick w)
  /\ from_story_string ext (VStr "agent") parameters default w =
       (Ok (Some [EvAgentUttered (get parameters "timestamp")
                    (get parameters "metadata") (now w) (VDict [])]), tick w)
  /\ from_story_string ext (VStr "action_execution_rejected") parameters
       default w =
       (Ok (Some [EvActionExecutionRejected (get parameters "timestamp")
                    (get parameters "metadata") VNone (now w) (VDict [])]),
        tick w)
  /\ from_story_string ext (VStr "form_validation") parameters default w =
       (Ok (Some [EvFormValidation (get parameters "timestamp")
                    (if truthy (get parameters "metadata")
                     then get parameters "metadata" else now w)
                    (VDict [])]),
        if truthy (get parameters "metadata") then w else tick w).
Proof.
  repeat split.
  rewrite (from_story_string_registered ext FormValidation).
  cbn [cls_from_story_string]. unfold_decoders.
  rewrite Event_init_run. cbn [fst snd]. reflexivity.
Qed.
End StoryDecoder.

(** ** User and bot messages *)

Section Messages.

Variable ext : Externals.

(** X20. A user message constructed without [parse_data], from
    well-formed text, an intent that is a dict (or falsy) and entities that
    are a list (or falsy), survives the dict round trip: decoding its
    record gives a message equal to it. *)
Theorem constructed_user_message_roundtrips
    (text intent entities ts ic mid md : value) (w w2 : World) :
  wf_value text = true ->
  (truthy intent = true -> is_dict intent = true /\ wf_value intent = true) ->
  (truthy entities = true -> is_list entities = true) ->
  exists e w1 e' w3,
    UserUttered.__init__ text intent entities VNone ts ic mid md w = (Ok e, w1)
    /\ from_parameters ext (as_dict ext e) None w2 = (Ok (Some e'), w3)
    /\ __eq__ ext e e' = Ok true.
Proof.
  intros Ht Hi He.
  unfold UserUttered.__init__, bind. rewrite Event_init_run.
  cbn [fst snd ret truthy].
  set (i := if truthy intent then intent else VDict []).
  set (en := if truthy entities then entities else VList []).
  set (e := EvUserUttered text i en
              (VDict [("intent", i); ("entities", en); ("text", text);
                      ("message_id", mid);
                      ("metadata", py_or md (VDict []))])
              (if truthy ts then ts else now w) ic mid
              (py_or md (VDict []))).
  assert (Hr : roundtrip_ready ext e).
  { assert (Hwi : wf_value i = true /\ is_dict i = true).
    { subst i. destruct (truthy intent); [|split; reflexivity].
      destruct (Hi eq_refl). now split. }
    assert (Hen : is_list en = true).
    { subst en. destruct (truthy entities); [now apply He|reflexivity]. }
    assert (Hpi : py_or i (VDict []) = i).
    { subst i. unfold py_or. destruct (truthy intent) eqn:Ei;
        [now rewrite Ei|reflexivity]. }
    assert (Hpe : py_or en (VList []) = en).
    { subst en. unfold py_or. destruct (truthy entities) eqn:Ee;
        [now rewrite Ee|reflexivity]. }
    subst e. cbn [roundtrip_ready].
    split; [exact Ht|]. split; [apply Hwi|]. split; [apply Hwi|].
    split; [exact Hen|].
    eexists. split; [reflexivity|]. split; assumption. }
  destruct (dict_rt ext e w2 Hr) as (e' & w3 & Hd & _ & Heq).
  exists e, (if truthy ts then w else tick w), e', w3.
  split; [reflexivity|]. split; assumption.
Qed.

Lemma dict_get_set_same d k v : dict_get (dict_set d k v) k = Some v.
Proof.
  induction d as [|[k' v'] r IH]; cbn.
  - now rewrite String.eqb_refl.
  - destruct (String.eqb k' k) eqn:E; cbn; rewrite E; auto.
Qed.

Lemma dict_get_set_other d k v k0 :
  k <> k0 -> dict_get (dict_set d k v) k0 = dict_get d k0.
Proof.
  intros Hne. induction d as [|[k' v'] r IH]; cbn.
  - destruct (String.eqb_spec k k0); [contradiction|reflexivity].
  - destruct (String.eqb_spec k' k) as [->|Hk]; cbn.
    + destruct (String.eqb_spec k k0); [contradiction|reflexivity].
    + destruct (String.eqb k' k0); [reflexivity|exact IH].
Qed.

Lemma dict_get_update d u k :
  unique_keys (map fst u) = true ->
  dict_get (dict_update d u) k =
    match dict_get u k with
    | Some v => Some v
    | None => dict_get d k
    end.
Proof.
  unfold dict_update. revert d.
  induction u as [|[k' v'] r IH]; intros d Hu; [reflexivity|].
  cbn in Hu. apply andb_true_iff in Hu as [Hk Hr].
  cbn [fold_left fst snd dict_get]. rewrite (IH _ Hr).
  destruct (String.eqb_spec k' k) as [->|Hne].
  - assert (Hnone : dict_get r k = None).
    { apply negb_true_iff in Hk.
      destruct (dict_get r k) eqn:E; [|reflexivity].
      exfalso. assert (Hex : existsb (String.eqb k) (map fst r) = true).
      { clear -E. induction r as [|[k1 v1] r IH]; cbn in *; [discriminate|].
        destruct (String.eqb_spec k1 k) as [->|H].
        - now rewrite String.eqb_refl.
        - rewrite (IH E). apply orb_true_r. }
      congruence. }
    rewrite Hnone. apply dict_get_set_same.
  - destruct (dict_get r k); [reflexivity|].
    now apply dict_get_set_other.
Qed.

(** X21. [BotUttered.message]: under every key but ["attachment"] the
    message holds the entry of the metadata if there is one, else the text
    and time stamp of the event under ["text"] and ["timestamp"], else the
    entry of the data. Under ["attachment"] it holds [None] whenever the
    image equals the attachment (also when both are absent), and the
    merged entry otherwise. *)
Theorem message_entries (text ts : value) (data md : dict) :
  unique_keys (map fst md) = true ->
  (forall k, k <> "attachment" ->
      dict_get (message text data md ts) k = merged_entry text data md ts k)
  /\ dict_get (message text data md ts) "attachment" =
       (if py_eq (entry_value (merged_entry text data md ts "image"))
                 (entry_value (merged_entry text data md ts "attachment"))
        then Some VNone
        else merged_entry text data md ts "attachment").
Proof.
  intros Hu.
  assert (Hm : forall k,
            dict_get (dict_update
                        (dict_set (dict_set data "text" text) "timestamp" ts)
                        md) k = merged_entry text data md ts k).
  { intros k. unfold merged_entry. rewrite dict_get_update by exact Hu.
    destruct (dict_get md k); [reflexivity|].
    destruct (String.eqb_spec k "timestamp") as [->|Ht].
    - cbn. apply dict_get_set_same.
    - rewrite dict_get_set_other by congruence.
      destruct (String.eqb_spec k "text") as [->|Hx].
      + apply dict_get_set_same.
      + now rewrite dict_get_set_other by congruence. }
  split.
  - intros k Hk. unfold message. rewrite <- Hm.
    destruct (py_eq _ _); [|reflexivity].
    apply dict_get_set_other. congruence.
  - unfold message, get. rewrite !Hm. unfold entry_value.
    destruct (py_eq _ _); [apply dict_get_set_same|apply Hm].
Qed.
End Messages.

Section UserStoryString.

Variable ext : Externals.

Lemma append_empty (s : string) : s ++ EmptyString = s.
Proof. induction s as [|c s IH]; cbn; [reflexivity|now rewrite IH]. Qed.

Lemma unique_keys_middle (l1 l2 : list string) k :
  unique_keys (l1 ++ k :: l2)%list = true ->
  existsb (String.eqb k) l1 = false.
Proof.
  induction l1 as [|h l1 IH]; cbn; [reflexivity|].
  intros H. apply andb_true_iff in H as [Hh Hr].
  rewrite (IH Hr), orb_false_r.
  apply negb_true_iff in Hh. rewrite existsb_app in Hh.
  apply orb_false_iff in Hh as [_ Hh]. cbn in Hh.
  apply orb_false_iff in Hh as [Hh _]. now rewrite String.eqb_sym.
Qed.

Lemma display_set_fresh (pre : dict) k v :
  existsb (String.eqb k) (map fst pre) = false ->
  display_set (map str_item pre) (VStr k) v
    = map str_item (pre ++ [(k, v)])%list.
Proof.
  induction pre as [|[k' v'] pre IH]; cbn; [reflexivity|].
  intros H. apply orb_false_iff in H as [Hk Hr].
  rewrite String.eqb_sym, Hk. now rewrite (IH Hr).
Qed.

Lemma entity_display_run (ents : list dict) (kvs pre : dict) :
  Forall2 entity_named ents kvs ->
  unique_keys (map fst (pre ++ kvs)%list) = true ->
  entity_display ext (map VDict ents) (map str_item pre)
    = Ok (map str_item (pre ++ kvs)%list).
Proof.
  intros H. revert pre.
  induction H as [|ent [k v] ents kvs [He Hv] _ IH]; intros pre Hu.
  - cbn. now rewrite app_nil_r.
  - cbn [map entity_display subscript]. cbn in He, Hv. rewrite He, Hv.
    cbn [rbind json_key].
    rewrite display_set_fresh.
    + rewrite IH; rewrite <- app_assoc; [reflexivity|exact Hu].
    + rewrite map_app in Hu. cbn in Hu. now apply unique_keys_middle in Hu.
Qed.

Lemma dumps_display_str_items (b : bool) (kvs : dict) :
  dumps_display ext b (map str_item kvs) = Ok (dumps ext b (VDict kvs)).
Proof.
  unfold dumps_display, dumps. cbn [json_dumps].
  assert (H : rmap_list
                (fun kv : value * value =>
                   let? k := json_key ext (fst kv) in
                   Ok (encode_basestring b k ++ ": "
                       ++ json_dumps (float_repr ext) b (snd kv)))
                (map str_item kvs)
              = Ok (map (fun kv : string * value =>
                           encode_basestring b (fst kv) ++ ": "
                           ++ json_dumps (float_repr ext) b (snd kv)) kvs)).
  { induction kvs as [|[k v] kvs IH]; [reflexivity|].
    cbn [map rmap_list str_item fst snd json_key rbind]. now rewrite IH. }
  unfold dumps in H. now rewrite H.
Qed.

(** X22. The story string of a user message: its text when it has no
    intent; the name of the intent when it has no entities; with entities
    that are dicts naming distinct entities, the name of the intent
    followed by the JSON object of entity names and values, in order,
    written with [ensure_ascii=False]; and a [KeyError] when the first
    entity has no ["entity"] key. *)
Theorem user_story_string (text intent entities pd ts ic mid md : value) :
  (forall e2e, truthy intent = false ->
     as_story_string ext
       (EvUserUttered text intent entities pd ts ic mid md) e2e = Ok text)
  /\ (forall i, intent = VDict i -> i <> [] -> truthy entities = false ->
        as_story_string ext
          (EvUserUttered text intent entities pd ts ic mid md) false
        = Ok (VStr (py_format ext (get_default i "name" (VStr EmptyString)))))
  /\ (forall i ents kvs,
        intent = VDict i -> i <> [] ->
        entities = VList (map VDict ents) -> ents <> [] ->
        Forall2 entity_named ents kvs ->
        unique_keys (map fst kvs) = true ->
        as_story_string ext
          (EvUserUttered text intent entities pd ts ic mid md) false
        = Ok (VStr (py_format ext (get_default i "name" (VStr EmptyString))
                    ++ dumps ext false (VDict kvs))))
  /\ (forall i ent rest e2e,
        intent = VDict i -> i <> [] ->
        entities = VList (VDict ent :: rest) ->
        dict_get ent "entity" = None ->
        as_story_string ext
          (EvUserUttered text intent entities pd ts ic mid md) e2e
        = Raise (KeyError "entity")).
Proof.
  repeat split.
  - intros e2e H. cbn. now rewrite H.
  - intros i -> Hi He. cbn [as_story_string].
    destruct i; [congruence|]. cbn [truthy]. rewrite He.
    cbn [rbind obj_get_default]. now rewrite append_empty.
  - intros i ents kvs -> Hi -> Hents HF Hu. cbn [as_story_string].
    destruct i as [|kv0 i]; [congruence|].
    destruct ents as [|ent0 ents]; [congruence|].
    cbn [truthy map py_iter rbind].
    change (VDict ent0 :: map VDict ents) with (map VDict (ent0 :: ents)).
    pose proof (entity_display_run (ent0 :: ents) kvs [] HF Hu) as E.
    change (map str_item []) with (@nil (value * value)) in E.
    cbn [app] in E. rewrite E.
    cbn [rbind]. rewrite dumps_display_str_items. reflexivity.
  - intros i ent rest e2e -> Hi -> Hnone. cbn [as_story_string].
    destruct i; [congruence|].
    cbn [truthy py_iter rbind entity_display subscript].
    rewrite Hnone. reflexivity.
Qed.
End UserStoryString.

(** ** Story forms, decoded classes, batch accounting *)

Section Accounting.
Variable ext : Externals.

(** X23. The story string by variant: [None] for BotUttered, AgentUttered,
    FormValidation and ActionExecutionRejected, whatever they hold; a text
    that starts with the tag of the variant for the payload-free variants
    and for reminders, cancelled reminders, follow-ups and forms, whatever
    they hold; for a slot the tag and the JSON object of key and value, or
    the [TypeError] of a key that cannot be a dict key; for an executed
    action its action name, without tag. *)
Theorem story_string_forms (e : Event) (e2e : bool) :
  (In (class_of e) no_story_form -> as_story_string ext e e2e = Ok VNone)
  /\ (In (class_of e) tagged_story_form ->
      exists rest,
        as_story_string ext e e2e
          = Ok (VStr (type_name (class_of e) ++ rest)))
  /\ (forall key val ts md,
        e = EvSlotSet key val ts md ->
        match json_key ext key with
        | Ok k =>
            as_story_string ext e e2e
              = Ok (VStr (type_name SlotSet
                          ++ dumps ext false (VDict [(k, val)])))
        | Raise x => as_story_string ext e e2e = Raise x
        end)
  /\ (forall a p c ts md u,
        e = EvActionExecuted a p c ts md u ->
        as_story_string ext e e2e = Ok a).
Proof.
  split; [|split; [|split]].
  - intros H. destruct e; cbn in H; try reflexivity;
      exfalso; intuition congruence.
  - intros H. destruct e; cbn in H; try (exfalso; intuition congruence);
      try (exists EmptyString; reflexivity); eexists; reflexivity.
  - intros key val ts md ->. cbn [as_story_string].
    unfold dumps_display. cbn [rmap_list fst snd].
    destruct (json_key ext key); reflexivity.
  - intros a p c ts md u ->. reflexivity.
Qed.

Ltac finish_class :=
  let Hrun := fresh "Hrun" in
  intros Hrun;
  try match goal with x : exn |- _ => destruct x end;
  inversion Hrun; subst; reflexivity.

(** X24. An event decoded from a record is of the class the registry
    resolves the record's tag to (with the fallback passed). *)
Theorem from_parameters_class (parameters : dict)
    (default : option EventClass) (w w' : World) (e : Event) :
  from_parameters ext parameters default w = (Ok (Some e), w') ->
  resolve_by_type ext (get parameters "event") default
    = Ok (Some (class_of e)).
Proof.
  unfold from_parameters.
  destruct (is_None (get parameters "event")); [intros H; discriminate H|].
  unfold bind at 1. unfold lift.
  destruct (resolve_by_type ext (get parameters "event") default)
    as [[cls|]|x]; [|intros H; discriminate H..].
  destruct cls; cbn [cls_from_parameters]; unfold_decoders.
  all: try solve [rewrite Event_init_run; cbn [fst snd length Nat.ltb Nat.leb];
                  finish_class].
  - destruct (obj_get (get parameters "parse_data") "intent");
      [|finish_class].
    destruct (obj_get_default (get parameters "parse_data") "entities"
                (VList [])); [|finish_class].
    rewrite Event_init_run; cbn [fst snd length Nat.ltb Nat.leb]; finish_class.
  - destruct (parser_parse ext (get parameters "date_time"));
      [|finish_class].
    destruct (is_None (get_default parameters "name" VNone));
      unfold uuid_uuid1; rewrite Event_init_run;
      cbn [fst snd length Nat.ltb Nat.leb]; finish_class.
Qed.

Lemma deserialise_loop_accounts batch :
  forall acc w evs w',
    deserialise_loop ext batch acc w = (Ok evs, w') ->
    exists k,
      log w' = (log w ++ repeat unable_to_parse k)%list
      /\ (length evs + k
          = length acc + length (filter (dict_mem "event") batch))%nat.
Proof.
  induction batch as [|e batch IH]; intros acc w evs w' H.
  - cbn in H. inversion H; subst. exists 0%nat. cbn.
    rewrite app_nil_r. split; [reflexivity|lia].
  - rewrite deserialise_loop_step in H. cbn [filter].
    destruct (dict_mem "event" e) eqn:Em.
    + destruct (from_parameters ext e None w) as [[[ev|]|x] w1] eqn:Ef;
        [| |discriminate H].
      * destruct (from_parameters_effects_aux ext _ _ _ _ _ Ef) as (Hl & _).
        destruct (IH _ _ _ _ H) as (k & Hlog & Hlen).
        exists k. rewrite Hlog, Hl. split; [reflexivity|].
        rewrite length_app in Hlen. cbn in Hlen |- *. lia.
      * destruct (from_parameters_effects_aux ext _ _ _ _ _ Ef) as (Hl & _).
        destruct (IH _ _ _ _ H) as (k & Hlog & Hlen).
        exists (S k). rewrite Hlog. cbn [warned log repeat]. rewrite Hl.
        rewrite <- app_assoc. split; [reflexivity|].
        cbn [length]. lia.
    + apply (IH _ _ _ _ H).
Qed.

(** X25. A batch that decodes accounts for every record with an
    ["event"] key: each one gives exactly one event or exactly one warning
    in the log (and nothing else is logged), so there are never more
    events than records. *)
Theorem deserialise_events_accounts (batch : list dict) (w w' : World)
    (evs : list Event) :
  deserialise_events ext batch w = (Ok evs, w') ->
  exists k,
    log w' = (log w ++ repeat unable_to_parse k)%list
    /\ (length evs + k = length (filter (dict_mem "event") batch))%nat
    /\ (length evs <= length batch)%nat.
Proof.
  intros H. destruct (deserialise_loop_accounts batch [] w evs w' H)
    as (k & Hlog & Hlen).
  exists k. cbn in Hlen. repeat split; trivial.
  pose proof (filter_length_le (dict_mem "event") batch). lia.
Qed.
End Accounting.

(** ** The properties above on examples *)

Lemma registry_resolves_tags_witness :
  type_name SlotSet = "slot" /\ SlotSet = SlotSet.
Proof.
  split; [reflexivity|].
  apply (proj1 (registry_resolves_tags example_ext) SlotSet SlotSet).
  reflexivity.
Defined.

Lemma records_without_event_key_witness :
  from_parameters example_ext [("name", VStr "city"); ("value", VInt 3)]
    (Some ActionExecuted) example_world = (Ok None, example_world).
Proof.
  apply (proj1 (records_without_event_key example_ext)). reflexivity.
Defined.

Lemma deserialise_events_app_witness :
  deserialise_events example_ext ([restart_record] ++ [as_dict example_ext oslo_slot])
    example_world
  = (Ok ([EvRestarted (VInt 1589707800) (VDict [])] ++ [oslo_slot])%list,
     example_world).
Proof.
  apply (proj1 (deserialise_events_app example_ext [restart_record]
                  [as_dict example_ext oslo_slot] example_world)
           _ example_world); reflexivity.
Defined.

Lemma oslo_slot_recorded : fully_recorded example_ext oslo_slot.
Proof. repeat split. Qed.

Lemma exact_dict_roundtrip_witness :
  from_parameters example_ext (as_dict example_ext oslo_slot) None
    example_world = (Ok (Some oslo_slot), example_world).
Proof.
  apply (exact_dict_roundtrip example_ext oslo_slot example_world).
  exact oslo_slot_recorded.
Defined.

Lemma unrecorded_fields_are_lost_witness :
  from_parameters example_ext
    (as_dict example_ext
       (EvReminderCancelled (VStr "action_remind") (VInt 7) (VDict [])))
    None example_world
  = (Ok (Some (EvReminderCancelled VNone (VInt 7)
                 (py_or (VDict []) (VDict [])))), example_world).
Proof.
  apply (unrecorded_fields_are_lost example_ext (VStr "action_remind")
           (VInt 7) (VDict []) example_world).
  reflexivity.
Defined.

Lemma from_parameters_effects_witness :
  log (snd (from_parameters example_ext restart_record None example_world))
  = log example_world.
Proof.
  apply (from_parameters_effects example_ext restart_record None
           example_world _
           (fst (from_parameters example_ext restart_record None
                   example_world))).
  reflexivity.
Defined.

Lemma batch_roundtrip_witness :
  exists es' w',
    deserialise_events example_ext
      (map (as_dict example_ext) [example_reminder; oslo_slot]) example_world
    = (Ok es', w')
    /\ Forall2 (fun e e' => class_of e' = class_of e
                            /\ __eq__ example_ext e e' = Ok true)
         [example_reminder; oslo_slot] es'.
Proof.
  apply (batch_roundtrip example_ext [example_reminder; oslo_slot]
           example_world).
  repeat constructor; try discriminate.
Defined.

Lemma first_key_spec_witness :
  first_key [("intent", VStr "greet"); ("a", VInt 1); ("b", VInt 2)] "intent"
    = Some "a"
  /\ exists pre k v post,
       [("intent", VStr "greet"); ("a", VInt 1); ("b", VInt 2)]
         = (pre ++ (k, v) :: post)%list
       /\ Forall (fun kv => fst kv = "intent") pre
       /\ k <> "intent"
       /\ first_key [("intent", VStr "greet"); ("a", VInt 1); ("b", VInt 2)]
            "intent" = Some k.
Proof.
  split; [reflexivity|].
  apply (proj2 (proj2 (proj2
           (first_key_spec
              [("intent", VStr "greet"); ("a", VInt 1); ("b", VInt 2)]
              "intent" eq_refl)))).
  cbn. lia.
Defined.

Lemma deserialise_entities_only_dicts_witness :
  Forall (fun e => is_dict e = true)
    [VDict [("entity", VStr "city"); ("value", VStr "Oslo")]].
Proof.
  apply (deserialise_entities_only_dicts example_ext
           (VList [VDict [("entity", VStr "city"); ("value", VStr "Oslo")];
                   VStr "noise"])).
  reflexivity.
Defined.

Lemma from_story_string_shape_witness :
  exists cls,
    resolve_by_type example_ext (VStr "slot") None = Ok (Some cls)
    /\ Forall (fun e => class_of e = cls)
         (slot_events [("a", VInt 1); ("b", VInt 2)] example_world)
    /\ slot_events [("a", VInt 1); ("b", VInt 2)] example_world <> []
    /\ (cls <> SlotSet ->
        length (slot_events [("a", VInt 1); ("b", VInt 2)] example_world)
        = 1%nat).
Proof.
  apply (from_story_string_shape example_ext (VStr "slot")
           [("a", VInt 1); ("b", VInt 2)] None example_world
           (advance 2 example_world)).
  reflexivity.
Defined.

Lemma constructed_user_message_roundtrips_witness :
  exists e w1 e' w3,
    UserUttered.__init__ (VStr "hello") (VDict [("name", VStr "greet")])
      VNone VNone VNone VNone VNone VNone example_world = (Ok e, w1)
    /\ from_parameters example_ext (as_dict example_ext e) None example_world
       = (Ok (Some e'), w3)
    /\ __eq__ example_ext e e' = Ok true.
Proof.
  apply (constructed_user_message_roundtrips example_ext (VStr "hello")
           (VDict [("name", VStr "greet")]) VNone VNone VNone VNone VNone
           example_world example_world).
  - reflexivity.
  - intros _. split; reflexivity.
  - discriminate.
Defined.

Lemma message_entries_witness :
  dict_get (message (VStr "hi") [("image", VStr "a.png")] [] (VInt 3))
    "attachment"
  = (if py_eq
          (entry_value (merged_entry (VStr "hi") [("image", VStr "a.png")] []
                          (VInt 3) "image"))
          (entry_value (merged_entry (VStr "hi") [("image", VStr "a.png")] []
                          (VInt 3) "attachment"))
     then Some VNone
     else merged_entry (VStr "hi") [("image", VStr "a.png")] [] (VInt 3)
            "attachment").
Proof.
  apply (message_entries (VStr "hi") (VInt 3) [("image", VStr "a.png")] []).
  reflexivity.
Defined.

Lemma user_story_string_witness :
  as_story_string example_ext
    (EvUserUttered (VStr "I am in Oslo") (VDict [("name", VStr "inform")])
       (VList (map VDict [[("entity", VStr "city"); ("value", VStr "Oslo");
                           ("start", VInt 8)]]))
       VNone (VInt 1) VNone VNone (VDict [])) false
  = Ok (VStr (py_format example_ext
                (get_default [("name", VStr "inform")] "name" (VStr EmptyString))
              ++ dumps example_ext false (VDict [("city", VStr "Oslo")]))).
Proof.
  apply (proj1 (proj2 (proj2
           (user_story_string example_ext (VStr "I am in Oslo")
              (VDict [("name", VStr "inform")])
              (VList (map VDict [[("entity", VStr "city");
                                  ("value", VStr "Oslo"); ("start", VInt 8)]]))
              VNone (VInt 1) VNone VNone (VDict []))))
           [("name", VStr "inform")]
           [[("entity", VStr "city"); ("value", VStr "Oslo"); ("start", VInt 8)]]
           [("city", VStr "Oslo")]).
  - reflexivity.
  - discriminate.
  - reflexivity.
  - discriminate.
  - repeat constructor.
  - reflexivity.
Defined.

Lemma story_string_forms_witness :
  as_story_string example_ext
    (EvBotUttered (VStr "hi") (VDict []) (VDict []) (VInt 1)) false = Ok VNone.
Proof.
  apply (proj1 (story_string_forms example_ext
                  (EvBotUttered (VStr "hi") (VDict []) (VDict []) (VInt 1))
                  false)).
  cbn. tauto.
Defined.

Lemma from_parameters_class_witness :
  resolve_by_type example_ext (get restart_record "event") None
  = Ok (Some (class_of (EvRestarted (VInt 1589707800) (VDict [])))).
Proof.
  apply (from_parameters_class example_ext restart_record None example_world
           example_world).
  reflexivity.
Defined.

Lemma deserialise_events_accounts_witness :
  exists k,
    log (warned unable_to_parse (advance 2 example_world))
    = (log example_world ++ repeat unable_to_parse k)%list
    /\ (length [EvSlotSet (VStr "a") (VInt 1) (now example_world) (VDict []);
                EvSlotSet (VStr "b") (VInt 2) (now (tick example_world))
                  (VDict [])] + k
        = length (filter (dict_mem "event") topic_batch))%nat
    /\ (length [EvSlotSet (VStr "a") (VInt 1) (now example_world) (VDict []);
                EvSlotSet (VStr "b") (VInt 2) (now (tick example_world))
                  (VDict [])]
        <= length topic_batch)%nat.
Proof.
  apply (deserialise_events_accounts example_ext topic_batch example_world).
  reflexivity.
Defined.
